(** * Layer library: validation, behaviours, mapping and producer

    A shallow embedding of the layer logic library (LayerTypes,
    LayerValidator, LayerImageResolver, LayerLogicBasic, LayerLogicSpin,
    LayerLogicOrbit, LayerLogicPulse, LayerLogicFade, LayerMappingImage,
    LayerMappingScreen, LayerProducer, LayerPipeline, LayerConverter),
    with the properties that the specification states and further
    properties of the code.

    Numbers.  The library mostly tests, compares, selects and copies
    numbers.  For that a JavaScript number is modelled as an extended
    real: the special values NaN, +Infinity and -Infinity are kept, with
    the IEEE 754 rules for arithmetic and comparison on them, and a finite
    number is a real number.  On finite numbers the arithmetic of this
    model is exact, which the arithmetic of the code is not: it rounds and
    overflows.  So the results stated on this model are those that rest
    on guards, comparisons, minima and maxima and on the shape of the
    result; the results that depend on what the arithmetic computes are
    stated in [Double], where the functions concerned are embedded on
    binary64 numbers.  The sign of a zero is outside the first model.

    Untrusted input.  The raw configuration is a tree of JavaScript values
    ([value]); property access, [typeof], truthiness, [??] and [===] are
    written out as the validator uses them. *)

From Stdlib Require Import Reals Lra List String Ascii Bool Arith Lia.
From Stdlib Require Import DecimalString.
From Stdlib Require Floats.
Import ListNotations.

Local Open Scope string_scope.
Local Open Scope R_scope.

(* ================================================================== *)
(** ** Numbers *)

Inductive number : Type :=
| Num (r : R)
| NaN
| PosInf
| NegInf.

Definition Rltb (a b : R) : bool := if Rlt_dec a b then true else false.
Definition Rleb (a b : R) : bool := if Rle_dec a b then true else false.

Module JS.

(** [Number.isFinite] *)
Definition Number_isFinite (n : number) : bool :=
  match n with Num _ => true | _ => false end.

(** [a < b] *)
Definition lt (a b : number) : bool :=
  match a, b with
  | NaN, _ | _, NaN => false
  | Num p, Num q => Rltb p q
  | NegInf, (Num _ | PosInf) => true
  | Num _, PosInf => true
  | _, _ => false
  end.

(** [a <= b] *)
Definition le (a b : number) : bool :=
  match a, b with
  | NaN, _ | _, NaN => false
  | Num p, Num q => Rleb p q
  | NegInf, _ => true
  | _, PosInf => true
  | _, _ => false
  end.

(** [a > b] and [a >= b] *)
Definition gt (a b : number) : bool := lt b a.
Definition ge (a b : number) : bool := le b a.

(** unary [-a] *)
Definition neg (a : number) : number :=
  match a with
  | Num p => Num (- p)
  | NaN => NaN
  | PosInf => NegInf
  | NegInf => PosInf
  end.

(** [a + b] *)
Definition add (a b : number) : number :=
  match a, b with
  | NaN, _ | _, NaN => NaN
  | Num p, Num q => Num (p + q)
  | PosInf, NegInf | NegInf, PosInf => NaN
  | PosInf, _ | _, PosInf => PosInf
  | NegInf, _ | _, NegInf => NegInf
  end.

(** [a - b] *)
Definition sub (a b : number) : number := add a (neg b).

(** an infinity of the sign of [s * p], NaN when [p = 0] *)
Definition signed_inf (positive : bool) (p : R) : number :=
  if Rltb 0 p then (if positive then PosInf else NegInf)
  else if Rltb p 0 then (if positive then NegInf else PosInf)
  else NaN.

(** [a * b] *)
Definition mul (a b : number) : number :=
  match a, b with
  | NaN, _ | _, NaN => NaN
  | Num p, Num q => Num (p * q)
  | PosInf, PosInf | NegInf, NegInf => PosInf
  | PosInf, NegInf | NegInf, PosInf => NegInf
  | Num p, PosInf | PosInf, Num p => signed_inf true p
  | Num p, NegInf | NegInf, Num p => signed_inf false p
  end.

(** [a / b]; a zero divisor is +0 *)
Definition div (a b : number) : number :=
  match a, b with
  | NaN, _ | _, NaN => NaN
  | Num p, Num q =>
      if Rltb q 0 || Rltb 0 q then Num (p / q) else signed_inf true p
  | Num _, (PosInf | NegInf) => Num 0
  | PosInf, Num q => if Rltb q 0 then NegInf else PosInf
  | NegInf, Num q => if Rltb q 0 then PosInf else NegInf
  | _, _ => NaN
  end.

(** [Math.min], [Math.max]: NaN when either argument is NaN *)
Definition Math_min (a b : number) : number :=
  match a, b with
  | NaN, _ | _, NaN => NaN
  | _, _ => if le a b then a else b
  end.

Definition Math_max (a b : number) : number :=
  match a, b with
  | NaN, _ | _, NaN => NaN
  | _, _ => if le a b then b else a
  end.

Definition Math_PI : number := Num PI.

Definition Math_sin (a : number) : number :=
  match a with Num p => Num (sin p) | _ => NaN end.

Definition Math_cos (a : number) : number :=
  match a with Num p => Num (cos p) | _ => NaN end.

(** a number is falsy when it is zero or NaN *)
Definition truthy_number (a : number) : bool :=
  match a with
  | Num p => Rltb p 0 || Rltb 0 p
  | NaN => false
  | _ => true
  end.

End JS.

Declare Scope js_scope.
Delimit Scope js_scope with js.
Bind Scope js_scope with number.
Notation "a + b" := (JS.add a b) : js_scope.
Notation "a - b" := (JS.sub a b) : js_scope.
Notation "a * b" := (JS.mul a b) : js_scope.
Notation "a / b" := (JS.div a b) : js_scope.
Notation "- a" := (JS.neg a) : js_scope.
Notation "a <? b" := (JS.lt a b) (at level 70) : js_scope.
Notation "a <=? b" := (JS.le a b) (at level 70) : js_scope.
Notation "a >? b" := (JS.gt a b) (at level 70) : js_scope.
Notation "a >=? b" := (JS.ge a b) (at level 70) : js_scope.

Coercion Num : R >-> number.

(* ================================================================== *)
(** ** JavaScript values (the untrusted raw configuration) *)

#[warnings="-register-all"]
Inductive value : Type :=
| VUndef
| VNull
| VBool (b : bool)
| VNum (n : number)
| VStr (s : string)
| VArr (items : list value)
| VObj (fields : list (string * value)).

Fixpoint lookup_field (fields : list (string * value)) (k : string) : value :=
  match fields with
  | [] => VUndef
  | (k', v) :: rest => if String.eqb k' k then v else lookup_field rest k
  end.

(** [v?.k]: the own property [k] of an object, [undefined] on anything
    else (none of the property names the library reads is defined on a
    primitive or on an array). *)
Definition get (v : value) (k : string) : value :=
  match v with
  | VObj fields => lookup_field fields k
  | _ => VUndef
  end.

Definition truthy (v : value) : bool :=
  match v with
  | VUndef | VNull => false
  | VBool b => b
  | VNum n => JS.truthy_number n
  | VStr s => negb (String.eqb s "")
  | VArr _ | VObj _ => true
  end.

Definition typeof_object (v : value) : bool :=
  match v with VNull | VArr _ | VObj _ => true | _ => false end.

Definition typeof_string (v : value) : bool :=
  match v with VStr _ => true | _ => false end.

Definition typeof_boolean (v : value) : bool :=
  match v with VBool _ => true | _ => false end.

Definition typeof_number (v : value) : bool :=
  match v with VNum _ => true | _ => false end.

Definition is_undefined (v : value) : bool :=
  match v with VUndef => true | _ => false end.

Definition Array_isArray (v : value) : bool :=
  match v with VArr _ => true | _ => false end.

(** [v === "s"] *)
Definition is_str (v : value) (s : string) : bool :=
  match v with VStr s' => String.eqb s' s | _ => false end.

(** [a ?? b] *)
Definition nullish (a b : value) : value :=
  match a with VUndef | VNull => b | _ => a end.

(** TypeScript casts, applied by the source under a guard only. *)
Definition as_number (v : value) : number :=
  match v with VNum n => n | _ => NaN end.

Definition as_string (v : value) : string :=
  match v with VStr s => s | _ => "" end.

Definition as_array (v : value) : list value :=
  match v with VArr l => l | _ => [] end.

Fixpoint join (sep : string) (l : list string) : string :=
  match l with
  | [] => ""
  | [s] => s
  | s :: rest => s ++ sep ++ join sep rest
  end.

(** The one-character string holding a double quote. *)
Definition dquote : string := String (ascii_of_nat 34) EmptyString.

Definition string_of_nat (n : nat) : string :=
  NilZero.string_of_uint (Nat.to_uint n).

(** [Number::toString] of a finite number.  The decimal rendering of a
    double is outside the number model; the constant is sealed, and no
    result below depends on what it is. *)
Definition finite_number_to_string (r : R) : string.
Proof. exact "0". Qed.

(** [String(v)], as template literals apply it. *)
Fixpoint ToString (v : value) : string :=
  match v with
  | VUndef => "undefined"
  | VNull => "null"
  | VBool true => "true"
  | VBool false => "false"
  | VNum (Num r) => finite_number_to_string r
  | VNum NaN => "NaN"
  | VNum PosInf => "Infinity"
  | VNum NegInf => "-Infinity"
  | VStr s => s
  | VArr items =>
      join "," (map (fun e => match e with
                              | VUndef | VNull => ""
                              | _ => ToString e
                              end) items)
  | VObj _ => "[object Object]"
  end.

(* ================================================================== *)
(** ** LayerTypes *)

Module Vec2.
Record t : Type := mk { x : number; y : number }.
End Vec2.
Abbreviation Vec2 := Vec2.t.

Inductive StageOrigin : Type := center | top_left.

Module Stage.
(** StageConfigNormalized *)
Record t : Type := mk { width : number; height : number; origin : StageOrigin }.
End Stage.
Abbreviation StageConfigNormalized := Stage.t.

(** The behaviour configs.  [enabled] and [direction] are copied from the
    raw configuration without a type check, so they hold any value; the
    behaviour functions read them through truthiness and [===]. *)
Module Spin.
Record t : Type := mk { enabled : value; rpm : number; direction : value }.
End Spin.
Abbreviation SpinConfig := Spin.t.

Module Orbit.
(** [direction] is not a declared field of OrbitConfig; applyOrbit reads
    it through a cast, so an object that carries one is honoured. *)
Record t : Type :=
  mk { enabled : value; rpm : number; radius : number;
       center : option Vec2; direction : value }.
End Orbit.
Abbreviation OrbitConfig := Orbit.t.

Module Pulse.
Record t : Type := mk { enabled : value; amplitude : number; rpm : number }.
End Pulse.
Abbreviation PulseConfig := Pulse.t.

Module Fade.
Record t : Type := mk { enabled : value; from : number; to : number; rpm : number }.
End Fade.
Abbreviation FadeConfig := Fade.t.

Module Behaviors.
(** BehaviorsConfigNormalized *)
Record t : Type :=
  mk { spin : SpinConfig; orbit : OrbitConfig; pulse : PulseConfig; fade : FadeConfig }.
End Behaviors.
Abbreviation BehaviorsConfigNormalized := Behaviors.t.

Module EventHooks.
(** Each list holds the raw entries the validator kept. *)
Record t : Type :=
  mk { onPress : option (list value);
       onHover : option (list value);
       onRelease : option (list value) }.
End EventHooks.
Abbreviation EventHooks := EventHooks.t.

Inductive AssetRef : Type :=
| PathRef (path : string)            (* {type:"path", path} *)
| RegistryRef (key : string)         (* {type:"registry", key} *)
| OtherRef (type : value).           (* any other tag, reachable through a cast *)

Module AssetMeta.
Record t : Type :=
  mk { src : string; width : number; height : number;
       anchor : option Vec2; dpi : option number }.
End AssetMeta.
Abbreviation AssetMeta := AssetMeta.t.

Module Container.
(** The container of a normalized layer and of LayerData, and the
    ContainerSpec of the image mapping.  [fitMode] and [alignment] are
    declared required, and are filled by a cast of the raw values. *)
Record t : Type :=
  mk { width : option number; height : option number;
       fitMode : value; alignment : value }.
End Container.
Abbreviation Container := Container.t.

Module Layer.
(** LayerConfigNormalized *)
Record t : Type :=
  mk { layerId : string;
       assetRef : AssetRef;
       position : Vec2;
       scale : Vec2;
       angle : number;
       tilt : Vec2;
       anchor : Vec2;
       opacity : number;
       behaviors : BehaviorsConfigNormalized;
       events : EventHooks;
       container : option Container }.
End Layer.
Abbreviation LayerConfigNormalized := Layer.t.

Module Config.
(** LibraryConfigNormalized *)
Record t : Type := mk { stage : StageConfigNormalized; layers : list LayerConfigNormalized }.
End Config.
Abbreviation LibraryConfigNormalized := Config.t.

(** LibraryConfig: a non-null object whose two properties hold any value. *)
Module Input.
Record t : Type := mk { stage : value; layers : value }.
End Input.
Abbreviation LibraryConfig := Input.t.

Module Transform.
Record t : Type :=
  mk { position : Vec2; scale : Vec2; angle : number;
       tilt : Vec2; anchor : Vec2; opacity : number }.
End Transform.

Module State.
Record t : Type :=
  mk { isHovered : bool; isPressed : bool; isActive : bool; isVisible : bool }.
End State.

Module LayerData.
Record t : Type :=
  mk { id : string;
       zIndex : nat;
       asset : AssetRef;
       transform : Transform.t;
       container : option Container;
       behaviors : BehaviorsConfigNormalized;
       events : EventHooks;
       state : State.t }.
End LayerData.
Abbreviation LayerData := LayerData.t.

Module Context.
(** ProcessingContext; [registry] is the Map as its list of entries. *)
Record t : Type :=
  mk { stage : StageConfigNormalized; time : number;
       registry : list (string * AssetMeta) }.
End Context.
Abbreviation ProcessingContext := Context.t.

(** What a call yields: its value, or the message of the Error it throws. *)
Inductive result (A : Type) : Type :=
| Ok (a : A)
| Throw (message : string).
Arguments Ok {A} a.
Arguments Throw {A} message.

(* ================================================================== *)
(** ** LayerValidator *)

(** *** Defaults *)

Definition DEFAULT_STAGE : StageConfigNormalized := Stage.mk 2048 2048 center.

Definition DEFAULT_ANCHOR : Vec2 := Vec2.mk 0.5 0.5.
Definition DEFAULT_POSITION : Vec2 := Vec2.mk 0 0.
Definition DEFAULT_TILT : Vec2 := Vec2.mk 0 0.
Definition DEFAULT_SCALE : Vec2 := Vec2.mk 1 1.
Definition DEFAULT_OPACITY : number := 1.

Definition DEFAULT_BEHAVIORS : BehaviorsConfigNormalized :=
  Behaviors.mk
    (Spin.mk (VBool false) 0 (VStr "cw"))
    (Orbit.mk (VBool false) 0 0 None VUndef)
    (Pulse.mk (VBool false) 0 0)
    (Fade.mk (VBool false) 1 1 0).

(** *** Types *)

Inductive Severity : Type := error | warning.

Module Issue.
(** ValidationIssue *)
Record t : Type :=
  mk { code : string; path : string; message : string; severity : Severity }.
End Issue.
Abbreviation ValidationIssue := Issue.t.

Module Result.
(** ValidationResult; [normalized] is absent when it is [None]. *)
Record t : Type :=
  mk { ok : bool;
       errors : list ValidationIssue;
       warnings : list ValidationIssue;
       normalized : option LibraryConfigNormalized }.
End Result.
Abbreviation ValidationResult := Result.t.

(** *** Guards and helpers *)

Definition isNum (n : value) : bool :=
  typeof_number n && JS.Number_isFinite (as_number n).

Definition isVec2 (v : value) : bool :=
  truthy v && typeof_object v && isNum (get v "x") && isNum (get v "y").

(** The typed view of an object that [isVec2] accepted. *)
Definition as_Vec2 (v : value) : Vec2 :=
  Vec2.mk (as_number (get v "x")) (as_number (get v "y")).

Definition isFitMode (m : value) : bool :=
  is_str m "contain" || is_str m "cover" || is_str m "stretch".

Definition isAlignment (a : value) : bool :=
  is_str a "center" ||
  is_str a "top-left" ||
  is_str a "top" ||
  is_str a "top-right" ||
  is_str a "left" ||
  is_str a "right" ||
  is_str a "bottom-left" ||
  is_str a "bottom" ||
  is_str a "bottom-right".

Definition isOrigin (o : value) : bool := is_str o "center" || is_str o "top-left".

(** The typed view of a value that [isOrigin] accepted. *)
Definition as_origin (o : value) : StageOrigin :=
  if is_str o "top-left" then top_left else center.

Definition clamp01 (n : number) : number := JS.Math_max 0 (JS.Math_min 1 n).

Definition normalizeScale (scale : value) : Vec2 :=
  if typeof_number scale && isNum scale then Vec2.mk (as_number scale) (as_number scale)
  else if isVec2 scale then Vec2.mk (as_number (get scale "x")) (as_number (get scale "y"))
  else DEFAULT_SCALE.

Definition toAssetRef (layer : value) : option AssetRef :=
  let hasPath := typeof_string (get layer "imagePath")
                 && (0 <? String.length (as_string (get layer "imagePath")))%nat in
  let hasKey := typeof_string (get layer "registryKey")
                && (0 <? String.length (as_string (get layer "registryKey")))%nat in
  if hasPath && hasKey then None (* conflict *)
  else if negb hasPath && negb hasKey then None (* missing *)
  else if hasPath then Some (PathRef (as_string (get layer "imagePath")))
  else Some (RegistryRef (as_string (get layer "registryKey"))).

Definition normalizeBehaviors (b : value) : BehaviorsConfigNormalized :=
  let spin := get b "spin" in
  let orbit := get b "orbit" in
  let pulse := get b "pulse" in
  let fade := get b "fade" in
  Behaviors.mk
    (Spin.mk
       (nullish (get spin "enabled") (Spin.enabled (Behaviors.spin DEFAULT_BEHAVIORS)))
       (if isNum (get spin "rpm") then as_number (get spin "rpm")
        else Spin.rpm (Behaviors.spin DEFAULT_BEHAVIORS))
       (nullish (get spin "direction") (VStr "cw")))
    (Orbit.mk
       (nullish (get orbit "enabled") (Orbit.enabled (Behaviors.orbit DEFAULT_BEHAVIORS)))
       (if isNum (get orbit "rpm") then as_number (get orbit "rpm")
        else Orbit.rpm (Behaviors.orbit DEFAULT_BEHAVIORS))
       (if isNum (get orbit "radius") then as_number (get orbit "radius")
        else Orbit.radius (Behaviors.orbit DEFAULT_BEHAVIORS))
       (if truthy (get orbit "center") && isVec2 (get orbit "center")
        then Some (as_Vec2 (get orbit "center")) else None)
       VUndef)
    (Pulse.mk
       (nullish (get pulse "enabled") (Pulse.enabled (Behaviors.pulse DEFAULT_BEHAVIORS)))
       (if isNum (get pulse "amplitude") then as_number (get pulse "amplitude")
        else Pulse.amplitude (Behaviors.pulse DEFAULT_BEHAVIORS))
       (if isNum (get pulse "rpm") then as_number (get pulse "rpm")
        else Pulse.rpm (Behaviors.pulse DEFAULT_BEHAVIORS)))
    (Fade.mk
       (nullish (get fade "enabled") (Fade.enabled (Behaviors.fade DEFAULT_BEHAVIORS)))
       (if isNum (get fade "from") then clamp01 (as_number (get fade "from"))
        else Fade.from (Behaviors.fade DEFAULT_BEHAVIORS))
       (if isNum (get fade "to") then clamp01 (as_number (get fade "to"))
        else Fade.to (Behaviors.fade DEFAULT_BEHAVIORS))
       (if isNum (get fade "rpm") then as_number (get fade "rpm")
        else Fade.rpm (Behaviors.fade DEFAULT_BEHAVIORS))).

(** [xs.push(x)] *)
Definition push {A : Type} (xs : list A) (x : A) : list A := (xs ++ [x])%list.

(** [if (c) issues.push(i)] *)
Definition push_if (c : bool) (i : ValidationIssue) (issues : list ValidationIssue)
  : list ValidationIssue :=
  if c then push issues i else issues.

(** *** Event hooks *)

(** The body of [list.forEach((entry, idx) => ...)]: the state is the
    [errors] array and the [normalized] list of the hook. *)
Definition validateEntry (path : string) (entry : value)
    (st : list ValidationIssue * list value) : list ValidationIssue * list value :=
  let '(errors, normalized) := st in
  let action := get entry "action" in
  if negb (is_str action "spin") && negb (is_str action "orbit")
     && negb (is_str action "pulse") && negb (is_str action "fade") then
    (push errors (Issue.mk "events.action.unknown" path
                  ("unknown action " ++ dquote ++ ToString action ++ dquote ++ " (spin|orbit|pulse|fade)")
                  error),
     normalized)
  else
  let set := get entry "set" in
  if truthy set && negb (typeof_object set) then
    (push errors (Issue.mk "events.set.invalid" path "set must be an object" error),
     normalized)
  else
  (* light checks per action (numeric/boolean shape) *)
  let errors :=
    push_if (negb (is_undefined (get set "rpm")) && negb (isNum (get set "rpm")))
      (Issue.mk "events.set.rpm" path "rpm must be number" error) errors in
  let errors :=
    push_if (negb (is_undefined (get set "enabled")) && negb (typeof_boolean (get set "enabled")))
      (Issue.mk "events.set.enabled" path "enabled must be boolean" error) errors in
  let errors :=
    push_if (is_str action "spin" && truthy (get set "direction")
             && negb (is_str (get set "direction") "cw")
             && negb (is_str (get set "direction") "ccw"))
      (Issue.mk "events.set.direction" path ("direction must be " ++ dquote ++ "cw" ++ dquote ++ "|" ++ dquote ++ "ccw" ++ dquote) error) errors in
  let errors :=
    if is_str action "orbit" then
      let errors :=
        push_if (negb (is_undefined (get set "radius")) && negb (isNum (get set "radius")))
          (Issue.mk "events.set.radius" path "radius must be number" error) errors in
      push_if (negb (is_undefined (get set "center")) && negb (isVec2 (get set "center")))
        (Issue.mk "events.set.center" path "center must be {x,y}" error) errors
    else errors in
  let errors :=
    push_if (is_str action "pulse"
             && negb (is_undefined (get set "amplitude")) && negb (isNum (get set "amplitude")))
      (Issue.mk "events.set.amplitude" path "amplitude must be number" error) errors in
  let errors :=
    if is_str action "fade" then
      let errors :=
        push_if (negb (is_undefined (get set "from")) && negb (isNum (get set "from")))
          (Issue.mk "events.set.from" path "from must be number" error) errors in
      push_if (negb (is_undefined (get set "to")) && negb (isNum (get set "to")))
        (Issue.mk "events.set.to" path "to must be number" error) errors
    else errors in
  (errors, push normalized entry).

(** [xs.forEach((x, idx) => ...)] as a fold that threads the state the
    callback mutates. *)
Fixpoint forEach_from {A St : Type} (f : A -> nat -> St -> St)
    (idx : nat) (xs : list A) (s : St) : St :=
  match xs with
  | [] => s
  | x :: rest => forEach_from f (S idx) rest (f x idx s)
  end.

Definition forEach {A St : Type} (f : A -> nat -> St -> St) (xs : list A) (s : St) : St :=
  forEach_from f 0 xs s.

(** One turn of [for (const k of keys)]: the entry of [out] for [k]
    ([None] when it is not set) and the [errors] array afterwards. *)
Definition validateHook (hooks : value) (k : string)
    (errors : list ValidationIssue) (basePath : string)
  : option (list value) * list ValidationIssue :=
  let list := get hooks k in
  if negb (truthy list) then (None, errors)
  else if negb (Array_isArray list) then
    (None, push errors (Issue.mk "events.invalid" (basePath ++ "." ++ k) "must be an array" error))
  else
    let '(errors, normalized) :=
      forEach (fun entry idx =>
                 validateEntry (basePath ++ "." ++ k ++ "[" ++ string_of_nat idx ++ "]") entry)
              (as_array list) (errors, []) in
    (Some normalized, errors).

(** [validateEvents(hooks, errors, warnings, basePath)]: the hooks it
    returns and the [errors] array afterwards ([warnings] is never pushed
    to).  The loop runs over the constant keys onPress, onHover, onRelease. *)
Definition validateEvents (hooks : value) (errors : list ValidationIssue) (basePath : string)
  : EventHooks * list ValidationIssue :=
  let '(onPress, errors) := validateHook hooks "onPress" errors basePath in
  let '(onHover, errors) := validateHook hooks "onHover" errors basePath in
  let '(onRelease, errors) := validateHook hooks "onRelease" errors basePath in
  (EventHooks.mk onPress onHover onRelease, errors).

(** *** Main *)

(** [new Set<string>()] with [has] and [add]. *)
Definition Set_has (s : list string) (k : string) : bool := existsb (String.eqb k) s.
Definition Set_add (s : list string) (k : string) : list string :=
  if Set_has s k then s else k :: s.

(** Truthiness of [number | undefined], and [w !== undefined && w <= 0]. *)
Definition truthy_opt (w : option number) : bool :=
  match w with Some n => JS.truthy_number n | None => false end.

Definition defined_le0 (w : option number) : bool :=
  match w with Some n => (n <=? 0)%js | None => false end.

Definition origin_name (o : StageOrigin) : string :=
  match o with center => "center" | top_left => "top-left" end.

Module Scan.
(** What the callback of [input.layers.forEach] mutates. *)
Record t : Type :=
  mk { errors : list ValidationIssue;
       warnings : list ValidationIssue;
       seen : list string;
       normalizedLayers : list LayerConfigNormalized }.
End Scan.

(** The body of [input.layers.forEach((layer, idx) => ...)]. *)
Definition validateLayer (layer : value) (idx : nat) (st : Scan.t) : Scan.t :=
  let '(Scan.mk errors warnings seen normalizedLayers) := st in
  let base := "layers[" ++ string_of_nat idx ++ "]" in
  (* id *)
  if negb (truthy layer) || negb (typeof_object layer)
     || negb (typeof_string (get layer "layerId"))
     || (String.length (as_string (get layer "layerId")) =? 0)%nat then
    Scan.mk
      (push errors (Issue.mk "layer.id.missing" (base ++ ".layerId") "layerId required" error))
      warnings seen normalizedLayers
  else
  let layerId := as_string (get layer "layerId") in
  if Set_has seen layerId then
    Scan.mk
      (push errors (Issue.mk "layer.id.duplicate" (base ++ ".layerId")
                      ("duplicate " ++ dquote ++ layerId ++ dquote) error))
      warnings seen normalizedLayers
  else
  let seen := Set_add seen layerId in
  (* asset *)
  match toAssetRef layer with
  | None =>
      let both := truthy (get layer "imagePath") && truthy (get layer "registryKey") in
      Scan.mk
        (push errors
           (Issue.mk "layer.asset.invalid" base
              (if both then "imagePath and registryKey are mutually exclusive"
               else "one of imagePath or registryKey is required")
              error))
        warnings seen normalizedLayers
  | Some assetRef =>
      (* transforms (defaults) *)
      let position :=
        if isVec2 (get layer "position") then as_Vec2 (get layer "position")
        else DEFAULT_POSITION in
      let scale := normalizeScale (get layer "scale") in
      let angle : number :=
        if isNum (get layer "angle") then as_number (get layer "angle") else 0 in
      let tilt :=
        if isVec2 (get layer "tilt") then as_Vec2 (get layer "tilt") else DEFAULT_TILT in
      let anchor :=
        if isVec2 (get layer "anchor") then as_Vec2 (get layer "anchor") else DEFAULT_ANCHOR in
      let opacity :=
        if isNum (get layer "opacity") then as_number (get layer "opacity")
        else DEFAULT_OPACITY in
      let warnings :=
        push_if ((opacity <? 0) || (opacity >? 1))%js
          (Issue.mk "layer.opacity.range" (base ++ ".opacity")
             "opacity should be within [0,1]" warning) warnings in
      let warnings :=
        push_if ((Vec2.x anchor <? 0) || (Vec2.x anchor >? 1)
                 || (Vec2.y anchor <? 0) || (Vec2.y anchor >? 1))%js
          (Issue.mk "layer.anchor.range" (base ++ ".anchor")
             "anchor should be [0..1]" warning) warnings in
      (* container *)
      let width :=
        if isNum (get layer "layerWidth") then Some (as_number (get layer "layerWidth"))
        else None in
      let height :=
        if isNum (get layer "layerHeight") then Some (as_number (get layer "layerHeight"))
        else None in
      let fitMode := get layer "fitMode" in
      let alignment := get layer "alignment" in
      let errors :=
        push_if (negb (is_undefined fitMode) && negb (isFitMode fitMode))
          (Issue.mk "layer.fit.invalid" (base ++ ".fitMode")
             "fitMode must be contain|cover|stretch" error) errors in
      let errors :=
        push_if (negb (is_undefined alignment) && negb (isAlignment alignment))
          (Issue.mk "layer.alignment.invalid" (base ++ ".alignment")
             "invalid alignment" error) errors in
      let errors :=
        push_if ((negb (is_undefined fitMode) || negb (is_undefined alignment))
                 && (negb (truthy_opt width) || negb (truthy_opt height)))
          (Issue.mk "layer.container.missing" base
             "fitMode/alignment requires layerWidth and layerHeight" error) errors in
      let errors :=
        push_if (defined_le0 width || defined_le0 height)
          (Issue.mk "layer.container.nonPositive" base
             "layerWidth/layerHeight must be positive numbers" error) errors in
      (* behaviors *)
      let behaviors := normalizeBehaviors (get layer "behaviors") in
      let warnings :=
        push_if ((Orbit.radius (Behaviors.orbit behaviors) <? 0)
                 || (Orbit.rpm (Behaviors.orbit behaviors) <? 0))%js
          (Issue.mk "behavior.orbit.range" (base ++ ".behaviors.orbit")
             "rpm & radius should be >= 0" warning) warnings in
      let warnings :=
        push_if (Spin.rpm (Behaviors.spin behaviors) <? 0)%js
          (Issue.mk "behavior.spin.range" (base ++ ".behaviors.spin.rpm")
             "rpm should be >= 0" warning) warnings in
      let warnings :=
        push_if ((Pulse.rpm (Behaviors.pulse behaviors) <? 0)
                 || (Pulse.amplitude (Behaviors.pulse behaviors) <? 0))%js
          (Issue.mk "behavior.pulse.range" (base ++ ".behaviors.pulse")
             "rpm & amplitude should be >= 0" warning) warnings in
      let warnings :=
        push_if (Fade.rpm (Behaviors.fade behaviors) <? 0)%js
          (Issue.mk "behavior.fade.range" (base ++ ".behaviors.fade.rpm")
             "rpm should be >= 0" warning) warnings in
      (* events *)
      let '(events, errors) := validateEvents (get layer "events") errors (base ++ ".events") in
      (* pack normalized *)
      let normalized :=
        Layer.mk layerId assetRef position scale angle tilt anchor opacity behaviors events
          (if truthy_opt width || truthy_opt height || truthy fitMode || truthy alignment
           then Some (Container.mk width height fitMode alignment)
           else None) in
      Scan.mk errors warnings seen (push normalizedLayers normalized)
  end.

Definition validateLibraryConfig (input : LibraryConfig) : ValidationResult :=
  let errors : list ValidationIssue := [] in
  let warnings : list ValidationIssue := [] in
  (* Stage *)
  let stage :=
    Stage.mk
      (if isNum (get (Input.stage input) "width")
          && (as_number (get (Input.stage input) "width") >? 0)%js
       then as_number (get (Input.stage input) "width") else Stage.width DEFAULT_STAGE)
      (if isNum (get (Input.stage input) "height")
          && (as_number (get (Input.stage input) "height") >? 0)%js
       then as_number (get (Input.stage input) "height") else Stage.height DEFAULT_STAGE)
      (if isOrigin (get (Input.stage input) "origin")
       then as_origin (get (Input.stage input) "origin") else Stage.origin DEFAULT_STAGE) in
  let warnings :=
    push_if (negb (is_undefined (get (Input.stage input) "origin"))
             && negb (isOrigin (get (Input.stage input) "origin")))
      (Issue.mk "stage.origin.invalid" "stage.origin"
         ("unknown origin " ++ dquote ++ ToString (get (Input.stage input) "origin") ++ dquote
          ++ ", fallback to " ++ dquote ++ origin_name (Stage.origin DEFAULT_STAGE) ++ dquote)
         warning) warnings in
  (* Layers *)
  if negb (Array_isArray (Input.layers input)) then
    Result.mk false
      (push errors (Issue.mk "layers.missing" "layers" "layers must be an array" error))
      warnings None
  else
    let '(Scan.mk errors warnings _ normalizedLayers) :=
      forEach validateLayer (as_array (Input.layers input)) (Scan.mk errors warnings [] []) in
    let ok := (List.length errors =? 0)%nat in
    if ok
    then Result.mk true errors warnings (Some (Config.mk stage normalizedLayers))
    else Result.mk false errors warnings None.

(* ================================================================== *)
(** ** LayerImageResolver *)

(** [registry.get(key)] *)
Fixpoint Map_get {V : Type} (m : list (string * V)) (k : string) : option V :=
  match m with
  | [] => None
  | (k', v) :: rest => if String.eqb k' k then Some v else Map_get rest k
  end.

Definition resolveAsset (ref : AssetRef) (registry : list (string * AssetMeta))
  : result AssetMeta :=
  match ref with
  | PathRef path => Ok (AssetMeta.mk path NaN NaN None None)
  | RegistryRef key =>
      match Map_get registry key with
      | None => Throw ("registry key " ++ dquote ++ key ++ dquote ++ " not found")
      | Some meta => Ok meta   (* a clone: values carry no identity here *)
      end
  | OtherRef type => Throw ("unknown asset ref type: " ++ ToString type)
  end.

(* ================================================================== *)
(** ** LayerLogicBasic *)

Definition applyBasicTransform (layer : LayerConfigNormalized) (_stage : StageConfigNormalized)
  : Transform.t :=
  Transform.mk (Layer.position layer) (Layer.scale layer) (Layer.angle layer)
               (Layer.tilt layer) (Layer.anchor layer) (Layer.opacity layer).

(* ================================================================== *)
(** ** The behaviour functions *)

(** The one-field objects the behaviour functions take and return. *)
Module HasAngle.
Record t : Type := mk { angle : number }.
End HasAngle.
Module HasPosition.
Record t : Type := mk { position : Vec2 }.
End HasPosition.
Module HasScale.
Record t : Type := mk { scale : Vec2 }.
End HasScale.
Module HasOpacity.
Record t : Type := mk { opacity : number }.
End HasOpacity.

(** *** LayerLogicSpin *)
Definition applySpin (prev : HasAngle.t) (cfg : SpinConfig) (timeSeconds : number)
  : HasAngle.t :=
  if negb (truthy (Spin.enabled cfg)) || (Spin.rpm cfg <=? 0)%js
     || negb (JS.Number_isFinite timeSeconds) then
    HasAngle.mk (HasAngle.angle prev)
  else
    let deltaDeg := ((Spin.rpm cfg * 360 * timeSeconds) / 60)%js in
    let signed := if is_str (Spin.direction cfg) "ccw" then (- deltaDeg)%js else deltaDeg in
    HasAngle.mk (HasAngle.angle prev + signed)%js.

(** *** LayerLogicOrbit *)
Definition applyOrbit (prev : HasPosition.t) (cfg : OrbitConfig) (timeSeconds : number)
    (baseCenter : Vec2) : HasPosition.t :=
  if negb (truthy (Orbit.enabled cfg))
     || (Orbit.rpm cfg <=? 0)%js
     || (Orbit.radius cfg <=? 0)%js
     || negb (JS.Number_isFinite timeSeconds) then
    HasPosition.mk (Vec2.mk (Vec2.x (HasPosition.position prev))
                            (Vec2.y (HasPosition.position prev)))
  else
    let center := match Orbit.center cfg with Some c => c | None => baseCenter end in
    let thetaDeg := ((Orbit.rpm cfg * 360 * timeSeconds) / 60)%js in
    let dir := nullish (Orbit.direction cfg) (VStr "cw") in
    let theta :=
      ((if is_str dir "ccw" then - thetaDeg else thetaDeg) * (JS.Math_PI / 180))%js in
    let x := (Vec2.x center + JS.Math_cos theta * Orbit.radius cfg)%js in
    let y := (Vec2.y center + JS.Math_sin theta * Orbit.radius cfg)%js in
    HasPosition.mk (Vec2.mk x y).

(** *** LayerLogicPulse *)
Definition applyPulse (prev : HasScale.t) (cfg : PulseConfig) (timeSeconds : number)
  : HasScale.t :=
  if negb (truthy (Pulse.enabled cfg))
     || (Pulse.rpm cfg <=? 0)%js
     || (Pulse.amplitude cfg <=? 0)%js
     || negb (JS.Number_isFinite timeSeconds) then
    HasScale.mk (Vec2.mk (Vec2.x (HasScale.scale prev)) (Vec2.y (HasScale.scale prev)))
  else
    let phase := ((2 * JS.Math_PI * Pulse.rpm cfg * timeSeconds) / 60)%js in
    let s := (1 + Pulse.amplitude cfg * JS.Math_sin phase)%js in
    HasScale.mk (Vec2.mk (Vec2.x (HasScale.scale prev) * s)%js
                         (Vec2.y (HasScale.scale prev) * s)%js).

(** *** LayerLogicFade *)
Definition applyFade (prev : HasOpacity.t) (cfg : FadeConfig) (timeSeconds : number)
  : HasOpacity.t :=
  if negb (truthy (Fade.enabled cfg)) || (Fade.rpm cfg <=? 0)%js
     || negb (JS.Number_isFinite timeSeconds) then
    HasOpacity.mk (HasOpacity.opacity prev)
  else
    let phase := ((2 * JS.Math_PI * Fade.rpm cfg * timeSeconds) / 60)%js in
    let t01 := ((JS.Math_sin phase + 1) / 2)%js in (* 0..1 *)
    let value := (Fade.from cfg + (Fade.to cfg - Fade.from cfg) * t01)%js in
    let clamped := JS.Math_max 0 (JS.Math_min 1 value) in
    HasOpacity.mk clamped.

(* ================================================================== *)
(** ** LayerMappingImage *)

Module ImageMapping.
(** ImageMappingResult *)
Record t : Type :=
  mk { displayWidth : number; displayHeight : number; offset : Vec2; anchor : Vec2 }.
End ImageMapping.
Abbreviation ImageMappingResult := ImageMapping.t.

(** [Number.isFinite(w as number)] on [number | undefined]. *)
Definition isFinite_opt (w : option number) : bool :=
  match w with Some n => JS.Number_isFinite n | None => false end.

(** [w as number], read by arithmetic: [undefined] converts to NaN. *)
Definition as_number_opt (w : option number) : number :=
  match w with Some n => n | None => NaN end.

Definition alignmentOffset (alignment : value) (cw ch : number) : Vec2 :=
  let hx := (cw / 2)%js in
  let hy := (ch / 2)%js in
  if is_str alignment "center" then Vec2.mk 0 0
  else if is_str alignment "top" then Vec2.mk 0 (- hy)%js
  else if is_str alignment "bottom" then Vec2.mk 0 hy
  else if is_str alignment "left" then Vec2.mk (- hx)%js 0
  else if is_str alignment "right" then Vec2.mk hx 0
  else if is_str alignment "top-left" then Vec2.mk (- hx)%js (- hy)%js
  else if is_str alignment "top-right" then Vec2.mk hx (- hy)%js
  else if is_str alignment "bottom-left" then Vec2.mk (- hx)%js hy
  else if is_str alignment "bottom-right" then Vec2.mk hx hy
  else Vec2.mk 0 0.

Definition mapImageIntoContainer (asset : AssetMeta) (container : option Container)
    (anchor : Vec2) : ImageMappingResult :=
  let finalAnchor := match AssetMeta.anchor asset with Some a => a | None => anchor end in
  let passThrough :=
    ImageMapping.mk
      (if JS.Number_isFinite (AssetMeta.width asset) then AssetMeta.width asset else 0)
      (if JS.Number_isFinite (AssetMeta.height asset) then AssetMeta.height asset else 0)
      (Vec2.mk 0 0) finalAnchor in
  match container with
  | None => passThrough
  | Some container =>
      match Container.width container, Container.height container with
      | None, None => passThrough
      | cw, ch =>
          (* container must have a valid w & h *)
          if negb (isFinite_opt cw) || negb (isFinite_opt ch)
             || (as_number_opt cw <=? 0)%js || (as_number_opt ch <=? 0)%js then
            ImageMapping.mk 0 0 (Vec2.mk 0 0) finalAnchor
          else
          let aw := AssetMeta.width asset in
          let ah := AssetMeta.height asset in
          (* invalid asset dimensions: fail-safe *)
          if negb (JS.Number_isFinite aw) || negb (JS.Number_isFinite ah)
             || (aw <=? 0)%js || (ah <=? 0)%js then
            ImageMapping.mk 0 0 (Vec2.mk 0 0) finalAnchor
          else
          let '(displayWidth, displayHeight) :=
            if is_str (Container.fitMode container) "stretch" then
              (as_number_opt cw, as_number_opt ch)
            else
              let sx := (as_number_opt cw / aw)%js in
              let sy := (as_number_opt ch / ah)%js in
              let s := if is_str (Container.fitMode container) "contain"
                       then JS.Math_min sx sy else JS.Math_max sx sy in
              ((aw * s)%js, (ah * s)%js) in
          let offset :=
            alignmentOffset (Container.alignment container)
                            (as_number_opt cw) (as_number_opt ch) in
          ImageMapping.mk displayWidth displayHeight offset finalAnchor
      end
  end.

(* ================================================================== *)
(** ** LayerMappingScreen *)

Module Bounds.
Record t : Type := mk { w : number; h : number }.
End Bounds.

Module ScreenMapping.
(** The object of four closures that createScreenMapping returns. *)
Record t : Type :=
  mk { toCenter : Vec2 -> Vec2;
       toTopLeft : Vec2 -> Vec2;
       center : unit -> Vec2;
       bounds : unit -> Bounds.t }.
End ScreenMapping.

Definition createScreenMapping (stage : StageConfigNormalized) : ScreenMapping.t :=
  let width := Stage.width stage in
  let height := Stage.height stage in
  let origin := Stage.origin stage in
  let half := Vec2.mk (width / 2)%js (height / 2)%js in
  ScreenMapping.mk
    (fun p => match origin with
              | center => Vec2.mk (Vec2.x p) (Vec2.y p)
              | _ => Vec2.mk (Vec2.x p - Vec2.x half)%js (Vec2.y p - Vec2.y half)%js
              end)
    (fun p => match origin with
              | top_left => Vec2.mk (Vec2.x p) (Vec2.y p)
              | _ => Vec2.mk (Vec2.x p + Vec2.x half)%js (Vec2.y p + Vec2.y half)%js
              end)
    (fun _ => match origin with
              | center => Vec2.mk 0 0
              | _ => Vec2.mk (Vec2.x half) (Vec2.y half)
              end)
    (fun _ => Bounds.mk width height).

Definition defaultPlacement (stage : StageConfigNormalized) : Vec2 :=
  match Stage.origin stage with
  | center => Vec2.mk 0 0
  | _ => Vec2.mk (Stage.width stage / 2)%js (Stage.height stage / 2)%js
  end.

(* ================================================================== *)
(** ** LayerProducer *)

Module Produced.
(** [{ layers: LayerData[]; warnings: string[] }] *)
Record t : Type := mk { layers : list LayerData; warnings : list string }.
End Produced.

(** [`${e.path}: ${e.message}`] *)
Definition issue_line (e : ValidationIssue) : string :=
  Issue.path e ++ ": " ++ Issue.message e.

(** [a || b] on strings: the empty string is falsy. *)
Definition or_string (a b : string) : string :=
  if String.eqb a "" then b else a.

(** [xs.map((x, idx) => f(x, idx))] where the callback may throw: the first
    throw aborts the call, and nothing of the array is returned. *)
Fixpoint map_from {A B : Type} (f : A -> nat -> result B) (idx : nat) (xs : list A)
  : result (list B) :=
  match xs with
  | [] => Ok []
  | x :: rest =>
      match f x idx with
      | Throw m => Throw m
      | Ok b =>
          match map_from f (S idx) rest with
          | Throw m => Throw m
          | Ok bs => Ok (b :: bs)
          end
      end
  end.

(** [xs.map((x, idx) => f(x, idx))] with a callback that does not throw. *)
Fixpoint mapi_from {A B : Type} (f : A -> nat -> B) (idx : nat) (xs : list A) : list B :=
  match xs with
  | [] => []
  | x :: rest => f x idx :: mapi_from f (S idx) rest
  end.

(** The callback of [layers.map] in produceLayers. *)
Definition produceLayer (ctx : ProcessingContext) (stage : StageConfigNormalized)
    (norm : LayerConfigNormalized) (idx : nat) : result LayerData :=
  (* resolve the asset to make sure a registryKey is valid (throws if not found) *)
  match resolveAsset (Layer.assetRef norm) (Context.registry ctx) with
  | Throw m => Throw m
  | Ok _ =>
      (* basic transform (pass-through normalized) *)
      let basic := applyBasicTransform norm stage in
      (* wrappers: spin -> orbit -> pulse -> fade *)
      let spinRes :=
        applySpin (HasAngle.mk (Transform.angle basic))
                  (Behaviors.spin (Layer.behaviors norm)) (Context.time ctx) in
      let orbitRes :=
        applyOrbit (HasPosition.mk (Transform.position basic))
                   (Behaviors.orbit (Layer.behaviors norm)) (Context.time ctx)
                   (Transform.position basic) in
      let pulseRes :=
        applyPulse (HasScale.mk (Transform.scale basic))
                   (Behaviors.pulse (Layer.behaviors norm)) (Context.time ctx) in
      let fadeRes :=
        applyFade (HasOpacity.mk (Transform.opacity basic))
                  (Behaviors.fade (Layer.behaviors norm)) (Context.time ctx) in
      let finalTransform :=
        Transform.mk (HasPosition.position orbitRes) (HasScale.scale pulseRes)
                     (HasAngle.angle spinRes) (Transform.tilt basic)
                     (Transform.anchor basic) (HasOpacity.opacity fadeRes) in
      Ok (LayerData.mk
            (Layer.layerId norm)
            idx
            (Layer.assetRef norm)
            finalTransform
            (match Layer.container norm with
             | Some c => Some (Container.mk (Container.width c) (Container.height c)
                                            (Container.fitMode c) (Container.alignment c))
             | None => None
             end)
            (Layer.behaviors norm)
            (Layer.events norm)
            (State.mk false false false true))
  end.

Definition produceLayers (input : LibraryConfig) (ctx : ProcessingContext)
  : result Produced.t :=
  let res := validateLibraryConfig input in
  match Result.ok res, Result.normalized res with
  | true, Some normalized =>
      let stage := Config.stage normalized in
      let layers := Config.layers normalized in
      let warnings := map issue_line (Result.warnings res) in
      match map_from (produceLayer ctx stage) 0 layers with
      | Throw m => Throw m
      | Ok out => Ok (Produced.mk out warnings)
      end
  | _, _ =>
      let reason :=
        or_string (join "; " (map issue_line (Result.errors res))) "invalid config" in
      Throw ("produceLayers: validation failed: " ++ reason)
  end.

(* ================================================================== *)
(** ** LayerPipeline *)

Module Normalized.
(** What normalizeInput returns. *)
Record t : Type :=
  mk { stage : StageConfigNormalized;
       layers : list LayerConfigNormalized;
       warnings : list string }.
End Normalized.

Definition normalizeInput (input : LibraryConfig) : result Normalized.t :=
  let res := validateLibraryConfig input in
  match Result.ok res, Result.normalized res with
  | true, Some normalized =>
      Ok (Normalized.mk (Config.stage normalized) (Config.layers normalized)
                        (map issue_line (Result.warnings res)))
  | _, _ =>
      let reason :=
        or_string (join "; " (map issue_line (Result.errors res))) "invalid config" in
      Throw ("LayerPipeline: validation failed: " ++ reason)
  end.

Module Options.
Record t : Type := mk { doSpin : bool; doOrbit : bool; doPulse : bool; doFade : bool }.
End Options.

Definition buildLayerData (norm : LayerConfigNormalized) (idx : nat) (ctx : ProcessingContext)
    (options : Options.t) (stage : StageConfigNormalized) : LayerData :=
  (* 1) basic transform *)
  let basic := applyBasicTransform norm stage in
  (* 2) the wrappers the composer selected *)
  let spinRes :=
    if Options.doSpin options
    then applySpin (HasAngle.mk (Transform.angle basic))
                   (Behaviors.spin (Layer.behaviors norm)) (Context.time ctx)
    else HasAngle.mk (Transform.angle basic) in
  let orbitRes :=
    if Options.doOrbit options
    then applyOrbit (HasPosition.mk (Transform.position basic))
                    (Behaviors.orbit (Layer.behaviors norm)) (Context.time ctx)
                    (Transform.position basic)
    else HasPosition.mk (Transform.position basic) in
  let pulseRes :=
    if Options.doPulse options
    then applyPulse (HasScale.mk (Transform.scale basic))
                    (Behaviors.pulse (Layer.behaviors norm)) (Context.time ctx)
    else HasScale.mk (Transform.scale basic) in
  let fadeRes :=
    if Options.doFade options
    then applyFade (HasOpacity.mk (Transform.opacity basic))
                   (Behaviors.fade (Layer.behaviors norm)) (Context.time ctx)
    else HasOpacity.mk (Transform.opacity basic) in
  (* 3) final transform *)
  let finalTransform :=
    Transform.mk (HasPosition.position orbitRes) (HasScale.scale pulseRes)
                 (HasAngle.angle spinRes) (Transform.tilt basic)
                 (Transform.anchor basic) (HasOpacity.opacity fadeRes) in
  (* 4) LayerData *)
  LayerData.mk
    (Layer.layerId norm)
    idx
    (Layer.assetRef norm)
    finalTransform
    (match Layer.container norm with
     | Some c => Some (Container.mk (Container.width c) (Container.height c)
                                    (Container.fitMode c) (Container.alignment c))
     | None => None
     end)
    (Layer.behaviors norm)
    (Layer.events norm)
    (State.mk false false false (Transform.opacity finalTransform >? 0)%js).

(** The pipeline that the composer and the produceBasic variants share:
    normalizeInput, then buildLayerData on every layer. *)
Definition run_pipeline (opts : Options.t) (input : LibraryConfig) (ctx : ProcessingContext)
  : result Produced.t :=
  match normalizeInput input with
  | Throw m => Throw m
  | Ok n =>
      let out :=
        mapi_from (fun norm idx => buildLayerData norm idx ctx opts (Normalized.stage n))
                  0 (Normalized.layers n) in
      Ok (Produced.mk out (Normalized.warnings n))
  end.

(** [new Set(wrappers).has(name)] *)
Definition wrappers_has (wrappers : list string) (name : string) : bool :=
  existsb (String.eqb name) wrappers.

Definition compose (wrappers : list string)
  : LibraryConfig -> ProcessingContext -> result Produced.t :=
  let opts :=
    Options.mk (wrappers_has wrappers "spin") (wrappers_has wrappers "orbit")
               (wrappers_has wrappers "pulse") (wrappers_has wrappers "fade") in
  fun input ctx => run_pipeline opts input ctx.

Definition produceBasic := run_pipeline (Options.mk false false false false).
Definition produceBasicSpin := run_pipeline (Options.mk true false false false).
Definition produceBasicOrbit := run_pipeline (Options.mk false true false false).
Definition produceBasicPulse := run_pipeline (Options.mk false false true false).
Definition produceBasicFade := run_pipeline (Options.mk false false false true).

(** An alias of the full pipeline. *)
Definition produceFull := produceLayers.

(* ================================================================== *)
(** ** LayerConverter *)

(** *** UI control models and options *)

(** An optional property as object spread sees it: absent, present and
    holding [undefined], or present with a number. *)
Inductive optional : Type :=
| Absent
| Undefined
| Given (n : number).

Module AngleOptions.
(** [{ wrap?: boolean }]; [None] is an absent or undefined [wrap]. *)
Record t : Type := mk { wrap : option bool }.
End AngleOptions.
Abbreviation AngleOptions := AngleOptions.t.

Module RangeOptions.
(** RpmOptions, ScaleOptions and OpacityOptions, which have the one shape
    [{ min?: number; max?: number }]. *)
Record t : Type := mk { min : optional; max : optional }.
End RangeOptions.
Abbreviation RpmOptions := RangeOptions.t.
Abbreviation ScaleOptions := RangeOptions.t.
Abbreviation OpacityOptions := RangeOptions.t.

Module Range.
(** [Required<...Options>]: both bounds present. *)
Record t : Type := mk { min : number; max : number }.
End Range.

(** The control groups of the behaviours.  fromUILayerControls tests the
    numbers of a group against [undefined], so they are optional here;
    toUILayerControls fills every one of them. *)
Module UISpin.
Record t : Type := mk { enabled : value; rpm : option number; direction : value }.
End UISpin.

Module UIOrbit.
Record t : Type := mk { enabled : value; rpm : option number; radius : option number }.
End UIOrbit.

Module UIPulse.
Record t : Type := mk { enabled : value; amplitude : option number; rpm : option number }.
End UIPulse.

Module UIFade.
Record t : Type :=
  mk { enabled : value; from : option number; to : option number; rpm : option number }.
End UIFade.

Module UI.
(** UILayerControls as fromUILayerControls takes it
    ([Partial<UILayerControls>]): [None] is an absent or undefined
    property. *)
Record t : Type :=
  mk { angle : option number;
       tiltX : option number;
       tiltY : option number;
       opacity : option number;
       scale : option number;
       spin : option UISpin.t;
       orbit : option UIOrbit.t;
       pulse : option UIPulse.t;
       fade : option UIFade.t }.
End UI.
Abbreviation UILayerControls := UI.t.

(** *** Helpers *)

Definition DEF_RPM : Range.t := Range.mk 0 60.
Definition DEF_SCALE : Range.t := Range.mk 0.1 10.
Definition DEF_OPACITY : Range.t := Range.mk 0 1.

(** [{ ...def, ...opts }], read by [const { min, max } = ...]: an own
    property of [opts] replaces the default, also when it holds
    [undefined]; the bounds only reach Math.min and Math.max, which
    convert [undefined] to NaN. *)
Definition spread_bound (def : number) (o : optional) : number :=
  match o with
  | Absent => def
  | Undefined => NaN
  | Given n => n
  end.

Definition spread (def : Range.t) (opts : RangeOptions.t) : Range.t :=
  Range.mk (spread_bound (Range.min def) (RangeOptions.min opts))
           (spread_bound (Range.max def) (RangeOptions.max opts)).

Definition clamp (n min max : number) : number := JS.Math_max min (JS.Math_min max n).

(** The integer part of [x], rounded toward zero. *)
Definition truncate (x : R) : Z :=
  if Rle_dec 0 x then Int_part x else (- Int_part (- x))%Z.

(** [a % b]: the remainder has the sign of the dividend. *)
Definition remainder (a b : number) : number :=
  match a, b with
  | Num p, Num q =>
      if Rltb q 0 || Rltb 0 q then Num (p - q * IZR (truncate (p / q))) else NaN
  | Num p, (PosInf | NegInf) => Num p
  | _, _ => NaN
  end.

Definition wrap360 (deg : number) : number :=
  let r := remainder deg 360 in
  if (r <? 0)%js then (r + 360)%js else r.

(** [opts] is [None] when the argument is omitted: the default is
    [{ wrap: true }]. *)
Definition toUIDeg (deg : number) (opts : option AngleOptions) : number :=
  let opts := match opts with Some o => o | None => AngleOptions.mk (Some true) end in
  match AngleOptions.wrap opts with
  | Some false => deg
  | _ => wrap360 deg
  end.

Definition fromUIDeg (uiDeg : number) : number := uiDeg.

(** The default [{}] of an omitted options argument. *)
Definition no_options : RangeOptions.t := RangeOptions.mk Absent Absent.

Definition toUIRpm (rpm : number) (opts : RpmOptions) : number :=
  let r := spread DEF_RPM opts in
  clamp rpm (Range.min r) (Range.max r).

Definition fromUIRpm (ui : number) (opts : RpmOptions) : number :=
  let r := spread DEF_RPM opts in
  clamp ui (Range.min r) (Range.max r).

Definition toUIOpacity (opacity : number) (opts : OpacityOptions) : number :=
  let r := spread DEF_OPACITY opts in
  clamp opacity (Range.min r) (Range.max r).

Definition fromUIOpacity (ui : number) (opts : OpacityOptions) : number :=
  let r := spread DEF_OPACITY opts in
  clamp ui (Range.min r) (Range.max r).

Definition toUIScaleUniform (sx sy : number) (opts : ScaleOptions) : number :=
  let r := spread DEF_SCALE opts in
  let avg := ((sx + sy) / 2)%js in
  clamp avg (Range.min r) (Range.max r).

Definition fromUIScaleUniform (ui : number) (opts : ScaleOptions) : Vec2 :=
  let r := spread DEF_SCALE opts in
  let s := clamp ui (Range.min r) (Range.max r) in
  Vec2.mk s s.

(** The literal [{ min: 0, max: 1 }] that the fade controls pass. *)
Definition unit_options : OpacityOptions := RangeOptions.mk (Given 0) (Given 1).

(** *** JSON (normalized) to UI controls *)

Definition toUILayerControls (layer : LayerConfigNormalized)
    (rpmOpts : RpmOptions) (scaleOpts : ScaleOptions) (opacityOpts : OpacityOptions)
  : UILayerControls :=
  let b := Layer.behaviors layer in
  UI.mk
    (Some (toUIDeg (Layer.angle layer) None))
    (Some (toUIDeg (Vec2.x (Layer.tilt layer)) None))
    (Some (toUIDeg (Vec2.y (Layer.tilt layer)) None))
    (Some (toUIOpacity (Layer.opacity layer) opacityOpts))
    (Some (toUIScaleUniform (Vec2.x (Layer.scale layer)) (Vec2.y (Layer.scale layer))
                            scaleOpts))
    (Some (UISpin.mk (Spin.enabled (Behaviors.spin b))
                     (Some (toUIRpm (Spin.rpm (Behaviors.spin b)) rpmOpts))
                     (Spin.direction (Behaviors.spin b))))
    (Some (UIOrbit.mk (Orbit.enabled (Behaviors.orbit b))
                      (Some (toUIRpm (Orbit.rpm (Behaviors.orbit b)) rpmOpts))
                      (Some (Orbit.radius (Behaviors.orbit b)))))
    (Some (UIPulse.mk (Pulse.enabled (Behaviors.pulse b))
                      (Some (Pulse.amplitude (Behaviors.pulse b)))
                      (Some (toUIRpm (Pulse.rpm (Behaviors.pulse b)) rpmOpts))))
    (Some (UIFade.mk (Fade.enabled (Behaviors.fade b))
                     (Some (toUIOpacity (Fade.from (Behaviors.fade b)) unit_options))
                     (Some (toUIOpacity (Fade.to (Behaviors.fade b)) unit_options))
                     (Some (toUIRpm (Fade.rpm (Behaviors.fade b)) rpmOpts)))).

(** *** UI controls to JSON (normalized) *)

(** [u !== undefined ? f(u) : d] *)
Definition defined_or {A : Type} (u : option number) (f : number -> A) (d : A) : A :=
  match u with Some n => f n | None => d end.

(** [group?.field ?? d] *)
Definition group_value {G : Type} (group : option G) (field : G -> value) (d : value)
  : value :=
  nullish (match group with Some g => field g | None => VUndef end) d.

(** [group?.field], a number or [undefined] *)
Definition group_number {G : Type} (group : option G) (field : G -> option number)
  : option number :=
  match group with Some g => field g | None => None end.

Definition fromUILayerControls (base : LayerConfigNormalized) (ui : UILayerControls)
    (rpmOpts : RpmOptions) (scaleOpts : ScaleOptions) (opacityOpts : OpacityOptions)
  : LayerConfigNormalized :=
  let b := Layer.behaviors base in
  let angle := defined_or (UI.angle ui) fromUIDeg (Layer.angle base) in
  let tiltX := defined_or (UI.tiltX ui) fromUIDeg (Vec2.x (Layer.tilt base)) in
  let tiltY := defined_or (UI.tiltY ui) fromUIDeg (Vec2.y (Layer.tilt base)) in
  let opacity :=
    defined_or (UI.opacity ui) (fun o => fromUIOpacity o opacityOpts) (Layer.opacity base) in
  let uniform :=
    defined_or (UI.scale ui) (fun s => fromUIScaleUniform s scaleOpts) (Layer.scale base) in
  let spin :=
    Spin.mk
      (group_value (UI.spin ui) UISpin.enabled (Spin.enabled (Behaviors.spin b)))
      (defined_or (group_number (UI.spin ui) UISpin.rpm)
                  (fun r => fromUIRpm r rpmOpts) (Spin.rpm (Behaviors.spin b)))
      (group_value (UI.spin ui) UISpin.direction (Spin.direction (Behaviors.spin b))) in
  let orbit :=
    Orbit.mk
      (group_value (UI.orbit ui) UIOrbit.enabled (Orbit.enabled (Behaviors.orbit b)))
      (defined_or (group_number (UI.orbit ui) UIOrbit.rpm)
                  (fun r => fromUIRpm r rpmOpts) (Orbit.rpm (Behaviors.orbit b)))
      (defined_or (group_number (UI.orbit ui) UIOrbit.radius)
                  (fun r => r) (Orbit.radius (Behaviors.orbit b)))
      (Orbit.center (Behaviors.orbit b))   (* not edited through the simple UI *)
      VUndef in                            (* the literal has no direction *)
  let pulse :=
    Pulse.mk
      (group_value (UI.pulse ui) UIPulse.enabled (Pulse.enabled (Behaviors.pulse b)))
      (defined_or (group_number (UI.pulse ui) UIPulse.amplitude)
                  (fun a => a) (Pulse.amplitude (Behaviors.pulse b)))
      (defined_or (group_number (UI.pulse ui) UIPulse.rpm)
                  (fun r => fromUIRpm r rpmOpts) (Pulse.rpm (Behaviors.pulse b))) in
  let fade :=
    Fade.mk
      (group_value (UI.fade ui) UIFade.enabled (Fade.enabled (Behaviors.fade b)))
      (defined_or (group_number (UI.fade ui) UIFade.from)
                  (fun f => fromUIOpacity f unit_options) (Fade.from (Behaviors.fade b)))
      (defined_or (group_number (UI.fade ui) UIFade.to)
                  (fun f => fromUIOpacity f unit_options) (Fade.to (Behaviors.fade b)))
      (defined_or (group_number (UI.fade ui) UIFade.rpm)
                  (fun r => fromUIRpm r rpmOpts) (Fade.rpm (Behaviors.fade b))) in
  (* { ...base, angle, tilt, opacity, scale, behaviors } *)
  Layer.mk (Layer.layerId base) (Layer.assetRef base) (Layer.position base)
           (Vec2.mk (Vec2.x uniform) (Vec2.y uniform))
           angle
           (Vec2.mk tiltX tiltY)
           (Layer.anchor base)
           opacity
           (Behaviors.mk spin orbit pulse fade)
           (Layer.events base)
           (Layer.container base).

(* ================================================================== *)
(** * The arithmetic of the code on doubles *)

(** A JavaScript number is an IEEE 754 binary64 number, and [+], [-],
    [*] and [/] on it round to nearest, ties to even, and overflow to an
    infinity.  The functions whose claimed results depend on that are
    embedded here a second time, on the primitive binary64 numbers and
    their operations. *)
Module Double.
Import PrimFloat.
#[local] Set Warnings "-inexact-float".
Local Open Scope float_scope.

Abbreviation number := float.

(** [Math.PI], the double nearest to pi: 3.141592653589793. *)
Definition Math_PI : number := 0x1.921fb54442d18p+1.

(** Math.sin and Math.cos return an implementation-approximated value
    (ECMAScript, 21.3.2.30 and 21.3.2.12).  They stay a parameter; their
    laws are the results that the standard fixes: the sine of a zero is
    that zero, the cosine of a zero is 1, and both are NaN on NaN and on
    the infinities. *)
Record Libm : Type :=
  { Math_sin : number -> number;
    Math_cos : number -> number;
    Math_sin_zero : forall x, is_zero x = true -> Math_sin x = x;
    Math_cos_zero : forall x, is_zero x = true -> Math_cos x = 1;
    Math_sin_not_finite : forall x, is_finite x = false -> is_nan (Math_sin x) = true;
    Math_cos_not_finite : forall x, is_finite x = false -> is_nan (Math_cos x) = true }.

Module Vec2.
Record t : Type := mk { x : number; y : number }.
End Vec2.
Abbreviation Vec2 := Vec2.t.

Module Stage.
(** StageConfigNormalized *)
Record t : Type := mk { width : number; height : number; origin : StageOrigin }.
End Stage.
Abbreviation StageConfigNormalized := Stage.t.

Module Orbit.
(** OrbitConfig; [enabled] and [direction] hold any value, as above. *)
Record t : Type :=
  mk { enabled : value; rpm : number; radius : number;
       center : option Vec2; direction : value }.
End Orbit.
Abbreviation OrbitConfig := Orbit.t.

Module HasPosition.
Record t : Type := mk { position : Vec2 }.
End HasPosition.

(** *** LayerLogicOrbit *)
Definition applyOrbit (M : Libm) (prev : HasPosition.t) (cfg : OrbitConfig)
    (timeSeconds : number) (baseCenter : Vec2) : HasPosition.t :=
  if negb (truthy (Orbit.enabled cfg))
     || (Orbit.rpm cfg <=? 0)
     || (Orbit.radius cfg <=? 0)
     || negb (is_finite timeSeconds) then
    HasPosition.mk (Vec2.mk (Vec2.x (HasPosition.position prev))
                            (Vec2.y (HasPosition.position prev)))
  else
    let center := match Orbit.center cfg with Some c => c | None => baseCenter end in
    let thetaDeg := (Orbit.rpm cfg * 360 * timeSeconds) / 60 in
    let dir := nullish (Orbit.direction cfg) (VStr "cw") in
    let theta := (if is_str dir "ccw" then - thetaDeg else thetaDeg) * (Math_PI / 180) in
    let x := Vec2.x center + Math_cos M theta * Orbit.radius cfg in
    let y := Vec2.y center + Math_sin M theta * Orbit.radius cfg in
    HasPosition.mk (Vec2.mk x y).

(** *** LayerMappingScreen *)
Module Bounds.
Record t : Type := mk { w : number; h : number }.
End Bounds.

Module ScreenMapping.
Record t : Type :=
  mk { toCenter : Vec2 -> Vec2;
       toTopLeft : Vec2 -> Vec2;
       center : unit -> Vec2;
       bounds : unit -> Bounds.t }.
End ScreenMapping.

Definition createScreenMapping (stage : StageConfigNormalized) : ScreenMapping.t :=
  let width := Stage.width stage in
  let height := Stage.height stage in
  let origin := Stage.origin stage in
  let half := Vec2.mk (width / 2) (height / 2) in
  ScreenMapping.mk
    (fun p => match origin with
              | center => Vec2.mk (Vec2.x p) (Vec2.y p)
              | _ => Vec2.mk (Vec2.x p - Vec2.x half) (Vec2.y p - Vec2.y half)
              end)
    (fun p => match origin with
              | top_left => Vec2.mk (Vec2.x p) (Vec2.y p)
              | _ => Vec2.mk (Vec2.x p + Vec2.x half) (Vec2.y p + Vec2.y half)
              end)
    (fun _ => match origin with
              | center => Vec2.mk 0 0
              | _ => Vec2.mk (Vec2.x half) (Vec2.y half)
              end)
    (fun _ => Bounds.mk width height).

Definition defaultPlacement (stage : StageConfigNormalized) : Vec2 :=
  match Stage.origin stage with
  | center => Vec2.mk 0 0
  | _ => Vec2.mk (Stage.width stage / 2) (Stage.height stage / 2)
  end.

(** *** Vocabulary of the properties on doubles *)

Definition Vec2_add (a b : Vec2) : Vec2 :=
  Vec2.mk (Vec2.x a + Vec2.x b) (Vec2.y a + Vec2.y b).

Definition Vec2_sub (a b : Vec2) : Vec2 :=
  Vec2.mk (Vec2.x a - Vec2.x b) (Vec2.y a - Vec2.y b).

(** [(width / 2, height / 2)] *)
Definition stage_half (stage : StageConfigNormalized) : Vec2 :=
  Vec2.mk (Stage.width stage / 2) (Stage.height stage / 2).

(** [config.center ?? baseCenter] *)
Definition orbit_center (cfg : OrbitConfig) (baseCenter : Vec2) : Vec2 :=
  match Orbit.center cfg with Some c => c | None => baseCenter end.

(** The angle of an orbit at time [t], in radians: the degrees
    [rpm * 360 * t / 60], negated when the direction is "ccw" (clockwise
    is positive and is the default), times [Math.PI / 180]. *)
Definition orbit_theta (cfg : OrbitConfig) (t : number) : number :=
  let thetaDeg := (Orbit.rpm cfg * 360 * t) / 60 in
  (if is_str (Orbit.direction cfg) "ccw" then - thetaDeg else thetaDeg) * (Math_PI / 180).

(** center + radius * (cos theta, sin theta), as the code computes it. *)
Definition orbit_point (M : Libm) (cfg : OrbitConfig) (t : number) (baseCenter : Vec2)
  : Vec2 :=
  Vec2.mk (Vec2.x (orbit_center cfg baseCenter)
           + Math_cos M (orbit_theta cfg t) * Orbit.radius cfg)
          (Vec2.y (orbit_center cfg baseCenter)
           + Math_sin M (orbit_theta cfg t) * Orbit.radius cfg).

(** An implementation of Math.sin and Math.cos by the first terms of
    their series.  It is there to run the functions on concrete inputs;
    every result below holds for any [Libm]. *)
Definition series_sin (x : number) : number :=
  if is_zero x then x
  else if is_nan x || is_infinity x then nan
  else x - x * x * x / 6 + x * x * x * x * x / 120.

Definition series_cos (x : number) : number :=
  if is_zero x then 1
  else if is_nan x || is_infinity x then nan
  else 1 - x * x / 2 + x * x * x * x / 24.

Definition series_libm : Libm.
Proof.
  refine {| Math_sin := series_sin; Math_cos := series_cos |}.
  - intros x H. unfold series_sin. now rewrite H.
  - intros x H. unfold series_cos. now rewrite H.
  - intros x H. unfold series_sin, is_finite in *.
    apply Bool.negb_false_iff in H. rewrite H.
    destruct (is_zero x) eqn:Z; [ | reflexivity ].
    unfold is_zero in Z. unfold is_nan, is_infinity in H.
    rewrite FloatAxioms.eqb_spec in Z. rewrite !FloatAxioms.eqb_spec, FloatAxioms.abs_spec in H.
    change (FloatOps.Prim2SF zero) with (SpecFloat.S754_zero false) in Z.
    destruct (FloatOps.Prim2SF x) as [s | s | | s m e]; try destruct s; discriminate.
  - intros x H. unfold series_cos, is_finite in *.
    apply Bool.negb_false_iff in H. rewrite H.
    destruct (is_zero x) eqn:Z; [ | reflexivity ].
    unfold is_zero in Z. unfold is_nan, is_infinity in H.
    rewrite FloatAxioms.eqb_spec in Z. rewrite !FloatAxioms.eqb_spec, FloatAxioms.abs_spec in H.
    change (FloatOps.Prim2SF zero) with (SpecFloat.S754_zero false) in Z.
    destruct (FloatOps.Prim2SF x) as [s | s | | s m e]; try destruct s; discriminate.
Defined.

(** The orbit of the orbit test, and one whose finite rpm is so large
    that [rpm * 360] overflows. *)
Definition orbit_test : OrbitConfig :=
  Orbit.mk (VBool true) 60 100 (Some (Vec2.mk 50 50)) VUndef.

Definition orbit_quarter : OrbitConfig := Orbit.mk (VBool true) 60 100 None VUndef.

Definition orbit_fast : OrbitConfig := Orbit.mk (VBool true) 1e306 100 None VUndef.

End Double.

(* ================================================================== *)
(** * Vocabulary of the properties *)

(** ** Raw configurations used as examples *)

(** Building raw configurations. *)
Definition num (r : R) : value := VNum (Num r).
Definition raw_config (layers : list value) : LibraryConfig :=
  Input.mk VUndef (VArr layers).

(** A config with one valid layer and a duplicate of it, and a config
    whose only layer has the out-of-range opacity 1.5. *)
Definition config_duplicate : LibraryConfig :=
  raw_config
    [ VObj [("layerId", VStr "a"); ("imagePath", VStr "/a.png")];
      VObj [("layerId", VStr "a"); ("imagePath", VStr "/b.png")] ].

Definition config_opacity : LibraryConfig :=
  raw_config [ VObj [("layerId", VStr "a"); ("imagePath", VStr "/a.png");
                     ("opacity", num 1.5)] ].

(** ** The scan of the layers *)

(** [l'] is [l] with issues pushed after it. *)
Definition extends {A : Type} (l l' : list A) : Prop := exists more, l' = (l ++ more)%list.

(** The local bindings [width], [height], [opacity] and [anchor] of the
    layer callback, as functions of the raw layer. *)
Definition raw_width (layer : value) : option number :=
  if isNum (get layer "layerWidth") then Some (as_number (get layer "layerWidth")) else None.

Definition raw_height (layer : value) : option number :=
  if isNum (get layer "layerHeight") then Some (as_number (get layer "layerHeight")) else None.

Definition raw_opacity (layer : value) : number :=
  if isNum (get layer "opacity") then as_number (get layer "opacity") else DEFAULT_OPACITY.

Definition raw_anchor (layer : value) : Vec2 :=
  if isVec2 (get layer "anchor") then as_Vec2 (get layer "anchor") else DEFAULT_ANCHOR.

Definition layer_base (idx : nat) : string := "layers[" ++ string_of_nat idx ++ "]".

(** The layer [norm] and the warnings [ws] are what the callback makes of
    the raw layer [raw] at index [idx] when it records no error. *)
Record layer_normalized (idx : nat) (raw : value) (norm : LayerConfigNormalized)
    (ws : list ValidationIssue) : Prop :=
  { ln_opacity : Layer.opacity norm = raw_opacity raw;
    ln_anchor : Layer.anchor norm = raw_anchor raw;
    ln_behaviors : Layer.behaviors norm = normalizeBehaviors (get raw "behaviors");
    ln_container :
      Layer.container norm
      = if truthy_opt (raw_width raw) || truthy_opt (raw_height raw)
           || truthy (get raw "fitMode") || truthy (get raw "alignment")
        then Some (Container.mk (raw_width raw) (raw_height raw)
                                (get raw "fitMode") (get raw "alignment"))
        else None;
    ln_fit :
      negb (is_undefined (get raw "fitMode")) && negb (isFitMode (get raw "fitMode")) = false;
    ln_alignment :
      negb (is_undefined (get raw "alignment")) && negb (isAlignment (get raw "alignment"))
      = false;
    ln_missing :
      (negb (is_undefined (get raw "fitMode")) || negb (is_undefined (get raw "alignment")))
      && (negb (truthy_opt (raw_width raw)) || negb (truthy_opt (raw_height raw))) = false;
    ln_nonPositive : defined_le0 (raw_width raw) || defined_le0 (raw_height raw) = false;
    ln_warn_opacity :
      ((raw_opacity raw <? 0) || (raw_opacity raw >? 1))%js = true ->
      In (Issue.mk "layer.opacity.range" (layer_base idx ++ ".opacity")
            "opacity should be within [0,1]" warning) ws;
    ln_warn_anchor :
      ((Vec2.x (raw_anchor raw) <? 0) || (Vec2.x (raw_anchor raw) >? 1)
       || (Vec2.y (raw_anchor raw) <? 0) || (Vec2.y (raw_anchor raw) >? 1))%js = true ->
      In (Issue.mk "layer.anchor.range" (layer_base idx ++ ".anchor")
            "anchor should be [0..1]" warning) ws;
    ln_asset : toAssetRef raw = Some (Layer.assetRef norm) }.

(** ** Containers *)

(** The raw layer gives a usable container field: a finite layerWidth or
    layerHeight, or any fitMode or alignment. *)
Definition container_given (raw : value) : Prop :=
  isNum (get raw "layerWidth") = true \/ isNum (get raw "layerHeight") = true
  \/ get raw "fitMode" <> VUndef \/ get raw "alignment" <> VUndef.

(** What holds of the container [c] made from the raw layer [raw]. *)
Definition container_carries (raw : value) (c : Container) : Prop :=
  Container.width c = raw_width raw
  /\ Container.height c = raw_height raw
  /\ (get raw "fitMode" <> VUndef ->
      Container.fitMode c = get raw "fitMode" /\ isFitMode (Container.fitMode c) = true)
  /\ (get raw "alignment" <> VUndef ->
      Container.alignment c = get raw "alignment"
      /\ isAlignment (Container.alignment c) = true)
  /\ (get raw "fitMode" <> VUndef \/ get raw "alignment" <> VUndef ->
      exists w h, Container.width c = Some (Num w) /\ Container.height c = Some (Num h)
                  /\ 0 < w /\ 0 < h).

(** A layer with a full container (as in the producer test), and a config
    of two layers: one whose layerWidth is NaN, one with a width and a
    height only. *)
Definition config_contained : LibraryConfig :=
  raw_config
    [ VObj [("layerId", VStr "container-layer"); ("imagePath", VStr "/c.png");
            ("layerWidth", num 200); ("layerHeight", num 150);
            ("fitMode", VStr "contain"); ("alignment", VStr "center")] ].

Definition config_bare_containers : LibraryConfig :=
  raw_config
    [ VObj [("layerId", VStr "a"); ("imagePath", VStr "/a.png"); ("layerWidth", VNum NaN)];
      VObj [("layerId", VStr "b"); ("imagePath", VStr "/b.png");
            ("layerWidth", num 200); ("layerHeight", num 100)] ].

(** ** Numeric fields *)

(** A finite raw number is carried as it is. *)
Definition keeps (raw_field : value) (normalized : number) : Prop :=
  forall r, raw_field = num r -> normalized = Num r.

(** A finite raw number is carried clamped into [0, 1]. *)
Definition clamps (raw_field : value) (normalized : number) : Prop :=
  forall r, raw_field = num r -> normalized = Num (Rmax 0 (Rmin 1 r)).

(** A raw value that is not a finite number (absent, not a number, NaN
    or an infinity) is replaced by [d]. *)
Definition defaults (raw_field : value) (normalized : number) (d : number) : Prop :=
  isNum raw_field = false -> normalized = d.

Record numbers_kept (idx : nat) (raw : value) (norm : LayerConfigNormalized)
    (warnings : list ValidationIssue) : Prop :=
  { nk_opacity : keeps (get raw "opacity") (Layer.opacity norm);
    nk_opacity_warned :
      forall o, get raw "opacity" = num o -> o < 0 \/ 1 < o ->
                In (Issue.mk "layer.opacity.range" (layer_base idx ++ ".opacity")
                      "opacity should be within [0,1]" warning) warnings;
    nk_anchor :
      forall ax ay, get (get raw "anchor") "x" = num ax ->
                    get (get raw "anchor") "y" = num ay ->
                    Layer.anchor norm = Vec2.mk ax ay;
    nk_anchor_warned :
      forall ax ay, get (get raw "anchor") "x" = num ax ->
                    get (get raw "anchor") "y" = num ay ->
                    ax < 0 \/ 1 < ax \/ ay < 0 \/ 1 < ay ->
                    In (Issue.mk "layer.anchor.range" (layer_base idx ++ ".anchor")
                          "anchor should be [0..1]" warning) warnings;
    nk_spin_rpm :
      keeps (get (get (get raw "behaviors") "spin") "rpm")
            (Spin.rpm (Behaviors.spin (Layer.behaviors norm)));
    nk_orbit_rpm :
      keeps (get (get (get raw "behaviors") "orbit") "rpm")
            (Orbit.rpm (Behaviors.orbit (Layer.behaviors norm)));
    nk_orbit_radius :
      keeps (get (get (get raw "behaviors") "orbit") "radius")
            (Orbit.radius (Behaviors.orbit (Layer.behaviors norm)));
    nk_pulse_amplitude :
      keeps (get (get (get raw "behaviors") "pulse") "amplitude")
            (Pulse.amplitude (Behaviors.pulse (Layer.behaviors norm)));
    nk_pulse_rpm :
      keeps (get (get (get raw "behaviors") "pulse") "rpm")
            (Pulse.rpm (Behaviors.pulse (Layer.behaviors norm)));
    nk_fade_rpm :
      keeps (get (get (get raw "behaviors") "fade") "rpm")
            (Fade.rpm (Behaviors.fade (Layer.behaviors norm)));
    nk_fade_from :
      clamps (get (get (get raw "behaviors") "fade") "from")
             (Fade.from (Behaviors.fade (Layer.behaviors norm)));
    nk_fade_to :
      clamps (get (get (get raw "behaviors") "fade") "to")
             (Fade.to (Behaviors.fade (Layer.behaviors norm)));
    nk_opacity_default : defaults (get raw "opacity") (Layer.opacity norm) 1;
    nk_anchor_default :
      isVec2 (get raw "anchor") = false -> Layer.anchor norm = Vec2.mk 0.5 0.5;
    nk_spin_rpm_default :
      defaults (get (get (get raw "behaviors") "spin") "rpm")
               (Spin.rpm (Behaviors.spin (Layer.behaviors norm))) 0;
    nk_orbit_rpm_default :
      defaults (get (get (get raw "behaviors") "orbit") "rpm")
               (Orbit.rpm (Behaviors.orbit (Layer.behaviors norm))) 0;
    nk_orbit_radius_default :
      defaults (get (get (get raw "behaviors") "orbit") "radius")
               (Orbit.radius (Behaviors.orbit (Layer.behaviors norm))) 0;
    nk_pulse_amplitude_default :
      defaults (get (get (get raw "behaviors") "pulse") "amplitude")
               (Pulse.amplitude (Behaviors.pulse (Layer.behaviors norm))) 0;
    nk_pulse_rpm_default :
      defaults (get (get (get raw "behaviors") "pulse") "rpm")
               (Pulse.rpm (Behaviors.pulse (Layer.behaviors norm))) 0;
    nk_fade_rpm_default :
      defaults (get (get (get raw "behaviors") "fade") "rpm")
               (Fade.rpm (Behaviors.fade (Layer.behaviors norm))) 0;
    nk_fade_from_default :
      defaults (get (get (get raw "behaviors") "fade") "from")
               (Fade.from (Behaviors.fade (Layer.behaviors norm))) 1;
    nk_fade_to_default :
      defaults (get (get (get raw "behaviors") "fade") "to")
               (Fade.to (Behaviors.fade (Layer.behaviors norm))) 1 }.

(** A fade from 1.5 to -0.5, and a layer of opacity +Infinity. *)
Definition config_fade_range : LibraryConfig :=
  raw_config
    [ VObj [("layerId", VStr "a"); ("imagePath", VStr "/a.png");
            ("behaviors",
             VObj [("fade", VObj [("enabled", VBool true); ("from", num 1.5);
                                  ("to", num (-0.5)); ("rpm", num 60)])])];
      VObj [("layerId", VStr "b"); ("imagePath", VStr "/b.png");
            ("opacity", VNum PosInf)] ].

(** ** Producer and pipeline *)

(** A context with an empty registry, and a config whose [layers] is
    missing. *)
Definition empty_context : ProcessingContext := Context.mk DEFAULT_STAGE 0 [].
Definition config_no_layers : LibraryConfig := Input.mk VUndef VUndef.

(** The key of the first layer, in input order, whose registry reference
    is not in the registry. *)
Fixpoint first_missing_key (registry : list (string * AssetMeta))
    (layers : list LayerConfigNormalized) : option string :=
  match layers with
  | [] => None
  | norm :: rest =>
      match Layer.assetRef norm with
      | RegistryRef key =>
          match Map_get registry key with
          | None => Some key
          | Some _ => first_missing_key registry rest
          end
      | _ => first_missing_key registry rest
      end
  end.

Definition registry_missing (registry : list (string * AssetMeta))
    (layers : list LayerConfigNormalized) (key : string) : Prop :=
  exists norm, In norm layers /\ Layer.assetRef norm = RegistryRef key
               /\ Map_get registry key = None.

Definition known_ref (norm : LayerConfigNormalized) : Prop :=
  match Layer.assetRef norm with OtherRef _ => False | _ => True end.

Definition not_found (key : string) : string :=
  "registry key " ++ dquote ++ key ++ dquote ++ " not found".

(** The config of the producer test: one layer that refers to a key the
    registry does not hold. *)
Definition config_missing_key : LibraryConfig :=
  raw_config [ VObj [("layerId", VStr "a"); ("registryKey", VStr "non-existent-key")] ].

(** The pipelines of LayerPipeline: those that compose builds and the
    produceBasic variants. *)
Inductive partial_pipeline : (LibraryConfig -> ProcessingContext -> result Produced.t) -> Prop :=
| pp_compose (wrappers : list string) : partial_pipeline (compose wrappers)
| pp_basic : partial_pipeline produceBasic
| pp_basic_spin : partial_pipeline produceBasicSpin
| pp_basic_orbit : partial_pipeline produceBasicOrbit
| pp_basic_pulse : partial_pipeline produceBasicPulse
| pp_basic_fade : partial_pipeline produceBasicFade.

Definition canonical_state (ld : LayerData) : Prop :=
  LayerData.state ld = State.mk false false false true.

Definition derived_state (ld : LayerData) : Prop :=
  LayerData.state ld
  = State.mk false false false (Transform.opacity (LayerData.transform ld) >? 0)%js.

(** A layer of opacity 0. *)
Definition config_transparent : LibraryConfig :=
  raw_config [ VObj [("layerId", VStr "a"); ("imagePath", VStr "/a.png");
                     ("opacity", num 0)] ].

(** ** Image and screen mapping *)

(** A finite number greater than 0. *)
Definition positive_finite (n : number) : bool := JS.Number_isFinite n && (n >? 0)%js.

Definition positive_finite_opt (w : option number) : bool :=
  match w with Some n => positive_finite n | None => false end.

Definition final_anchor (asset : AssetMeta) (anchor : Vec2) : Vec2 :=
  match AssetMeta.anchor asset with Some a => a | None => anchor end.

(** What validateLibraryConfig guarantees of the stage it returns: a
    finite positive width and height. *)
Definition normalized_stage (stage : StageConfigNormalized) : bool :=
  positive_finite (Stage.width stage) && positive_finite (Stage.height stage).

Definition stage_half (stage : StageConfigNormalized) : Vec2 :=
  Vec2.mk (Stage.width stage / 2)%js (Stage.height stage / 2)%js.

(** ** The layer callback as a function of the raw layer *)

(** The layer passes the id check: an object with a non-empty string
    [layerId]. *)
Definition valid_id (layer : value) : bool :=
  truthy layer && typeof_object layer && typeof_string (get layer "layerId")
  && negb (String.length (as_string (get layer "layerId")) =? 0)%nat.

Definition raw_id (layer : value) : string := as_string (get layer "layerId").

(** The local bindings [position], [angle] and [tilt] of the callback. *)
Definition raw_position (layer : value) : Vec2 :=
  if isVec2 (get layer "position") then as_Vec2 (get layer "position") else DEFAULT_POSITION.

Definition raw_angle (layer : value) : number :=
  if isNum (get layer "angle") then as_number (get layer "angle") else 0.

Definition raw_tilt (layer : value) : Vec2 :=
  if isVec2 (get layer "tilt") then as_Vec2 (get layer "tilt") else DEFAULT_TILT.

(** An event entry that validateEvents appends to the normalized list: its
    action is one of the four, and its [set] is falsy or an object. *)
Definition entry_kept (entry : value) : bool :=
  (is_str (get entry "action") "spin" || is_str (get entry "action") "orbit"
   || is_str (get entry "action") "pulse" || is_str (get entry "action") "fade")
  && negb (truthy (get entry "set") && negb (typeof_object (get entry "set"))).

(** The hook [k] that validateEvents returns: set for a (truthy) array
    only, to its kept entries in order. *)
Definition kept_hook (hooks : value) (k : string) : option (list value) :=
  if truthy (get hooks k) && Array_isArray (get hooks k)
  then Some (filter entry_kept (as_array (get hooks k)))
  else None.

Definition kept_events (hooks : value) : EventHooks :=
  EventHooks.mk (kept_hook hooks "onPress") (kept_hook hooks "onHover")
                (kept_hook hooks "onRelease").

(** The object that the callback packs for a layer whose asset reference
    is [ref]. *)
Definition normalized_layer (layer : value) (ref : AssetRef) : LayerConfigNormalized :=
  Layer.mk (raw_id layer) ref (raw_position layer) (normalizeScale (get layer "scale"))
           (raw_angle layer) (raw_tilt layer) (raw_anchor layer) (raw_opacity layer)
           (normalizeBehaviors (get layer "behaviors"))
           (kept_events (get layer "events"))
           (if truthy_opt (raw_width layer) || truthy_opt (raw_height layer)
               || truthy (get layer "fitMode") || truthy (get layer "alignment")
            then Some (Container.mk (raw_width layer) (raw_height layer)
                                    (get layer "fitMode") (get layer "alignment"))
            else None).

(** Normalization of one raw layer on its own: nothing when it has no
    valid asset reference. *)
Definition normalize_raw (layer : value) : option LayerConfigNormalized :=
  option_map (normalized_layer layer) (toAssetRef layer).

(** The error pushed for the layer at index [idx] when its id was seen. *)
Definition duplicate_issue (idx : nat) (id : string) : ValidationIssue :=
  Issue.mk "layer.id.duplicate" (layer_base idx ++ ".layerId")
           ("duplicate " ++ dquote ++ id ++ dquote) error.

Definition finite_Vec2 (v : Vec2) : bool :=
  JS.Number_isFinite (Vec2.x v) && JS.Number_isFinite (Vec2.y v).

(** A number in [0, 1]. *)
Definition unit_range (n : number) : bool := (0 <=? n)%js && (n <=? 1)%js.

(** Every number of the static transform is finite. *)
Definition finite_transform (l : LayerConfigNormalized) : bool :=
  finite_Vec2 (Layer.position l) && finite_Vec2 (Layer.scale l)
  && JS.Number_isFinite (Layer.angle l) && finite_Vec2 (Layer.tilt l)
  && finite_Vec2 (Layer.anchor l) && JS.Number_isFinite (Layer.opacity l).

(** Every number of the behaviours is finite, and the fade runs between
    two opacities in [0, 1]. *)
Definition finite_behaviors (b : BehaviorsConfigNormalized) : bool :=
  JS.Number_isFinite (Spin.rpm (Behaviors.spin b))
  && JS.Number_isFinite (Orbit.rpm (Behaviors.orbit b))
  && JS.Number_isFinite (Orbit.radius (Behaviors.orbit b))
  && match Orbit.center (Behaviors.orbit b) with Some c => finite_Vec2 c | None => true end
  && JS.Number_isFinite (Pulse.amplitude (Behaviors.pulse b))
  && JS.Number_isFinite (Pulse.rpm (Behaviors.pulse b))
  && unit_range (Fade.from (Behaviors.fade b))
  && unit_range (Fade.to (Behaviors.fade b))
  && JS.Number_isFinite (Fade.rpm (Behaviors.fade b)).

(** The stage that validateLibraryConfig computes before it scans the
    layers, and the warnings array at that point. *)
Definition stage_of (input : LibraryConfig) : StageConfigNormalized :=
  Stage.mk
    (if isNum (get (Input.stage input) "width")
        && (as_number (get (Input.stage input) "width") >? 0)%js
     then as_number (get (Input.stage input) "width") else Stage.width DEFAULT_STAGE)
    (if isNum (get (Input.stage input) "height")
        && (as_number (get (Input.stage input) "height") >? 0)%js
     then as_number (get (Input.stage input) "height") else Stage.height DEFAULT_STAGE)
    (if isOrigin (get (Input.stage input) "origin")
     then as_origin (get (Input.stage input) "origin") else Stage.origin DEFAULT_STAGE).

Definition origin_issue (input : LibraryConfig) : ValidationIssue :=
  Issue.mk "stage.origin.invalid" "stage.origin"
    ("unknown origin " ++ dquote ++ ToString (get (Input.stage input) "origin") ++ dquote
     ++ ", fallback to " ++ dquote ++ origin_name (Stage.origin DEFAULT_STAGE) ++ dquote)
    warning.

Definition stage_warnings (input : LibraryConfig) : list ValidationIssue :=
  push_if (negb (is_undefined (get (Input.stage input) "origin"))
           && negb (isOrigin (get (Input.stage input) "origin")))
          (origin_issue input) [].

(** The state of the scan after all the layers [raws]. *)
Definition scan_of (input : LibraryConfig) (raws : list value) : Scan.t :=
  forEach_from validateLayer 0 raws (Scan.mk [] (stage_warnings input) [] []).

(** The local bindings [hasPath] and [hasKey] of toAssetRef. *)
Definition hasPath (layer : value) : bool :=
  typeof_string (get layer "imagePath")
  && (0 <? String.length (as_string (get layer "imagePath")))%nat.

Definition hasKey (layer : value) : bool :=
  typeof_string (get layer "registryKey")
  && (0 <? String.length (as_string (get layer "registryKey")))%nat.

(** ** What the pipelines carry over *)

(** The fields of a layer that both pipelines copy into its LayerData. *)
Definition carried_of (norm : LayerConfigNormalized)
  : string * AssetRef * option Container * BehaviorsConfigNormalized * EventHooks :=
  (Layer.layerId norm, Layer.assetRef norm, Layer.container norm,
   Layer.behaviors norm, Layer.events norm).

Definition carried (ld : LayerData)
  : string * AssetRef * option Container * BehaviorsConfigNormalized * EventHooks :=
  (LayerData.id ld, LayerData.asset ld, LayerData.container ld,
   LayerData.behaviors ld, LayerData.events ld).

(** [ld] with its isVisible flag set. *)
Definition with_visible (ld : LayerData) : LayerData :=
  LayerData.mk (LayerData.id ld) (LayerData.zIndex ld) (LayerData.asset ld)
               (LayerData.transform ld) (LayerData.container ld)
               (LayerData.behaviors ld) (LayerData.events ld)
               (State.mk (State.isHovered (LayerData.state ld))
                         (State.isPressed (LayerData.state ld))
                         (State.isActive (LayerData.state ld)) true).

(** No behaviour of [b] is enabled. *)
Definition behaviours_off (b : BehaviorsConfigNormalized) : bool :=
  negb (truthy (Spin.enabled (Behaviors.spin b)))
  && negb (truthy (Orbit.enabled (Behaviors.orbit b)))
  && negb (truthy (Pulse.enabled (Behaviors.pulse b)))
  && negb (truthy (Fade.enabled (Behaviors.fade b))).

(** The options that compose derives from its wrappers. *)
Definition options_of (wrappers : list string) : Options.t :=
  Options.mk (wrappers_has wrappers "spin") (wrappers_has wrappers "orbit")
             (wrappers_has wrappers "pulse") (wrappers_has wrappers "fade").

(** ** Layers that do not move *)

(** The layer has no enabled behaviour, or the time of the context is not
    finite. *)
Definition frozen (ctx : ProcessingContext) (norm : LayerConfigNormalized) : bool :=
  behaviours_off (Layer.behaviors norm) || negb (JS.Number_isFinite (Context.time ctx)).

(** The transform of [ld] is the basic transform of [norm] whenever
    [norm] is frozen. *)
Definition keeps_basic (ctx : ProcessingContext) (stage : StageConfigNormalized)
    (norm : LayerConfigNormalized) (ld : LayerData) : Prop :=
  frozen ctx norm = true -> LayerData.transform ld = applyBasicTransform norm stage.

(** [cfg] with the direction [dir]. *)
Definition orbit_toward (dir : value) (cfg : OrbitConfig) : OrbitConfig :=
  Orbit.mk (Orbit.enabled cfg) (Orbit.rpm cfg) (Orbit.radius cfg) (Orbit.center cfg) dir.

(** A config whose only layer asks for a counter-clockwise orbit. *)
Definition config_orbit_ccw : LibraryConfig :=
  raw_config
    [ VObj [("layerId", VStr "moon"); ("imagePath", VStr "/moon.png");
            ("behaviors",
             VObj [("orbit", VObj [("enabled", VBool true); ("rpm", num 30);
                                   ("radius", num 100); ("direction", VStr "ccw")])])] ].

(** ** The converter *)

(** [lo <= n <= hi] *)
Definition within (lo hi n : number) : bool := (lo <=? n)%js && (n <=? hi)%js.

Definition in_range (r : Range.t) (n : number) : bool :=
  within (Range.min r) (Range.max r) n.

(** An angle in [0, 360). *)
Definition wrapped (n : number) : bool := (0 <=? n)%js && (n <? 360)%js.

Definition is_NaN (n : number) : bool :=
  match n with NaN => true | _ => false end.

(** The update that sets nothing. *)
Definition no_controls : UILayerControls :=
  UI.mk None None None None None None None None None.

(** What fromUILayerControls copies from its base whatever the update. *)
Definition untouched (layer : LayerConfigNormalized)
  : string * AssetRef * Vec2 * Vec2 * EventHooks * option Container * option Vec2 :=
  (Layer.layerId layer, Layer.assetRef layer, Layer.position layer, Layer.anchor layer,
   Layer.events layer, Layer.container layer,
   Orbit.center (Behaviors.orbit (Layer.behaviors layer))).

(** [layer] with the orbit direction removed. *)
Definition without_orbit_direction (layer : LayerConfigNormalized) : LayerConfigNormalized :=
  let b := Layer.behaviors layer in
  Layer.mk (Layer.layerId layer) (Layer.assetRef layer) (Layer.position layer)
           (Layer.scale layer) (Layer.angle layer) (Layer.tilt layer) (Layer.anchor layer)
           (Layer.opacity layer)
           (Behaviors.mk (Behaviors.spin b) (orbit_toward VUndef (Behaviors.orbit b))
                         (Behaviors.pulse b) (Behaviors.fade b))
           (Layer.events layer) (Layer.container layer).

(* ================================================================== *)
(** * Properties *)

(** ** Deciding comparisons of finite numbers *)

Lemma Rltb_true (a b : R) : a < b -> Rltb a b = true.
Proof. unfold Rltb; destruct (Rlt_dec a b); intuition. Qed.

Lemma Rltb_false (a b : R) : ~ a < b -> Rltb a b = false.
Proof. unfold Rltb; destruct (Rlt_dec a b); intuition. Qed.

Lemma Rleb_true (a b : R) : a <= b -> Rleb a b = true.
Proof. unfold Rleb; destruct (Rle_dec a b); intuition. Qed.

Lemma Rleb_false (a b : R) : ~ a <= b -> Rleb a b = false.
Proof. unfold Rleb; destruct (Rle_dec a b); intuition. Qed.

Lemma Rltb_spec (a b : R) : Rltb a b = true <-> a < b.
Proof. unfold Rltb; destruct (Rlt_dec a b); intuition discriminate. Qed.

Lemma Rleb_spec (a b : R) : Rleb a b = true <-> a <= b.
Proof. unfold Rleb; destruct (Rle_dec a b); intuition discriminate. Qed.

Lemma Rltb_false_inv (a b : R) : Rltb a b = false -> ~ a < b.
Proof. unfold Rltb; destruct (Rlt_dec a b); intuition discriminate. Qed.

Lemma Rleb_false_inv (a b : R) : Rleb a b = false -> ~ a <= b.
Proof. unfold Rleb; destruct (Rle_dec a b); intuition discriminate. Qed.

(** Rewrites every comparison of two reals that [lra] settles. *)
Ltac R_decide :=
  repeat match goal with
    | |- context [Rltb ?a ?b] =>
        first [ rewrite (Rltb_true a b) by lra | rewrite (Rltb_false a b) by lra ]
    | |- context [Rleb ?a ?b] =>
        first [ rewrite (Rleb_true a b) by lra | rewrite (Rleb_false a b) by lra ]
    end.

(** ** The behaviour functions *)

(** C7.  Each behaviour function returns its [prev] argument when the
    behaviour is not enabled, when its rpm (for orbit also its radius, for
    pulse also its amplitude) is at most 0, or when the elapsed time is not
    a finite number, whatever [prev] and the rest of the config are. *)
Theorem behaviours_noop_when_inactive :
  forall t : number,
    (forall prev cfg,
        truthy (Spin.enabled cfg) = false \/ (Spin.rpm cfg <=? 0)%js = true
        \/ JS.Number_isFinite t = false ->
        applySpin prev cfg t = prev)
    /\ (forall prev cfg baseCenter,
        truthy (Orbit.enabled cfg) = false \/ (Orbit.rpm cfg <=? 0)%js = true
        \/ (Orbit.radius cfg <=? 0)%js = true \/ JS.Number_isFinite t = false ->
        applyOrbit prev cfg t baseCenter = prev)
    /\ (forall prev cfg,
        truthy (Pulse.enabled cfg) = false \/ (Pulse.rpm cfg <=? 0)%js = true
        \/ (Pulse.amplitude cfg <=? 0)%js = true \/ JS.Number_isFinite t = false ->
        applyPulse prev cfg t = prev)
    /\ (forall prev cfg,
        truthy (Fade.enabled cfg) = false \/ (Fade.rpm cfg <=? 0)%js = true
        \/ JS.Number_isFinite t = false ->
        applyFade prev cfg t = prev).
Proof.
  intro t; repeat split.
  - intros [a] cfg H. unfold applySpin.
    destruct (truthy (Spin.enabled cfg)), (Spin.rpm cfg <=? 0)%js, (JS.Number_isFinite t);
      cbn; try reflexivity; intuition discriminate.
  - intros [[px py]] cfg base H. unfold applyOrbit.
    destruct (truthy (Orbit.enabled cfg)), (Orbit.rpm cfg <=? 0)%js,
      (Orbit.radius cfg <=? 0)%js, (JS.Number_isFinite t);
      cbn; try reflexivity; intuition discriminate.
  - intros [[sx sy]] cfg H. unfold applyPulse.
    destruct (truthy (Pulse.enabled cfg)), (Pulse.rpm cfg <=? 0)%js,
      (Pulse.amplitude cfg <=? 0)%js, (JS.Number_isFinite t);
      cbn; try reflexivity; intuition discriminate.
  - intros [o] cfg H. unfold applyFade.
    destruct (truthy (Fade.enabled cfg)), (Fade.rpm cfg <=? 0)%js, (JS.Number_isFinite t);
      cbn; try reflexivity; intuition discriminate.
Qed.

(** The four cases of C7 at concrete inputs: a disabled spin, an orbit of
    radius 0, a pulse of negative amplitude, a fade at time NaN. *)
Lemma behaviours_noop_witness :
  applySpin (HasAngle.mk 45) (Spin.mk (VBool false) 30 (VStr "cw")) 1 = HasAngle.mk 45
  /\ applyOrbit (HasPosition.mk (Vec2.mk 10 20)) (Orbit.mk (VBool true) 60 0 None VUndef) 1
                (Vec2.mk 0 0) = HasPosition.mk (Vec2.mk 10 20)
  /\ applyPulse (HasScale.mk (Vec2.mk 2 3)) (Pulse.mk (VBool true) (-1) 60) 1
     = HasScale.mk (Vec2.mk 2 3)
  /\ applyFade (HasOpacity.mk 1) (Fade.mk (VBool true) 0 1 60) NaN = HasOpacity.mk 1.
Proof.
  destruct (behaviours_noop_when_inactive 1) as (Hspin & Horbit & Hpulse & _).
  destruct (behaviours_noop_when_inactive NaN) as (_ & _ & _ & Hfade).
  split; [ | split; [ | split ] ].
  - apply Hspin. left. reflexivity.
  - apply Horbit. right; right; left. cbn. apply Rleb_true. lra.
  - apply Hpulse. right; right; left. cbn. apply Rleb_true. lra.
  - apply Hfade. right; right. reflexivity.
Defined.

(** Evaluation that leaves real constants and comparisons alone. *)
Ltac js_cbn := cbn -[IZR Q2R Rltb Rleb PI cos sin Rplus Rmult Rminus Rdiv Ropp Rinv].

(** Evaluation of a closed term: unfold, then settle each comparison. *)
Ltac js_eval :=
  repeat (progress (js_cbn; unfold JS.signed_inf, JS.gt, JS.ge; R_decide)).

(** ** Validation *)

(** C1.  Validation is atomic: when at least one error is recorded the
    result has ok = false and no normalized config, and when none is
    recorded it has ok = true and a normalized config, whatever the
    warnings are. *)
Theorem validation_atomic (input : LibraryConfig) :
  (Result.errors (validateLibraryConfig input) <> [] ->
   Result.ok (validateLibraryConfig input) = false
   /\ Result.normalized (validateLibraryConfig input) = None)
  /\ (Result.errors (validateLibraryConfig input) = [] ->
      Result.ok (validateLibraryConfig input) = true
      /\ exists cfg, Result.normalized (validateLibraryConfig input) = Some cfg).
Proof.
  unfold validateLibraryConfig.
  destruct (negb (Array_isArray (Input.layers input))).
  - cbn [Result.errors Result.ok Result.normalized]. split.
    + intros _. split; reflexivity.
    + intros H. destruct (app_cons_not_nil _ _ _ (eq_sym H)).
  - destruct (forEach validateLayer _ _) as [errors warnings seen normalizedLayers].
    destruct errors as [ | e errors]; cbn [List.length Nat.eqb Result.errors Result.ok Result.normalized].
    + split; [ intros H; now destruct H | intros _; split; [ reflexivity | eauto ] ].
    + split; [ intros _; split; reflexivity | discriminate ].
Qed.

Lemma config_duplicate_errors :
  Result.errors (validateLibraryConfig config_duplicate)
  = [ Issue.mk "layer.id.duplicate" "layers[1].layerId"
        ("duplicate " ++ dquote ++ "a" ++ dquote) error ].
Proof.
  unfold validateLibraryConfig, config_duplicate, raw_config, forEach.
  js_eval. reflexivity.
Qed.

Lemma config_opacity_result :
  Result.errors (validateLibraryConfig config_opacity) = []
  /\ Result.warnings (validateLibraryConfig config_opacity)
     = [ Issue.mk "layer.opacity.range" "layers[0].opacity"
           "opacity should be within [0,1]" warning ]
  /\ option_map (fun cfg => map Layer.opacity (Config.layers cfg))
                (Result.normalized (validateLibraryConfig config_opacity))
     = Some [Num 1.5].
Proof.
  unfold validateLibraryConfig, config_opacity, raw_config, forEach, num.
  js_eval. repeat split; reflexivity.
Qed.

(** C1 on these two: the duplicate is rejected whole although its first
    layer is valid, and the warned config is accepted. *)
Lemma validation_atomic_witness :
  (Result.ok (validateLibraryConfig config_duplicate) = false
   /\ Result.normalized (validateLibraryConfig config_duplicate) = None)
  /\ (Result.ok (validateLibraryConfig config_opacity) = true
      /\ exists cfg, Result.normalized (validateLibraryConfig config_opacity) = Some cfg).
Proof.
  split.
  - apply (proj1 (validation_atomic config_duplicate)).
    rewrite config_duplicate_errors. discriminate.
  - apply (proj2 (validation_atomic config_opacity)).
    exact (proj1 config_opacity_result).
Defined.

(** *** The issue arrays only grow *)

Lemma extends_refl {A : Type} (l : list A) : extends l l.
Proof. exists []. now rewrite app_nil_r. Qed.

Lemma extends_trans {A : Type} (l1 l2 l3 : list A) :
  extends l1 l2 -> extends l2 l3 -> extends l1 l3.
Proof. intros [m1 ->] [m2 ->]. exists (m1 ++ m2)%list. now rewrite app_assoc. Qed.

Lemma extends_push {A : Type} (l l' : list A) (x : A) : extends l l' -> extends l (push l' x).
Proof. intros [m ->]. exists (m ++ [x])%list. unfold push. now rewrite app_assoc. Qed.

Lemma extends_push_if (l l' : list ValidationIssue) c i :
  extends l l' -> extends l (push_if c i l').
Proof. destruct c; cbn; auto using extends_push. Qed.

Lemma extends_nil {A : Type} (l : list A) : extends l [] -> l = [].
Proof. intros [m H]. symmetry in H. now apply app_eq_nil in H. Qed.

Lemma push_not_nil {A : Type} (l : list A) (x : A) : push l x <> [].
Proof. unfold push. intros H. now apply app_eq_nil in H. Qed.

Lemma push_if_nil c i l : push_if c i l = [] -> c = false /\ l = [].
Proof. destruct c; cbn; [ intros H; now apply push_not_nil in H | auto ]. Qed.

Lemma push_if_app c i (l m : list ValidationIssue) :
  push_if c i (l ++ m) = (l ++ push_if c i m)%list.
Proof. destruct c; cbn; unfold push; [ now rewrite app_assoc | reflexivity ]. Qed.

Lemma In_push_if c i j (l : list ValidationIssue) : In j l -> In j (push_if c i l).
Proof. destruct c; cbn; unfold push; [ intros; apply in_or_app; now left | auto ]. Qed.

Lemma In_push_if_true i (l : list ValidationIssue) : In i (push_if true i l).
Proof. cbn. unfold push. apply in_or_app. right. now left. Qed.

Create HintDb issues.
#[local] Hint Resolve extends_refl extends_push extends_push_if : issues.

Lemma validateEntry_extends path entry errors normalized :
  extends errors (fst (validateEntry path entry (errors, normalized))).
Proof.
  unfold validateEntry.
  repeat match goal with
         | |- context [if ?c then _ else _] => destruct c
         end; cbn [fst]; auto 12 with issues.
Qed.

Lemma forEach_validateEntry_extends (f : nat -> string) entries :
  forall idx errors normalized,
    extends errors
      (fst (forEach_from (fun entry i => validateEntry (f i) entry) idx entries
                         (errors, normalized))).
Proof.
  induction entries as [ | entry entries IH]; intros idx errors normalized;
    cbn [forEach_from fst].
  - apply extends_refl.
  - pose proof (validateEntry_extends (f idx) entry errors normalized) as H.
    destruct (validateEntry (f idx) entry (errors, normalized)) as [errors' normalized'].
    eapply extends_trans; [ exact H | apply IH ].
Qed.

Lemma validateHook_extends hooks k errors basePath :
  extends errors (snd (validateHook hooks k errors basePath)).
Proof.
  unfold validateHook, forEach.
  destruct (negb (truthy (get hooks k))); [ apply extends_refl | ].
  destruct (negb (Array_isArray (get hooks k))); cbn [snd]; [ auto with issues | ].
  pose proof (forEach_validateEntry_extends
                (fun idx => basePath ++ "." ++ k ++ "[" ++ string_of_nat idx ++ "]")
                (as_array (get hooks k)) 0 errors []) as H.
  destruct (forEach_from _ _ _ _) as [errors' normalized']. exact H.
Qed.

Lemma validateEvents_extends hooks errors basePath :
  extends errors (snd (validateEvents hooks errors basePath)).
Proof.
  unfold validateEvents.
  pose proof (validateHook_extends hooks "onPress" errors basePath) as H1.
  destruct (validateHook hooks "onPress" errors basePath) as [onPress errors1].
  pose proof (validateHook_extends hooks "onHover" errors1 basePath) as H2.
  destruct (validateHook hooks "onHover" errors1 basePath) as [onHover errors2].
  pose proof (validateHook_extends hooks "onRelease" errors2 basePath) as H3.
  destruct (validateHook hooks "onRelease" errors2 basePath) as [onRelease errors3].
  cbn [snd] in *. eauto using extends_trans.
Qed.

(** *** What an accepted layer is normalized to *)

Lemma validateLayer_clean raw idx st :
  Scan.errors (validateLayer raw idx st) = [] ->
  Scan.errors st = []
  /\ exists norm ws,
      Scan.normalizedLayers (validateLayer raw idx st) = push (Scan.normalizedLayers st) norm
      /\ Scan.warnings (validateLayer raw idx st) = (Scan.warnings st ++ ws)%list
      /\ layer_normalized idx raw norm ws.
Proof.
  unfold validateLayer. destruct st as [errors warnings seen normalizedLayers].
  destruct (_ || _ || _ || _);
    [ cbn [Scan.errors]; intros H; now apply push_not_nil in H | ].
  destruct (Set_has seen _);
    [ cbn [Scan.errors]; intros H; now apply push_not_nil in H | ].
  destruct (toAssetRef raw) as [assetRef | ] eqn:Easset;
    [ | cbn [Scan.errors]; intros H; now apply push_not_nil in H ].
  cbv zeta.
  match goal with
  | |- context [validateEvents ?h ?e ?b] =>
      pose proof (validateEvents_extends h e b) as Hev;
      destruct (validateEvents h e b) as [events errors']
  end.
  cbn [snd Scan.errors Scan.warnings Scan.normalizedLayers] in *.
  intros ->. apply extends_nil in Hev.
  apply push_if_nil in Hev as [Hnonpos Hev].
  apply push_if_nil in Hev as [Hmissing Hev].
  apply push_if_nil in Hev as [Halign Hev].
  apply push_if_nil in Hev as [Hfit Hev].
  split; [ exact Hev | ].
  eexists. eexists. split; [ reflexivity | ]. split.
  - rewrite <- (app_nil_r warnings) at 1. rewrite !push_if_app. reflexivity.
  - constructor;
      cbn [Layer.opacity Layer.anchor Layer.behaviors Layer.container Layer.assetRef];
      try reflexivity; try assumption.
    + intros H. fold (raw_opacity raw). rewrite H.
      do 5 apply In_push_if. apply In_push_if_true.
    + intros H. fold (raw_anchor raw). rewrite H.
      do 4 apply In_push_if. apply In_push_if_true.
Qed.

Lemma extends_incl {A : Type} (l l' : list A) : extends l l' -> incl l l'.
Proof. intros [m ->]. apply incl_appl, incl_refl. Qed.

Lemma scan_clean raws :
  forall idx st,
    Scan.errors (forEach_from validateLayer idx raws st) = [] ->
    Scan.errors st = []
    /\ extends (Scan.warnings st) (Scan.warnings (forEach_from validateLayer idx raws st))
    /\ exists norms,
        Scan.normalizedLayers (forEach_from validateLayer idx raws st)
        = (Scan.normalizedLayers st ++ norms)%list
        /\ List.length norms = List.length raws
        /\ forall i raw,
            nth_error raws i = Some raw ->
            exists norm ws,
              nth_error norms i = Some norm
              /\ layer_normalized (idx + i) raw norm ws
              /\ incl ws (Scan.warnings (forEach_from validateLayer idx raws st)).
Proof.
  induction raws as [ | raw raws IH]; intros idx st H; cbn [forEach_from] in *.
  - split; [ exact H | ]. split; [ apply extends_refl | ].
    exists []. rewrite app_nil_r. repeat split. intros [ | i] r Hr; discriminate.
  - destruct (IH _ _ H) as (Hstep & Hw & norms & Hn & Hlen & Hnth).
    destruct (validateLayer_clean _ _ _ Hstep) as (Hst & norm & ws & Hn1 & Hw1 & Hl).
    split; [ exact Hst | ]. split.
    { eapply extends_trans; [ | exact Hw ]. rewrite Hw1. now exists ws. }
    exists (norm :: norms). split; [ | split ].
    + rewrite Hn, Hn1. unfold push. now rewrite <- app_assoc.
    + cbn. now rewrite Hlen.
    + intros [ | i] r Hr; cbn [nth_error] in *.
      * injection Hr as <-. exists norm, ws. rewrite Nat.add_0_r.
        split; [ reflexivity | split; [ exact Hl | ] ].
        eapply incl_tran; [ | apply extends_incl, Hw ].
        rewrite Hw1. apply incl_appr, incl_refl.
      * destruct (Hnth i r Hr) as (n & w & Hn2 & Hl2 & Hi).
        exists n, w. rewrite <- plus_n_Sm. auto.
Qed.

(** An accepted config has one normalized layer for each raw layer, in
    the order of the input, made from it as [layer_normalized] says. *)
Lemma validate_accepted input cfg :
  Result.normalized (validateLibraryConfig input) = Some cfg ->
  Result.ok (validateLibraryConfig input) = true
  /\ Result.errors (validateLibraryConfig input) = []
  /\ exists raws,
      Input.layers input = VArr raws
      /\ List.length (Config.layers cfg) = List.length raws
      /\ forall i raw,
          nth_error raws i = Some raw ->
          exists norm ws,
            nth_error (Config.layers cfg) i = Some norm
            /\ layer_normalized i raw norm ws
            /\ incl ws (Result.warnings (validateLibraryConfig input)).
Proof.
  unfold validateLibraryConfig.
  destruct (Input.layers input) as [ | | | | | raws | ];
    cbn [Array_isArray negb Result.normalized as_array]; try discriminate.
  unfold forEach.
  match goal with
  | |- context [forEach_from validateLayer 0 raws ?st] =>
      pose proof (scan_clean raws 0 st) as Hscan;
      destruct (forEach_from validateLayer 0 raws st)
        as [errors warnings seen normalizedLayers]
  end.
  destruct errors as [ | e errors];
    cbn [List.length Nat.eqb Result.normalized Result.ok Result.errors Result.warnings];
    [ | discriminate ].
  intros [= <-]. cbn [Scan.errors Scan.warnings Scan.normalizedLayers] in Hscan.
  destruct (Hscan eq_refl) as (_ & _ & norms & Hn & Hlen & Hnth).
  cbn [app] in Hn. subst normalizedLayers.
  split; [ reflexivity | ]. split; [ reflexivity | ].
  exists raws. cbn [Config.layers]. split; [ reflexivity | split; [ exact Hlen | exact Hnth ] ].
Qed.

(** *** Facts about the guards *)

Lemma isNum_inv v : isNum v = true -> exists r, v = VNum (Num r).
Proof.
  destruct v as [ | | | [r | | | ] | | | ]; cbn; try discriminate. eauto.
Qed.

Lemma is_str_inv v s : is_str v s = true -> v = VStr s.
Proof.
  destruct v; cbn; try discriminate. intros H. apply String.eqb_eq in H. now subst.
Qed.

Lemma isFitMode_truthy v : isFitMode v = true -> truthy v = true.
Proof.
  unfold isFitMode. intros H.
  repeat (apply orb_true_iff in H as [H | H]); apply is_str_inv in H; subst; reflexivity.
Qed.

Lemma isAlignment_truthy v : isAlignment v = true -> truthy v = true.
Proof.
  unfold isAlignment. intros H.
  repeat (apply orb_true_iff in H as [H | H]); apply is_str_inv in H; subst; reflexivity.
Qed.

Lemma is_undefined_false v : is_undefined v = false <-> v <> VUndef.
Proof. destruct v; cbn; split; congruence. Qed.

Lemma is_undefined_true v : is_undefined v = true <-> v = VUndef.
Proof. destruct v; cbn; split; congruence. Qed.

(** Under the non-positive check a present dimension is a positive real. *)
Lemma raw_dimension_positive v :
  defined_le0 (if isNum v then Some (as_number v) else None) = false ->
  isNum v = true ->
  exists r, (if isNum v then Some (as_number v) else None) = Some (Num r) /\ 0 < r.
Proof.
  intros Hle Hnum. destruct (isNum_inv v Hnum) as [r ->].
  cbn in *. exists r. apply Rleb_false_inv in Hle. split; [ reflexivity | lra ].
Qed.

Lemma raw_dimension_truthy v :
  defined_le0 (if isNum v then Some (as_number v) else None) = false ->
  truthy_opt (if isNum v then Some (as_number v) else None) = isNum v.
Proof.
  intros Hle. destruct (isNum v) eqn:E; [ | reflexivity ].
  destruct (isNum_inv v E) as [r ->]. cbn in *. apply Rleb_false_inv in Hle.
  rewrite (Rltb_true 0 r) by lra. apply orb_true_r.
Qed.

(** *** The container of an accepted layer *)

Lemma layer_normalized_container idx raw norm ws :
  layer_normalized idx raw norm ws ->
  (Layer.container norm <> None <-> container_given raw)
  /\ (forall c, Layer.container norm = Some c -> container_carries raw c).
Proof.
  intros [_ _ _ Hc Hfit Halign Hmissing Hnonpos _ _ _].
  apply orb_false_iff in Hnonpos as [Hw Hh].
  assert (Tw : truthy_opt (raw_width raw) = isNum (get raw "layerWidth"))
    by now apply raw_dimension_truthy.
  assert (Th : truthy_opt (raw_height raw) = isNum (get raw "layerHeight"))
    by now apply raw_dimension_truthy.
  assert (Tf : truthy (get raw "fitMode") = negb (is_undefined (get raw "fitMode"))).
  { destruct (is_undefined (get raw "fitMode")) eqn:E.
    - apply is_undefined_true in E. now rewrite E.
    - cbn in Hfit. apply negb_false_iff in Hfit. now apply isFitMode_truthy. }
  assert (Ta : truthy (get raw "alignment") = negb (is_undefined (get raw "alignment"))).
  { destruct (is_undefined (get raw "alignment")) eqn:E.
    - apply is_undefined_true in E. now rewrite E.
    - cbn in Halign. apply negb_false_iff in Halign. now apply isAlignment_truthy. }
  rewrite Tw, Th, Tf, Ta in Hc. split.
  - unfold container_given. rewrite <- !is_undefined_false, Hc.
    destruct (isNum (get raw "layerWidth")), (isNum (get raw "layerHeight")),
      (is_undefined (get raw "fitMode")), (is_undefined (get raw "alignment"));
      cbn; intuition congruence.
  - intros c Hsome. rewrite Hc in Hsome.
    destruct (_ || _ || _ || _); [ | discriminate ]. injection Hsome as <-.
    unfold container_carries.
    cbn [Container.width Container.height Container.fitMode Container.alignment].
    split; [ reflexivity | split; [ reflexivity | ] ].
    split; [ | split ].
    + intros Hu. apply is_undefined_false in Hu. rewrite Hu in Hfit. cbn in Hfit.
      apply negb_false_iff in Hfit. auto.
    + intros Hu. apply is_undefined_false in Hu. rewrite Hu in Halign. cbn in Halign.
      apply negb_false_iff in Halign. auto.
    + intros Hu.
      assert (Hany : negb (is_undefined (get raw "fitMode"))
                     || negb (is_undefined (get raw "alignment")) = true).
      { destruct Hu as [Hu | Hu]; apply is_undefined_false in Hu; rewrite Hu; cbn;
          auto using orb_true_r. }
      rewrite Hany in Hmissing. cbn in Hmissing.
      apply orb_false_iff in Hmissing as [Mw Mh].
      apply negb_false_iff in Mw, Mh. rewrite Tw in Mw. rewrite Th in Mh.
      destruct (raw_dimension_positive _ Hw Mw) as (w & Ew & Pw).
      destruct (raw_dimension_positive _ Hh Mh) as (h & Eh & Ph).
      exists w, h. auto.
Qed.

(** C3, as the code has it.  In an accepted config the normalized layers
    are the raw layers in order; a layer's container is present exactly
    when the raw layer gives a finite layerWidth or layerHeight or any
    fitMode or alignment; it carries the raw width and height, a fitMode
    (an alignment) that the raw layer specifies, which is then a valid
    one, and positive finite width and height whenever fitMode or
    alignment is specified. *)
Theorem accepted_layer_container input cfg :
  Result.normalized (validateLibraryConfig input) = Some cfg ->
  exists raws,
    Input.layers input = VArr raws
    /\ List.length (Config.layers cfg) = List.length raws
    /\ forall i raw norm,
        nth_error raws i = Some raw ->
        nth_error (Config.layers cfg) i = Some norm ->
        (Layer.container norm <> None <-> container_given raw)
        /\ (forall c, Layer.container norm = Some c -> container_carries raw c).
Proof.
  intros H. destruct (validate_accepted input cfg H) as (_ & _ & raws & Hin & Hlen & Hnth).
  exists raws. split; [ exact Hin | split; [ exact Hlen | ] ].
  intros i raw norm Hraw Hnorm.
  destruct (Hnth i raw Hraw) as (norm' & ws & Hn' & Hl & _).
  rewrite Hnorm in Hn'. injection Hn' as <-.
  eapply layer_normalized_container; eauto.
Qed.

Lemma config_contained_accepted :
  option_map (fun cfg => map Layer.container (Config.layers cfg))
             (Result.normalized (validateLibraryConfig config_contained))
  = Some [ Some (Container.mk (Some (Num 200)) (Some (Num 150))
                              (VStr "contain") (VStr "center")) ].
Proof.
  unfold validateLibraryConfig, config_contained, raw_config, forEach, num.
  js_eval. reflexivity.
Qed.

(** C3 on the layer with a full container. *)
Lemma accepted_layer_container_witness :
  exists cfg,
    Result.normalized (validateLibraryConfig config_contained) = Some cfg
    /\ exists raws,
        Input.layers config_contained = VArr raws
        /\ List.length (Config.layers cfg) = List.length raws
        /\ forall i raw norm,
            nth_error raws i = Some raw ->
            nth_error (Config.layers cfg) i = Some norm ->
            (Layer.container norm <> None <-> container_given raw)
            /\ (forall c, Layer.container norm = Some c -> container_carries raw c).
Proof.
  pose proof config_contained_accepted as H.
  destruct (Result.normalized (validateLibraryConfig config_contained)) as [cfg | ] eqn:E;
    [ | discriminate H ].
  exists cfg. split; [ reflexivity | ].
  exact (accepted_layer_container config_contained cfg E).
Defined.

(** C3 as stated fails on an accepted config: the first layer specifies
    layerWidth (as NaN) and gets no container, and the container of the
    second carries neither a fitMode nor an alignment. *)
Lemma bare_containers_accepted :
  Result.ok (validateLibraryConfig config_bare_containers) = true
  /\ option_map (fun cfg => map Layer.container (Config.layers cfg))
                (Result.normalized (validateLibraryConfig config_bare_containers))
     = Some [ None;
              Some (Container.mk (Some (Num 200)) (Some (Num 100)) VUndef VUndef) ].
Proof.
  unfold validateLibraryConfig, config_bare_containers, raw_config, forEach, num.
  js_eval. split; reflexivity.
Qed.

(** *** The numbers of an accepted layer *)

Lemma clamp01_finite (r : R) : clamp01 (Num r) = Num (Rmax 0 (Rmin 1 r)).
Proof.
  unfold clamp01, JS.Math_min, JS.Math_max, JS.le, Rleb, Rmin, Rmax.
  destruct (Rle_dec 1 r); destruct (Rle_dec 0 1); try lra;
    destruct (Rle_dec 0 r); try lra; reflexivity.
Qed.

Lemma get_num_object v k r : get v k = num r -> truthy v && typeof_object v = true.
Proof. destruct v; cbn; try discriminate. reflexivity. Qed.

Lemma raw_anchor_finite raw ax ay :
  get (get raw "anchor") "x" = num ax ->
  get (get raw "anchor") "y" = num ay ->
  raw_anchor raw = Vec2.mk ax ay.
Proof.
  intros Hx Hy. unfold raw_anchor, isVec2, as_Vec2.
  rewrite (get_num_object _ _ _ Hx), Hx, Hy. reflexivity.
Qed.

Lemma layer_normalized_numbers idx raw norm ws warnings :
  layer_normalized idx raw norm ws -> incl ws warnings ->
  numbers_kept idx raw norm warnings.
Proof.
  intros [Ho Ha Hb _ _ _ _ _ Hwo Hwa _] Hincl.
  constructor;
    try (rewrite Hb; unfold normalizeBehaviors;
         cbn [Behaviors.spin Behaviors.orbit Behaviors.pulse Behaviors.fade
              Spin.rpm Orbit.rpm Orbit.radius Pulse.amplitude Pulse.rpm
              Fade.rpm Fade.from Fade.to];
         first [ intros r ->;
                 cbn [isNum num typeof_number as_number JS.Number_isFinite andb];
                 solve [ auto using clamp01_finite ]
               | intros E; rewrite E; reflexivity ]).
  - intros o E. rewrite Ho. unfold raw_opacity. now rewrite E.
  - intros o E Hrange. apply Hincl, Hwo. unfold raw_opacity. rewrite E. cbn.
    unfold JS.gt. cbn. destruct Hrange.
    + rewrite (Rltb_true o 0) by assumption. reflexivity.
    + rewrite (Rltb_true 1 o) by assumption. apply orb_true_r.
  - intros ax ay Hx Hy. rewrite Ha. now apply raw_anchor_finite.
  - intros ax ay Hx Hy Hrange. apply Hincl, Hwa.
    rewrite (raw_anchor_finite raw ax ay Hx Hy). cbn. unfold JS.gt. cbn.
    destruct Hrange as [H | [H | [H | H]]].
    + rewrite (Rltb_true ax 0) by assumption. reflexivity.
    + rewrite (Rltb_true 1 ax) by assumption. now rewrite orb_true_r.
    + rewrite (Rltb_true ay 0) by assumption. now rewrite !orb_true_r.
    + rewrite (Rltb_true 1 ay) by assumption. now rewrite !orb_true_r.
  - intros E. rewrite Ho. unfold raw_opacity. now rewrite E.
  - intros E. rewrite Ha. unfold raw_anchor. now rewrite E.
Qed.

(** C4, as the code has it.  In an accepted config a finite opacity or
    anchor is kept as given, with a warning when it lies outside [0, 1],
    and the finite rpm, radius and amplitude of the behaviours are kept
    as given; the from and to of the fade are clamped into [0, 1]; and
    a field that is not a finite number is replaced by its default:
    opacity 1, anchor (0.5, 0.5) when it is not an object of two finite
    numbers, rpm, radius and amplitude 0, the fade's from and to 1. *)
Theorem accepted_layer_numbers input cfg :
  Result.normalized (validateLibraryConfig input) = Some cfg ->
  exists raws,
    Input.layers input = VArr raws
    /\ List.length (Config.layers cfg) = List.length raws
    /\ forall i raw norm,
        nth_error raws i = Some raw ->
        nth_error (Config.layers cfg) i = Some norm ->
        numbers_kept i raw norm (Result.warnings (validateLibraryConfig input)).
Proof.
  intros H. destruct (validate_accepted input cfg H) as (_ & _ & raws & Hin & Hlen & Hnth).
  exists raws. split; [ exact Hin | split; [ exact Hlen | ] ].
  intros i raw norm Hraw Hnorm.
  destruct (Hnth i raw Hraw) as (norm' & ws & Hn' & Hl & Hincl).
  rewrite Hnorm in Hn'. injection Hn' as <-.
  eapply layer_normalized_numbers; eauto.
Qed.

(** C4 on the config whose layer has opacity 1.5. *)
Lemma accepted_layer_numbers_witness :
  exists cfg,
    Result.normalized (validateLibraryConfig config_opacity) = Some cfg
    /\ exists raws,
        Input.layers config_opacity = VArr raws
        /\ List.length (Config.layers cfg) = List.length raws
        /\ forall i raw norm,
            nth_error raws i = Some raw ->
            nth_error (Config.layers cfg) i = Some norm ->
            numbers_kept i raw norm (Result.warnings (validateLibraryConfig config_opacity)).
Proof.
  pose proof (proj2 (proj2 config_opacity_result)) as H.
  destruct (Result.normalized (validateLibraryConfig config_opacity)) as [cfg | ] eqn:E;
    [ | discriminate H ].
  exists cfg. split; [ reflexivity | ].
  exact (accepted_layer_numbers config_opacity cfg E).
Defined.

(** C4 as stated fails on an accepted config: the fade's from 1.5 is
    normalized to 1 and its to -0.5 to 0, and the opacity +Infinity is
    replaced by 1 with no warning. *)
Lemma fade_range_is_clamped :
  Result.ok (validateLibraryConfig config_fade_range) = true
  /\ Result.warnings (validateLibraryConfig config_fade_range) = []
  /\ option_map
       (fun cfg => map (fun l => (Layer.opacity l,
                                  Fade.from (Behaviors.fade (Layer.behaviors l)),
                                  Fade.to (Behaviors.fade (Layer.behaviors l))))
                       (Config.layers cfg))
       (Result.normalized (validateLibraryConfig config_fade_range))
     = Some [ (Num 1, Num 1, Num 0); (Num 1, Num 1, Num 1) ].
Proof.
  unfold validateLibraryConfig, config_fade_range, raw_config, forEach, num.
  js_eval. repeat split; reflexivity.
Qed.

(** ** Producer and pipeline *)

Lemma validate_ok_errors input :
  Result.ok (validateLibraryConfig input) = true
  <-> Result.errors (validateLibraryConfig input) = [].
Proof.
  unfold validateLibraryConfig.
  destruct (negb (Array_isArray (Input.layers input)));
    cbn [Result.ok Result.errors].
  - split; [ discriminate | intros H; now apply push_not_nil in H ].
  - destruct (forEach validateLayer _ _) as [[ | e errors] warnings seen normalizedLayers];
      cbn; split; congruence.
Qed.

Lemma validate_ok_normalized input :
  Result.ok (validateLibraryConfig input) = true
  <-> exists cfg, Result.normalized (validateLibraryConfig input) = Some cfg.
Proof.
  unfold validateLibraryConfig.
  destruct (negb (Array_isArray (Input.layers input)));
    cbn [Result.ok Result.normalized].
  - split; [ discriminate | intros [cfg H]; discriminate ].
  - destruct (forEach validateLayer _ _) as [[ | e errors] warnings seen normalizedLayers];
      cbn; split; eauto; try discriminate. intros [cfg H]; discriminate.
Qed.

Lemma join_empty sep s l : join sep (s :: l) = "" -> s = "".
Proof.
  destruct l as [ | s' l]; cbn [join]; [ auto | ].
  destruct s; [ reflexivity | discriminate ].
Qed.

Lemma issue_line_not_empty e : issue_line e <> "".
Proof. unfold issue_line. destruct (Issue.path e); discriminate. Qed.

Lemma reason_of_errors (errors : list ValidationIssue) :
  errors <> [] ->
  or_string (join "; " (map issue_line errors)) "invalid config"
  = join "; " (map issue_line errors).
Proof.
  destruct errors as [ | e errors]; [ congruence | intros _ ].
  unfold or_string. cbn [map].
  destruct (String.eqb_spec (join "; " (issue_line e :: map issue_line errors)) "") as [E | E];
    [ | reflexivity ].
  apply join_empty in E. now apply issue_line_not_empty in E.
Qed.

(** C5, as the code has it.  On a config that validation rejects,
    produceLayers throws an Error whose message is
    "produceLayers: validation failed: " followed by the "path: message"
    pairs of the validation errors joined by "; ". *)
Theorem produceLayers_rejected_message input ctx :
  Result.ok (validateLibraryConfig input) = false ->
  produceLayers input ctx
  = Throw ("produceLayers: validation failed: "
           ++ join "; " (map issue_line (Result.errors (validateLibraryConfig input)))).
Proof.
  intros Hok. unfold produceLayers. rewrite Hok.
  rewrite reason_of_errors; [ reflexivity | ].
  intros E. apply validate_ok_errors in E. congruence.
Qed.

Lemma config_no_layers_rejected :
  Result.ok (validateLibraryConfig config_no_layers) = false
  /\ Result.errors (validateLibraryConfig config_no_layers)
     = [ Issue.mk "layers.missing" "layers" "layers must be an array" error ].
Proof. split; reflexivity. Qed.

(** C5 on the config without layers. *)
Lemma produceLayers_rejected_message_witness :
  produceLayers config_no_layers empty_context
  = Throw ("produceLayers: validation failed: "
           ++ join "; " (map issue_line
                             (Result.errors (validateLibraryConfig config_no_layers)))).
Proof.
  exact (produceLayers_rejected_message config_no_layers empty_context
           (proj1 config_no_layers_rejected)).
Defined.

(** C5 as stated fails: the message starts with "produceLayers: ", not
    with "validation failed: ". *)
Lemma produceLayers_message_has_prefix :
  Result.ok (validateLibraryConfig config_no_layers) = false
  /\ produceLayers config_no_layers empty_context
     = Throw "produceLayers: validation failed: layers: layers must be an array"
  /\ produceLayers config_no_layers empty_context
     <> Throw ("validation failed: "
               ++ join "; " (map issue_line
                                 (Result.errors (validateLibraryConfig config_no_layers)))).
Proof.
  split; [ reflexivity | split; [ reflexivity | ] ].
  intros H. discriminate H.
Qed.

(** *** Asset resolution in the two paths *)

Lemma first_missing_key_sound registry layers key :
  first_missing_key registry layers = Some key -> registry_missing registry layers key.
Proof.
  induction layers as [ | norm rest IH]; cbn [first_missing_key]; [ discriminate | ].
  destruct (Layer.assetRef norm) as [p | k | ty] eqn:E.
  - intros H. destruct (IH H) as (n & Hin & Hn). exists n. split; [ now right | exact Hn ].
  - destruct (Map_get registry k) eqn:G.
    + intros H. destruct (IH H) as (n & Hin & Hn). exists n. split; [ now right | exact Hn ].
    + intros [= <-]. exists norm. split; [ now left | auto ].
  - intros H. destruct (IH H) as (n & Hin & Hn). exists n. split; [ now right | exact Hn ].
Qed.

Lemma first_missing_key_complete registry layers key :
  registry_missing registry layers key ->
  exists key', first_missing_key registry layers = Some key'.
Proof.
  intros (norm & Hin & Href & Hget).
  induction layers as [ | n rest IH]; [ destruct Hin | ]. cbn [first_missing_key].
  destruct Hin as [-> | Hin].
  - rewrite Href, Hget. eauto.
  - specialize (IH Hin).
    destruct (Layer.assetRef n) as [p | k | ty]; try exact IH.
    destruct (Map_get registry k); [ exact IH | eauto ].
Qed.

Lemma toAssetRef_known layer ref :
  toAssetRef layer = Some ref -> match ref with OtherRef _ => False | _ => True end.
Proof.
  unfold toAssetRef.
  repeat match goal with |- context [if ?c then _ else _] => destruct c end;
    intros [= <-]; exact I.
Qed.

Lemma accepted_known_refs input cfg :
  Result.normalized (validateLibraryConfig input) = Some cfg ->
  Forall known_ref (Config.layers cfg).
Proof.
  intros H. destruct (validate_accepted input cfg H) as (_ & _ & raws & _ & Hlen & Hnth).
  apply Forall_forall. intros norm Hin.
  destruct (In_nth_error _ _ Hin) as [i Hi].
  assert (Hlt : (i < List.length raws)%nat).
  { rewrite <- Hlen. apply nth_error_Some. congruence. }
  destruct (nth_error raws i) as [raw | ] eqn:Hraw;
    [ | apply nth_error_None in Hraw; lia ].
  destruct (Hnth i raw Hraw) as (norm' & ws & Hn' & Hl & _).
  rewrite Hi in Hn'. injection Hn' as <-.
  unfold known_ref. eapply toAssetRef_known. apply (ln_asset _ _ _ _ Hl).
Qed.

Lemma produce_all ctx stage layers :
  Forall known_ref layers ->
  forall idx,
    match first_missing_key (Context.registry ctx) layers with
    | Some key => map_from (produceLayer ctx stage) idx layers = Throw (not_found key)
    | None => exists out, map_from (produceLayer ctx stage) idx layers = Ok out
                          /\ List.length out = List.length layers
    end.
Proof.
  induction 1 as [ | norm rest Hk _ IH]; intros idx; cbn [first_missing_key map_from].
  - exists []. auto.
  - unfold known_ref in Hk. specialize (IH (S idx)).
    destruct (Layer.assetRef norm) as [p | k | ty] eqn:E; [ | | destruct Hk ].
    + assert (P : exists ld, produceLayer ctx stage norm idx = Ok ld)
        by (unfold produceLayer, resolveAsset; rewrite E; eauto).
      destruct P as [ld ->].
      destruct (first_missing_key _ rest); [ now rewrite IH | ].
      destruct IH as (out & -> & Hlen). eexists. split; [ reflexivity | ]. cbn. now rewrite Hlen.
    + destruct (Map_get (Context.registry ctx) k) eqn:G.
      * assert (P : exists ld, produceLayer ctx stage norm idx = Ok ld)
          by (unfold produceLayer, resolveAsset; rewrite E, G; eauto).
        destruct P as [ld ->].
        destruct (first_missing_key _ rest); [ now rewrite IH | ].
        destruct IH as (out & -> & Hlen). eexists. split; [ reflexivity | ].
        cbn. now rewrite Hlen.
      * unfold produceLayer, resolveAsset. rewrite E, G. reflexivity.
Qed.

Lemma produceLayers_accepted input cfg ctx :
  Result.normalized (validateLibraryConfig input) = Some cfg ->
  produceLayers input ctx
  = match map_from (produceLayer ctx (Config.stage cfg)) 0 (Config.layers cfg) with
    | Throw m => Throw m
    | Ok out =>
        Ok (Produced.mk out (map issue_line (Result.warnings (validateLibraryConfig input))))
    end.
Proof.
  intros H. unfold produceLayers.
  rewrite (proj2 (validate_ok_normalized input) (ex_intro _ cfg H)), H.
  reflexivity.
Qed.

Lemma mapi_from_length {A B : Type} (f : A -> nat -> B) xs :
  forall idx, List.length (mapi_from f idx xs) = List.length xs.
Proof. induction xs; intros idx; cbn; auto. Qed.

Lemma run_pipeline_accepted opts input cfg ctx :
  Result.normalized (validateLibraryConfig input) = Some cfg ->
  run_pipeline opts input ctx
  = Ok (Produced.mk
          (mapi_from (fun norm idx => buildLayerData norm idx ctx opts (Config.stage cfg))
                     0 (Config.layers cfg))
          (map issue_line (Result.warnings (validateLibraryConfig input)))).
Proof.
  intros H. unfold run_pipeline, normalizeInput.
  rewrite (proj2 (validate_ok_normalized input) (ex_intro _ cfg H)), H.
  reflexivity.
Qed.

(** C2, as the code has it.  When a config passes validation and the
    registry lacks the key of some layer's registry reference,
    produceLayers throws 'registry key "<key>" not found' for the first
    such layer in input order and returns no layer; a pipeline built by
    compose never consults the registry and returns one LayerData for
    each layer. *)
Theorem missing_registry_key input cfg ctx :
  Result.normalized (validateLibraryConfig input) = Some cfg ->
  (exists key, registry_missing (Context.registry ctx) (Config.layers cfg) key) ->
  (exists key,
      first_missing_key (Context.registry ctx) (Config.layers cfg) = Some key
      /\ registry_missing (Context.registry ctx) (Config.layers cfg) key
      /\ produceLayers input ctx = Throw (not_found key))
  /\ (forall wrappers,
         exists out,
           compose wrappers input ctx = Ok out
           /\ List.length (Produced.layers out) = List.length (Config.layers cfg)).
Proof.
  intros H [key Hmiss]. split.
  - destruct (first_missing_key_complete _ _ _ Hmiss) as [key' Hfirst].
    exists key'. split; [ exact Hfirst | ].
    split; [ now apply first_missing_key_sound | ].
    rewrite (produceLayers_accepted input cfg ctx H).
    pose proof (produce_all ctx (Config.stage cfg) (Config.layers cfg)
                  (accepted_known_refs input cfg H) 0) as P.
    rewrite Hfirst in P. now rewrite P.
  - intros wrappers. unfold compose.
    rewrite (run_pipeline_accepted _ input cfg ctx H).
    eexists. split; [ reflexivity | ]. cbn [Produced.layers]. apply mapi_from_length.
Qed.

Lemma config_missing_key_accepted :
  option_map (fun cfg => map Layer.assetRef (Config.layers cfg))
             (Result.normalized (validateLibraryConfig config_missing_key))
  = Some [RegistryRef "non-existent-key"].
Proof.
  unfold validateLibraryConfig, config_missing_key, raw_config, forEach.
  js_eval. reflexivity.
Qed.

(** C2 on that config and the empty registry. *)
Lemma missing_registry_key_witness :
  produceLayers config_missing_key empty_context = Throw (not_found "non-existent-key")
  /\ (forall wrappers,
         exists out, compose wrappers config_missing_key empty_context = Ok out
                     /\ List.length (Produced.layers out) = 1%nat).
Proof.
  pose proof config_missing_key_accepted as A.
  destruct (Result.normalized (validateLibraryConfig config_missing_key)) as [cfg | ] eqn:E;
    [ | discriminate A ].
  cbn [option_map] in A. injection A as A.
  destruct (Config.layers cfg) as [ | norm [ | ? ?]] eqn:L; try discriminate A.
  cbn [map] in A. injection A as A.
  assert (M : registry_missing (Context.registry empty_context) (Config.layers cfg)
                               "non-existent-key").
  { exists norm. rewrite L. split; [ now left | split; [ exact A | reflexivity ] ]. }
  destruct (missing_registry_key config_missing_key cfg empty_context E (ex_intro _ _ M))
    as [(key & Hfirst & _ & Hthrow) Hcompose].
  rewrite L in Hfirst, Hcompose. cbn [first_missing_key] in Hfirst.
  rewrite A in Hfirst. cbn in Hfirst. injection Hfirst as <-.
  split; [ exact Hthrow | exact Hcompose ].
Defined.

(** C2 as stated fails for the composer: on the same accepted config and
    empty registry, compose(["spin"]) throws nothing and emits the layer. *)
Lemma compose_ignores_registry :
  Result.ok (validateLibraryConfig config_missing_key) = true
  /\ Map_get (Context.registry empty_context) "non-existent-key" = None
  /\ exists out,
      compose ["spin"] config_missing_key empty_context = Ok out
      /\ map (fun ld => (LayerData.id ld, LayerData.asset ld)) (Produced.layers out)
         = [("a", RegistryRef "non-existent-key")].
Proof.
  split; [ | split; [ reflexivity | ] ].
  - unfold validateLibraryConfig, config_missing_key, raw_config, forEach.
    js_eval. reflexivity.
  - unfold compose, run_pipeline, normalizeInput, validateLibraryConfig,
      config_missing_key, raw_config, forEach.
    js_eval. eexists. split; reflexivity.
Qed.

(** *** The state flags in the two paths *)

Lemma map_from_Forall {A B : Type} (f : A -> nat -> result B) (P : B -> Prop) :
  (forall x i b, f x i = Ok b -> P b) ->
  forall xs idx out, map_from f idx xs = Ok out -> Forall P out.
Proof.
  intros Hf. induction xs as [ | x xs IH]; intros idx out; cbn [map_from].
  - intros [= <-]. constructor.
  - destruct (f x idx) as [b | m] eqn:E; [ | discriminate ].
    destruct (map_from f (S idx) xs) as [bs | m] eqn:E'; [ | discriminate ].
    intros [= <-]. constructor; eauto.
Qed.

Lemma mapi_from_Forall {A B : Type} (f : A -> nat -> B) (P : B -> Prop) :
  (forall x i, P (f x i)) -> forall xs idx, Forall P (mapi_from f idx xs).
Proof. intros Hf. induction xs; intros idx; cbn; constructor; auto. Qed.

Lemma partial_pipeline_run p :
  partial_pipeline p -> exists opts, p = run_pipeline opts.
Proof. intros []; eexists; reflexivity. Qed.

(** C6.  On a valid config, every layer that produceLayers emits has
    isVisible = true, and produceLayers emits them all when every
    registry key resolves; every pipeline of the composer (and every
    produceBasic variant) emits one layer for each layer of the config,
    with isVisible equal to (final opacity > 0).  isHovered, isPressed
    and isActive are false in both paths. *)
Theorem layer_state_flags input cfg ctx :
  Result.normalized (validateLibraryConfig input) = Some cfg ->
  (forall out, produceLayers input ctx = Ok out ->
               Forall canonical_state (Produced.layers out))
  /\ (first_missing_key (Context.registry ctx) (Config.layers cfg) = None ->
      exists out, produceLayers input ctx = Ok out
                  /\ List.length (Produced.layers out) = List.length (Config.layers cfg))
  /\ (forall p, partial_pipeline p ->
                exists out, p input ctx = Ok out
                            /\ List.length (Produced.layers out) = List.length (Config.layers cfg)
                            /\ Forall derived_state (Produced.layers out)).
Proof.
  intros H. split; [ | split ].
  - intros out. rewrite (produceLayers_accepted input cfg ctx H).
    destruct (map_from _ 0 (Config.layers cfg)) as [lds | m] eqn:E; [ | discriminate ].
    intros [= <-]. cbn [Produced.layers].
    eapply map_from_Forall; [ | exact E ].
    intros norm i ld. unfold produceLayer.
    destruct (resolveAsset _ _); [ | discriminate ]. intros [= <-]. reflexivity.
  - intros Hnone. rewrite (produceLayers_accepted input cfg ctx H).
    pose proof (produce_all ctx (Config.stage cfg) (Config.layers cfg)
                  (accepted_known_refs input cfg H) 0) as P.
    rewrite Hnone in P. destruct P as (lds & -> & Hlen). eexists. split; [ reflexivity | exact Hlen ].
  - intros p Hp. destruct (partial_pipeline_run p Hp) as [opts ->].
    rewrite (run_pipeline_accepted opts input cfg ctx H).
    eexists. split; [ reflexivity | ]. cbn [Produced.layers]. split.
    + apply mapi_from_length.
    + apply mapi_from_Forall. intros norm i. reflexivity.
Qed.

Lemma config_transparent_accepted :
  option_map (fun cfg => map Layer.opacity (Config.layers cfg))
             (Result.normalized (validateLibraryConfig config_transparent))
  = Some [Num 0].
Proof.
  unfold validateLibraryConfig, config_transparent, raw_config, forEach, num.
  js_eval. reflexivity.
Qed.

Lemma config_transparent_produced :
  exists out,
    produceLayers config_transparent empty_context = Ok out
    /\ map (fun ld => (Transform.opacity (LayerData.transform ld),
                       State.isVisible (LayerData.state ld))) (Produced.layers out)
       = [(Num 0, true)].
Proof.
  unfold produceLayers, validateLibraryConfig, config_transparent, raw_config, forEach, num.
  js_eval. eexists. split; reflexivity.
Qed.

Lemma config_transparent_composed :
  exists out,
    compose ["fade"] config_transparent empty_context = Ok out
    /\ map (fun ld => (Transform.opacity (LayerData.transform ld),
                       State.isVisible (LayerData.state ld))) (Produced.layers out)
       = [(Num 0, false)].
Proof.
  unfold compose, run_pipeline, normalizeInput, validateLibraryConfig, config_transparent,
    raw_config, forEach, num.
  js_eval. eexists. split; [ reflexivity | ].
  unfold buildLayerData, applyFade. js_eval. reflexivity.
Qed.

(** C6 on the layer of opacity 0: produceLayers leaves it visible, and the
    composer's pipelines derive its visibility from the opacity. *)
Lemma layer_state_flags_witness :
  (forall out, produceLayers config_transparent empty_context = Ok out ->
               Forall canonical_state (Produced.layers out))
  /\ (forall p, partial_pipeline p ->
                exists out, p config_transparent empty_context = Ok out
                            /\ Forall derived_state (Produced.layers out)).
Proof.
  pose proof config_transparent_accepted as A.
  destruct (Result.normalized (validateLibraryConfig config_transparent)) as [cfg | ] eqn:E;
    [ | discriminate A ].
  destruct (layer_state_flags config_transparent cfg empty_context E) as (Hp & _ & Hc).
  split; [ exact Hp | ].
  intros p Hpp. destruct (Hc p Hpp) as (out & Ho & _ & Hs). eauto.
Defined.

(** ** Image mapping *)

Lemma positive_finite_inv n : positive_finite n = true -> exists r, n = Num r /\ 0 < r.
Proof.
  destruct n as [r | | | ]; cbn; try discriminate.
  intros H. apply Rltb_spec in H. eauto.
Qed.

Lemma not_positive_finite n :
  positive_finite n = false -> negb (JS.Number_isFinite n) || (n <=? 0)%js = true.
Proof.
  destruct n as [r | | | ]; cbn; try reflexivity.
  intros H. apply Rltb_false_inv in H. apply Rleb_true. lra.
Qed.

Lemma positive_finite_guard n :
  positive_finite n = true -> JS.Number_isFinite n = true /\ (n <=? 0)%js = false.
Proof.
  intros H. destruct (positive_finite_inv n H) as (r & -> & Hr). cbn.
  split; [ reflexivity | apply Rleb_false; lra ].
Qed.




(** ** Screen mapping *)

Lemma validated_dimension v (d : R) :
  0 < d ->
  positive_finite (if isNum v && (as_number v >? 0)%js then as_number v else Num d) = true.
Proof.
  intros Hd. destruct (isNum v && (as_number v >? 0)%js) eqn:E.
  - apply andb_true_iff in E as [Hn Hp]. destruct (isNum_inv v Hn) as [r ->].
    cbn in *. exact Hp.
  - cbn. apply Rltb_true. exact Hd.
Qed.

Lemma validated_stage_normalized input cfg :
  Result.normalized (validateLibraryConfig input) = Some cfg ->
  normalized_stage (Config.stage cfg) = true.
Proof.
  unfold validateLibraryConfig.
  destruct (negb (Array_isArray (Input.layers input))); [ discriminate | ].
  destruct (forEach validateLayer _ _) as [[ | e errors] warnings seen normalizedLayers];
    cbn [List.length Nat.eqb Result.normalized]; [ | discriminate ].
  intros [= <-]. unfold normalized_stage. cbn [Config.stage Stage.width Stage.height].
  unfold DEFAULT_STAGE. cbn [Stage.width Stage.height].
  rewrite !validated_dimension by lra. reflexivity.
Qed.

Lemma half_finite n :
  positive_finite n = true -> exists h, (n / 2)%js = Num h /\ 0 < h.
Proof.
  intros H. destruct (positive_finite_inv n H) as (r & -> & Hr).
  exists (r / 2). cbn. rewrite (Rltb_true 0 2) by lra. rewrite orb_true_r.
  split; [ reflexivity | lra ].
Qed.

(** ** Orbits and screen frames on doubles *)

Section Doubles.
Import PrimFloat FloatOps FloatAxioms SpecFloat.
#[local] Set Warnings "-inexact-float".
Local Open Scope float_scope.

(** *** The classes of a double *)

Lemma double_is_nan_spec x :
  is_nan x = match Prim2SF x with S754_nan => true | _ => false end.
Proof.
  unfold is_nan. rewrite FloatAxioms.eqb_spec. unfold SFeqb, SFcompare.
  destruct (Prim2SF x) as [s | s | | s m e]; try destruct s; cbn; try reflexivity;
    now rewrite Z.compare_refl, Pos.compare_cont_refl.
Qed.

Lemma double_is_infinity_spec x :
  is_infinity x = match Prim2SF x with S754_infinity _ => true | _ => false end.
Proof.
  unfold is_infinity. rewrite FloatAxioms.eqb_spec, abs_spec.
  change (Prim2SF infinity) with (S754_infinity false).
  destruct (Prim2SF x) as [s | s | | s m e]; try destruct s; reflexivity.
Qed.

Lemma double_is_zero_spec x :
  is_zero x = match Prim2SF x with S754_zero _ => true | _ => false end.
Proof.
  unfold is_zero. rewrite FloatAxioms.eqb_spec.
  change (Prim2SF zero) with (S754_zero false).
  destruct (Prim2SF x) as [s | s | | s m e]; try destruct s; reflexivity.
Qed.

Lemma double_is_finite_spec x :
  is_finite x
  = match Prim2SF x with S754_zero _ | S754_finite _ _ _ => true | _ => false end.
Proof.
  unfold is_finite. rewrite double_is_nan_spec, double_is_infinity_spec.
  destruct (Prim2SF x); reflexivity.
Qed.

(** [0 < x] makes the guard [x <= 0] false, and [x] is not a zero. *)
Lemma double_positive_guard x : (0 <? x) = true -> (x <=? 0) = false /\ is_zero x = false.
Proof.
  rewrite ltb_spec, leb_spec, double_is_zero_spec.
  change (Prim2SF 0) with (S754_zero false).
  destruct (Prim2SF x) as [s | s | | s m e]; try destruct s; cbn; intros H;
    try discriminate H; split; reflexivity.
Qed.

(** *** Arithmetic with a zero and with 1 *)

Lemma double_mul_zero_r x z :
  is_finite x = true -> is_zero z = true -> is_zero (x * z) = true.
Proof.
  rewrite double_is_finite_spec, !double_is_zero_spec, mul_spec. unfold SF64mul, SFmul.
  destruct (Prim2SF x), (Prim2SF z); try discriminate; reflexivity.
Qed.

Lemma double_mul_zero_l z d :
  is_zero z = true -> is_finite d = true -> is_zero (z * d) = true.
Proof.
  rewrite double_is_finite_spec, !double_is_zero_spec, mul_spec. unfold SF64mul, SFmul.
  destruct (Prim2SF z), (Prim2SF d); try discriminate; reflexivity.
Qed.

Lemma double_div_zero_l z d :
  is_zero z = true -> is_finite d = true -> is_zero d = false -> is_zero (z / d) = true.
Proof.
  rewrite double_is_finite_spec, !double_is_zero_spec, div_spec. unfold SF64div, SFdiv.
  destruct (Prim2SF z), (Prim2SF d); try discriminate; reflexivity.
Qed.

Lemma double_opp_zero z : is_zero z = true -> is_zero (- z) = true.
Proof.
  rewrite !double_is_zero_spec, opp_spec. destruct (Prim2SF z); try discriminate; reflexivity.
Qed.

(** Adding a zero gives the same number (up to the sign of a zero). *)
Lemma double_add_zero_r c z : is_zero z = true -> is_nan c = false -> (c + z =? c) = true.
Proof.
  rewrite double_is_zero_spec, double_is_nan_spec, FloatAxioms.eqb_spec, add_spec.
  unfold SF64add, SFadd, SFeqb, SFcompare.
  destruct (Prim2SF z) as [sz | | | ]; try discriminate.
  destruct (Prim2SF c) as [s | s | | s m e]; try discriminate; intros _ _.
  - destruct s, sz; reflexivity.
  - destruct s; reflexivity.
  - destruct s; rewrite Z.compare_refl, Pos.compare_cont_refl; reflexivity.
Qed.

Lemma double_add_zero_l c : is_zero c = false -> 0 + c = c.
Proof.
  rewrite double_is_zero_spec. intros Hc. apply Prim2SF_inj. rewrite add_spec.
  unfold SF64add, SFadd. change (Prim2SF 0) with (S754_zero false).
  destruct (Prim2SF c) as [s | s | | s m e]; try discriminate; reflexivity.
Qed.

Lemma double_sub_zero_l c : is_zero c = false -> 0 - c = - c.
Proof.
  rewrite double_is_zero_spec. intros Hc. apply Prim2SF_inj. rewrite sub_spec, opp_spec.
  unfold SF64sub, SFsub. change (Prim2SF 0) with (S754_zero false).
  destruct (Prim2SF c) as [s | s | | s m e]; try discriminate; reflexivity.
Qed.

Lemma double_opp_not_zero c : is_zero c = false -> is_zero (- c) = false.
Proof.
  rewrite !double_is_zero_spec, opp_spec. destruct (Prim2SF c); try discriminate; reflexivity.
Qed.

Lemma double_valid_finite x s m e :
  Prim2SF x = S754_finite s m e ->
  (fexp prec emax (Zpos (digits2_pos m) + e) = e /\ e <= emax - prec)%Z.
Proof.
  intros E. pose proof (Prim2SF_valid x) as V. rewrite E in V.
  unfold SpecFloat.valid_binary, bounded, canonical_mantissa in V.
  apply andb_true_iff in V as [V1 V2].
  apply Z.eqb_eq in V1. apply Z.leb_le in V2. split; assumption.
Qed.

(** The product by 1 is exact. *)
Lemma double_mul_1_l r : 1 * r = r.
Proof.
  apply Prim2SF_inj. rewrite mul_spec.
  change (Prim2SF 1) with (S754_finite false 4503599627370496 (-52)).
  unfold SF64mul, SFmul.
  destruct (Prim2SF r) as [s | s | | s m e] eqn:E; try reflexivity.
  destruct (double_valid_finite r s m e E) as [Hc Hb].
  cbn [xorb]. unfold binary_round_aux, shr_fexp.
  cbn [Pos.mul Zdigits2 digits2_pos shr_record_of_loc].
  match goal with
  | |- context [shr _ _ ?n] =>
      replace n with 52%Z by (unfold fexp, emin, prec, emax in *; lia)
  end.
  cbn [shr]. replace (-52 + e + 52)%Z with e by lia.
  match goal with
  | |- context [SpecFloat.iter_pos shr_1 52 ?rec] =>
      change (SpecFloat.iter_pos shr_1 52 rec)
        with {| shr_m := Zpos m; shr_r := false; shr_s := false |}
  end.
  cbn [shr_m loc_of_shr_record round_nearest_even Zdigits2].
  rewrite Hc, Z.sub_diag. cbn [shr shr_m].
  apply Z.leb_le in Hb. rewrite Hb. reflexivity.
Qed.

(** *** The orbit *)

Lemma is_str_nullish_cw d : is_str (nullish d (VStr "cw")) "ccw" = is_str d "ccw".
Proof. destruct d; reflexivity. Qed.

Lemma double_applyOrbit_active M prev cfg t baseCenter :
  truthy (Double.Orbit.enabled cfg) = true ->
  (0 <? Double.Orbit.rpm cfg) = true ->
  (0 <? Double.Orbit.radius cfg) = true ->
  is_finite t = true ->
  Double.applyOrbit M prev cfg t baseCenter
  = Double.HasPosition.mk (Double.orbit_point M cfg t baseCenter).
Proof.
  intros He Hrpm Hrad Ht. unfold Double.applyOrbit.
  destruct (double_positive_guard _ Hrpm) as [-> _].
  destruct (double_positive_guard _ Hrad) as [-> _].
  rewrite He, Ht. cbn [negb orb]. rewrite is_str_nullish_cw. reflexivity.
Qed.

Lemma double_orbit_theta_zero cfg t :
  is_zero t = true -> is_finite (Double.Orbit.rpm cfg * 360) = true ->
  is_zero (Double.orbit_theta cfg t) = true.
Proof.
  intros Ht Hf. unfold Double.orbit_theta.
  assert (Hd : is_zero (Double.Orbit.rpm cfg * 360 * t / 60) = true).
  { apply double_div_zero_l; [ | reflexivity | reflexivity ].
    now apply double_mul_zero_r. }
  destruct (is_str (Double.Orbit.direction cfg) "ccw");
    apply double_mul_zero_l; try reflexivity; [ now apply double_opp_zero | exact Hd ].
Qed.




(** *** The screen frames *)




(** The rounding that lets toUIDeg return 360: the remainder of -1e-20
    by 360 is -1e-20 itself, and adding 360 to it gives 360. *)
Example small_negative_angle_rounds_to_360 : -1e-20 + 360 = 360.
Proof. reflexivity. Qed.

End Doubles.

(** ** The examples of the specification and of the test suite *)

(** Spin: {enabled, rpm: 60, cw} at t = 0.5 turns 90 into 270, and ccw at
    t = 1 turns 0 into -360. *)
Example applySpin_half_second :
  applySpin (HasAngle.mk 90) (Spin.mk (VBool true) 60 (VStr "cw")) 0.5 = HasAngle.mk 270
  /\ applySpin (HasAngle.mk 0) (Spin.mk (VBool true) 60 (VStr "ccw")) 1 = HasAngle.mk (-360).
Proof.
  unfold applySpin. js_eval. split; repeat f_equal; lra.
Qed.

(** The resolver: a path reference has unknown dimensions, a registry
    reference gives the stored metadata, and a missing key throws. *)
Example resolveAsset_cases :
  resolveAsset (PathRef "/test/image.png") [] = Ok (AssetMeta.mk "/test/image.png" NaN NaN None None)
  /\ resolveAsset (RegistryRef "test-asset")
       [("test-asset", AssetMeta.mk "/test/image.png" 100 100 None None)]
     = Ok (AssetMeta.mk "/test/image.png" 100 100 None None)
  /\ resolveAsset (RegistryRef "missing-key") [] = Throw (not_found "missing-key").
Proof. repeat split. Qed.

(** The default placement and the centre of the stage agree. *)
Example defaultPlacement_is_center stage :
  defaultPlacement stage = ScreenMapping.center (createScreenMapping stage) tt.
Proof. unfold defaultPlacement, createScreenMapping. destruct (Stage.origin stage); reflexivity. Qed.

(* ================================================================== *)
(** * Further properties of the code *)

(** ** The fade at evaluation time *)

Lemma clamp01_unit_or_NaN v : is_NaN (clamp01 v) = true \/ unit_range (clamp01 v) = true.
Proof.
  unfold clamp01, unit_range, JS.Math_max, JS.Math_min.
  destruct v as [r | | | ]; cbn; auto; right; unfold Rleb;
    repeat (match goal with
            | |- context [Rle_dec ?a ?b] => destruct (Rle_dec a b); try lra
            end; cbn; unfold Rleb);
    reflexivity.
Qed.

(** X5.  A fade that runs clamps at evaluation time: when the fade is
    enabled, its rpm passes the guard (it is not <= 0) and the time is
    finite, the opacity returned is NaN or a number of [0, 1], whatever
    from, to and rpm are, and it does not depend on the previous
    opacity. *)
Theorem applyFade_in_range prev cfg t :
  truthy (Fade.enabled cfg) = true ->
  (Fade.rpm cfg <=? 0)%js = false ->
  JS.Number_isFinite t = true ->
  (is_NaN (HasOpacity.opacity (applyFade prev cfg t)) = true
   \/ unit_range (HasOpacity.opacity (applyFade prev cfg t)) = true)
  /\ forall prev', applyFade prev' cfg t = applyFade prev cfg t.
Proof.
  intros He Hrpm Ht. unfold applyFade. rewrite He, Hrpm, Ht.
  cbn [negb orb HasOpacity.opacity]. split; [ | reflexivity ].
  match goal with
  | |- context [JS.Math_max (Num 0) (JS.Math_min (Num 1) ?v)] =>
      change (JS.Math_max (Num 0) (JS.Math_min (Num 1) v)) with (clamp01 v)
  end.
  apply clamp01_unit_or_NaN.
Qed.

(** X5 on the fade of the fade test, from 0.2 to 0.8 at 60 rpm, a quarter
    of a second in. *)
Lemma applyFade_in_range_witness :
  is_NaN (HasOpacity.opacity
            (applyFade (HasOpacity.mk 1) (Fade.mk (VBool true) 0.2 0.8 60) 0.25)) = true
  \/ unit_range (HasOpacity.opacity
                   (applyFade (HasOpacity.mk 1) (Fade.mk (VBool true) 0.2 0.8 60) 0.25)) = true.
Proof.
  assert (Hrpm : (Fade.rpm (Fade.mk (VBool true) 0.2 0.8 60) <=? 0)%js = false).
  { cbn. apply Rleb_false. lra. }
  exact (proj1 (applyFade_in_range (HasOpacity.mk 1) (Fade.mk (VBool true) 0.2 0.8 60) 0.25
                  eq_refl Hrpm eq_refl)).
Defined.

(** ** Event hooks *)

Lemma validateEntry_kept path entry errors normalized :
  snd (validateEntry path entry (errors, normalized))
  = if entry_kept entry then push normalized entry else normalized.
Proof.
  unfold validateEntry, entry_kept.
  destruct (is_str (get entry "action") "spin"), (is_str (get entry "action") "orbit"),
    (is_str (get entry "action") "pulse"), (is_str (get entry "action") "fade");
    cbn [negb andb orb snd]; try reflexivity;
    destruct (truthy (get entry "set") && negb (typeof_object (get entry "set")));
    reflexivity.
Qed.

Lemma validateEntry_dropped path entry errors normalized :
  entry_kept entry = false ->
  exists i, fst (validateEntry path entry (errors, normalized)) = push errors i.
Proof.
  unfold validateEntry, entry_kept.
  destruct (is_str (get entry "action") "spin"), (is_str (get entry "action") "orbit"),
    (is_str (get entry "action") "pulse"), (is_str (get entry "action") "fade"),
    (truthy (get entry "set") && negb (typeof_object (get entry "set")));
    cbn [negb andb orb fst]; intros H; try discriminate H; eauto.
Qed.

Lemma extends_length {A : Type} (l l' : list A) :
  extends l l' -> (List.length l <= List.length l')%nat.
Proof. intros [m ->]. rewrite length_app. lia. Qed.

Lemma extends_same_length {A : Type} (l l' : list A) :
  extends l l' -> List.length l' = List.length l -> l' = l.
Proof.
  intros [m ->] H. rewrite length_app in H.
  destruct m; [ now rewrite app_nil_r | cbn in H; lia ].
Qed.

Lemma forEach_validateEntry_kept (f : nat -> string) entries :
  forall idx errors normalized,
    snd (forEach_from (fun entry i => validateEntry (f i) entry) idx entries
                      (errors, normalized))
    = (normalized ++ filter entry_kept entries)%list.
Proof.
  induction entries as [ | entry entries IH]; intros idx errors normalized;
    cbn [forEach_from filter].
  - cbn. now rewrite app_nil_r.
  - pose proof (validateEntry_kept (f idx) entry errors normalized) as H.
    destruct (validateEntry (f idx) entry (errors, normalized)) as [errors' normalized'].
    cbn [snd] in H. rewrite IH, H.
    destruct (entry_kept entry); [ unfold push; now rewrite <- app_assoc | reflexivity ].
Qed.

Lemma forEach_validateEntry_clean (f : nat -> string) entries :
  forall idx errors normalized,
    fst (forEach_from (fun entry i => validateEntry (f i) entry) idx entries
                      (errors, normalized)) = errors ->
    filter entry_kept entries = entries.
Proof.
  induction entries as [ | entry entries IH]; intros idx errors normalized;
    cbn [forEach_from filter]; [ reflexivity | ].
  pose proof (validateEntry_extends (f idx) entry errors normalized) as Hext.
  pose proof (validateEntry_dropped (f idx) entry errors normalized) as Hdrop.
  destruct (validateEntry (f idx) entry (errors, normalized)) as [errors' normalized'].
  cbn [fst] in *. intros Hfinal.
  pose proof (forEach_validateEntry_extends f entries (S idx) errors' normalized') as Hext'.
  rewrite Hfinal in Hext'.
  assert (E : errors' = errors).
  { apply extends_same_length; [ exact Hext | ].
    apply extends_length in Hext, Hext'. lia. }
  subst errors'. destruct (entry_kept entry).
  - f_equal. eapply IH. exact Hfinal.
  - destruct (Hdrop eq_refl) as [i Hi]. apply (f_equal (@List.length _)) in Hi.
    unfold push in Hi. rewrite length_app in Hi. cbn in Hi. lia.
Qed.

Lemma validateHook_kept hooks k errors basePath :
  fst (validateHook hooks k errors basePath) = kept_hook hooks k.
Proof.
  unfold validateHook, kept_hook, forEach.
  destruct (truthy (get hooks k)); cbn [negb andb]; [ | reflexivity ].
  destruct (Array_isArray (get hooks k)); cbn [negb]; [ | reflexivity ].
  pose proof (forEach_validateEntry_kept
                (fun idx => basePath ++ "." ++ k ++ "[" ++ string_of_nat idx ++ "]")
                (as_array (get hooks k)) 0 errors []) as H.
  destruct (forEach_from _ _ _ _) as [errors' normalized']. cbn [snd fst app] in *.
  now rewrite H.
Qed.

Lemma validateHook_clean hooks k errors basePath :
  snd (validateHook hooks k errors basePath) = errors ->
  kept_hook hooks k
  = if truthy (get hooks k) then Some (as_array (get hooks k)) else None.
Proof.
  unfold validateHook, kept_hook, forEach.
  destruct (truthy (get hooks k)); cbn [negb andb]; [ | reflexivity ].
  destruct (Array_isArray (get hooks k)); cbn [negb snd].
  - pose proof (forEach_validateEntry_clean
                  (fun idx => basePath ++ "." ++ k ++ "[" ++ string_of_nat idx ++ "]")
                  (as_array (get hooks k)) 0 errors []) as H.
    destruct (forEach_from _ _ _ _) as [errors' normalized']. cbn [snd fst] in *.
    intros E. now rewrite (H E).
  - intros E. apply (f_equal (@List.length _)) in E. unfold push in E.
    rewrite length_app in E. cbn in E. lia.
Qed.

Lemma validateEvents_kept hooks errors basePath :
  fst (validateEvents hooks errors basePath) = kept_events hooks.
Proof.
  unfold validateEvents, kept_events.
  pose proof (validateHook_kept hooks "onPress" errors basePath) as K1.
  destruct (validateHook hooks "onPress" errors basePath) as [onPress errors1].
  pose proof (validateHook_kept hooks "onHover" errors1 basePath) as K2.
  destruct (validateHook hooks "onHover" errors1 basePath) as [onHover errors2].
  pose proof (validateHook_kept hooks "onRelease" errors2 basePath) as K3.
  destruct (validateHook hooks "onRelease" errors2 basePath) as [onRelease errors3].
  cbn [fst snd] in *. subst. reflexivity.
Qed.



(** ** The layer callback, case by case *)

Lemma push_if_extends (l : list ValidationIssue) c i : extends l (push_if c i l).
Proof. apply extends_push_if, extends_refl. Qed.

Lemma validateLayer_step raw idx st :
  extends (Scan.errors st) (Scan.errors (validateLayer raw idx st))
  /\ extends (Scan.warnings st) (Scan.warnings (validateLayer raw idx st))
  /\ match valid_id raw, Set_has (Scan.seen st) (raw_id raw), toAssetRef raw with
     | false, _, _ =>
         Scan.errors (validateLayer raw idx st)
         = push (Scan.errors st)
                (Issue.mk "layer.id.missing" (layer_base idx ++ ".layerId")
                          "layerId required" error)
         /\ Scan.seen (validateLayer raw idx st) = Scan.seen st
         /\ Scan.normalizedLayers (validateLayer raw idx st) = Scan.normalizedLayers st
     | true, true, _ =>
         Scan.errors (validateLayer raw idx st)
         = push (Scan.errors st) (duplicate_issue idx (raw_id raw))
         /\ Scan.seen (validateLayer raw idx st) = Scan.seen st
         /\ Scan.normalizedLayers (validateLayer raw idx st) = Scan.normalizedLayers st
     | true, false, None =>
         (exists message,
             Scan.errors (validateLayer raw idx st)
             = push (Scan.errors st)
                    (Issue.mk "layer.asset.invalid" (layer_base idx) message error))
         /\ Scan.seen (validateLayer raw idx st) = Set_add (Scan.seen st) (raw_id raw)
         /\ Scan.normalizedLayers (validateLayer raw idx st) = Scan.normalizedLayers st
     | true, false, Some ref =>
         Scan.seen (validateLayer raw idx st) = Set_add (Scan.seen st) (raw_id raw)
         /\ Scan.normalizedLayers (validateLayer raw idx st)
            = push (Scan.normalizedLayers st) (normalized_layer raw ref)
     end.
Proof.
  unfold validateLayer, valid_id, raw_id, layer_base.
  destruct st as [errors warnings seen normalizedLayers].
  cbn [Scan.errors Scan.warnings Scan.seen Scan.normalizedLayers].
  destruct (truthy raw), (typeof_object raw), (typeof_string (get raw "layerId")),
    (String.length (as_string (get raw "layerId")) =? 0)%nat;
    cbn [negb andb orb Scan.errors Scan.warnings Scan.seen Scan.normalizedLayers];
    try (split; [ apply extends_push, extends_refl
                | split; [ apply extends_refl | repeat split ] ]).
  destruct (Set_has seen (as_string (get raw "layerId")));
    cbn [Scan.errors Scan.warnings Scan.seen Scan.normalizedLayers];
    [ split; [ apply extends_push, extends_refl
             | split; [ apply extends_refl | repeat split ] ] | ].
  destruct (toAssetRef raw) as [ref | ];
    cbn [Scan.errors Scan.warnings Scan.seen Scan.normalizedLayers];
    [ | split; [ apply extends_push, extends_refl
               | split; [ apply extends_refl | split; [ eauto | split; reflexivity ] ] ] ].
  cbv zeta.
  match goal with
  | |- context [validateEvents ?h ?e ?b] =>
      pose proof (validateEvents_extends h e b) as Hev;
      pose proof (validateEvents_kept h e b) as Hkept;
      destruct (validateEvents h e b) as [events errors']
  end.
  cbn [fst snd Scan.errors Scan.warnings Scan.seen Scan.normalizedLayers] in *.
  subst events. split; [ | split; [ | split; reflexivity ] ].
  - eapply extends_trans; [ | exact Hev ].
    repeat (eapply extends_trans; [ | apply push_if_extends ]). apply extends_refl.
  - repeat (eapply extends_trans; [ | apply push_if_extends ]). apply extends_refl.
Qed.

(** ** The scan of the layers, for every input *)

Lemma Set_has_add s k k' :
  Set_has (Set_add s k) k' = String.eqb k' k || Set_has s k'.
Proof.
  unfold Set_add. destruct (Set_has s k) eqn:H; cbn [Set_has existsb]; [ | reflexivity ].
  destruct (String.eqb_spec k' k) as [-> | _]; [ now rewrite H | reflexivity ].
Qed.

Lemma validateLayer_seen raw idx st :
  (forall k, Set_has (Scan.seen st) k = true ->
             Set_has (Scan.seen (validateLayer raw idx st)) k = true)
  /\ (valid_id raw = true ->
      Set_has (Scan.seen (validateLayer raw idx st)) (raw_id raw) = true).
Proof.
  destruct (validateLayer_step raw idx st) as (_ & _ & H).
  destruct (valid_id raw).
  - destruct (Set_has (Scan.seen st) (raw_id raw)) eqn:Hs.
    + destruct H as (_ & -> & _). auto.
    + assert (Hseen : Scan.seen (validateLayer raw idx st)
                      = Set_add (Scan.seen st) (raw_id raw))
        by (destruct (toAssetRef raw); [ apply H | apply H ]).
      rewrite Hseen. split.
      * intros k Hk. rewrite Set_has_add, Hk. apply orb_true_r.
      * intros _. rewrite Set_has_add, String.eqb_refl. reflexivity.
  - destruct H as (_ & -> & _). split; [ auto | discriminate ].
Qed.

Lemma scan_extends raws :
  forall idx st,
    extends (Scan.errors st) (Scan.errors (forEach_from validateLayer idx raws st))
    /\ extends (Scan.warnings st) (Scan.warnings (forEach_from validateLayer idx raws st)).
Proof.
  induction raws as [ | raw raws IH]; intros idx st; cbn [forEach_from].
  - split; apply extends_refl.
  - destruct (validateLayer_step raw idx st) as (He & Hw & _).
    destruct (IH (S idx) (validateLayer raw idx st)) as (He' & Hw').
    split; eapply extends_trans; eassumption.
Qed.

Lemma scan_duplicate raws :
  forall idx st j rj,
    nth_error raws j = Some rj ->
    valid_id rj = true ->
    Set_has (Scan.seen st) (raw_id rj) = true
    \/ (exists i ri, (i < j)%nat /\ nth_error raws i = Some ri
                     /\ valid_id ri = true /\ raw_id ri = raw_id rj) ->
    In (duplicate_issue (idx + j) (raw_id rj))
       (Scan.errors (forEach_from validateLayer idx raws st)).
Proof.
  induction raws as [ | raw raws IH]; intros idx st [ | j] rj Hj Hvalid Hseen;
    cbn [nth_error forEach_from] in *; try discriminate.
  - injection Hj as ->.
    assert (Hs : Set_has (Scan.seen st) (raw_id rj) = true).
    { destruct Hseen as [H | (i & ri & Hlt & _)]; [ exact H | lia ]. }
    destruct (validateLayer_step rj idx st) as (_ & _ & H).
    rewrite Hvalid, Hs in H. destruct H as (He & _).
    apply (extends_incl _ _ (proj1 (scan_extends raws (S idx) _))).
    rewrite He, Nat.add_0_r. unfold push. apply in_or_app. right. now left.
  - rewrite <- plus_n_Sm. apply (IH (S idx)); [ exact Hj | exact Hvalid | ].
    destruct (validateLayer_seen raw idx st) as (Hmono & Hadd).
    destruct Hseen as [H | (i & ri & Hlt & Hi & Hv & Hid)]; [ left; auto | ].
    destruct i as [ | i]; cbn [nth_error] in Hi.
    + injection Hi as ->. left. rewrite <- Hid. auto.
    + right. exists i, ri. repeat split; auto. lia.
Qed.

Lemma validate_scan input raws :
  Input.layers input = VArr raws ->
  Result.errors (validateLibraryConfig input) = Scan.errors (scan_of input raws)
  /\ Result.warnings (validateLibraryConfig input) = Scan.warnings (scan_of input raws)
  /\ Result.normalized (validateLibraryConfig input)
     = if (List.length (Scan.errors (scan_of input raws)) =? 0)%nat
       then Some (Config.mk (stage_of input) (Scan.normalizedLayers (scan_of input raws)))
       else None.
Proof.
  intros Hin. unfold validateLibraryConfig, scan_of, forEach. rewrite Hin.
  cbn [Array_isArray negb as_array].
  change (push_if _ _ []) with (stage_warnings input).
  destruct (forEach_from validateLayer 0 raws _)
    as [[ | e errors] warnings seen normalizedLayers];
    cbn [List.length Nat.eqb Scan.errors Scan.warnings Scan.normalizedLayers
         Result.errors Result.warnings Result.normalized];
    repeat split; reflexivity.
Qed.

Lemma validate_rejected input :
  Result.errors (validateLibraryConfig input) <> [] ->
  Result.ok (validateLibraryConfig input) = false
  /\ Result.normalized (validateLibraryConfig input) = None.
Proof.
  intros H.
  destruct (Result.ok (validateLibraryConfig input)) eqn:Hok.
  - apply validate_ok_errors in Hok. contradiction.
  - split; [ reflexivity | ].
    destruct (Result.normalized (validateLibraryConfig input)) as [cfg | ] eqn:Hn;
      [ | reflexivity ].
    assert (Result.ok (validateLibraryConfig input) = true)
      by (apply validate_ok_normalized; eauto).
    congruence.
Qed.



(** ** Accepted configs, layer by layer *)

Lemma scan_map raws :
  forall idx st,
    Scan.errors (forEach_from validateLayer idx raws st) = [] ->
    map Some (Scan.normalizedLayers (forEach_from validateLayer idx raws st))
    = (map Some (Scan.normalizedLayers st) ++ map normalize_raw raws)%list
    /\ Forall (fun raw => valid_id raw = true) raws
    /\ Forall (fun raw => Set_has (Scan.seen st) (raw_id raw) = false) raws
    /\ NoDup (map raw_id raws).
Proof.
  induction raws as [ | raw raws IH]; intros idx st Hclean; cbn [forEach_from map] in *.
  - rewrite app_nil_r. repeat split; constructor.
  - destruct (IH _ _ Hclean) as (Hmap & Hvalid & Hseen & Hnodup).
    assert (Hstep : Scan.errors (validateLayer raw idx st) = []).
    { apply extends_nil. rewrite <- Hclean. apply scan_extends. }
    destruct (validateLayer_step raw idx st) as (_ & _ & H).
    destruct (valid_id raw) eqn:Hv;
      [ | destruct H as (He & _); rewrite He in Hstep; now apply push_not_nil in Hstep ].
    destruct (Set_has (Scan.seen st) (raw_id raw)) eqn:Hs;
      [ destruct H as (He & _); rewrite He in Hstep; now apply push_not_nil in Hstep | ].
    destruct (toAssetRef raw) as [ref | ] eqn:Href;
      [ | destruct H as ((m & He) & _); rewrite He in Hstep;
          now apply push_not_nil in Hstep ].
    destruct H as (Hseen' & Hnl). rewrite Hseen' in Hseen.
    assert (Hfresh : Forall (fun r => raw_id r <> raw_id raw
                                      /\ Set_has (Scan.seen st) (raw_id r) = false) raws).
    { eapply Forall_impl; [ | exact Hseen ]. cbn. intros r Hr.
      rewrite Set_has_add in Hr. apply orb_false_iff in Hr as [Hne Hr].
      split; [ | exact Hr ]. intros E. rewrite E, String.eqb_refl in Hne. discriminate. }
    split; [ | split; [ | split ] ].
    + rewrite Hmap, Hnl. unfold push. rewrite map_app, <- app_assoc. cbn [map app].
      unfold normalize_raw at 2. now rewrite Href.
    + constructor; assumption.
    + constructor; [ exact Hs | ]. eapply Forall_impl; [ | exact Hfresh ]. cbn. tauto.
    + constructor; [ | exact Hnodup ].
      intros Hin. apply in_map_iff in Hin as (r & Hr & Hinr).
      rewrite Forall_forall in Hfresh. destruct (Hfresh r Hinr) as [Hne _]. contradiction.
Qed.

Lemma accepted_scan input cfg :
  Result.normalized (validateLibraryConfig input) = Some cfg ->
  exists raws,
    Input.layers input = VArr raws
    /\ Scan.errors (scan_of input raws) = []
    /\ cfg = Config.mk (stage_of input) (Scan.normalizedLayers (scan_of input raws)).
Proof.
  intros H. destruct (Input.layers input) as [ | | | | | raws | ] eqn:Hin;
    try (unfold validateLibraryConfig in H; rewrite Hin in H; discriminate H).
  exists raws. split; [ reflexivity | ].
  destruct (validate_scan input raws Hin) as (_ & _ & Hn). rewrite Hn in H.
  destruct (Scan.errors (scan_of input raws)); [ | discriminate H ].
  split; [ reflexivity | ]. cbn in H. congruence.
Qed.

Lemma map_Some_inj {A : Type} (l l' : list A) : map Some l = map Some l' -> l = l'.
Proof.
  revert l'. induction l as [ | a l IH]; intros [ | a' l'] H; cbn in H;
    try discriminate; [ reflexivity | ].
  injection H as -> H. f_equal. auto.
Qed.

Lemma normalize_raw_id raw norm : normalize_raw raw = Some norm -> Layer.layerId norm = raw_id raw.
Proof.
  unfold normalize_raw. destruct (toAssetRef raw); [ | discriminate ].
  intros [= <-]. reflexivity.
Qed.

Lemma map_normalize_raw_ids raws norms :
  map Some norms = map normalize_raw raws -> map Layer.layerId norms = map raw_id raws.
Proof.
  revert norms. induction raws as [ | raw raws IH]; intros [ | norm norms] H; cbn in H;
    try discriminate; [ reflexivity | ].
  injection H as Hn H. cbn. f_equal; [ apply normalize_raw_id; auto | auto ].
Qed.

(** X8.  In an accepted config every layer is an object with a non-empty
    string layerId, the ids of the normalized layers are those of the raw
    layers in the order of the input, and no id occurs twice. *)
Theorem accepted_layer_ids input cfg :
  Result.normalized (validateLibraryConfig input) = Some cfg ->
  exists raws,
    Input.layers input = VArr raws
    /\ Forall (fun raw => valid_id raw = true) raws
    /\ map Layer.layerId (Config.layers cfg) = map raw_id raws
    /\ NoDup (map Layer.layerId (Config.layers cfg)).
Proof.
  intros H. destruct (accepted_scan input cfg H) as (raws & Hin & Hclean & ->).
  destruct (scan_map raws 0 _ Hclean) as (Hmap & Hvalid & _ & Hnodup).
  cbn [Scan.normalizedLayers map app] in Hmap. apply map_normalize_raw_ids in Hmap.
  exists raws. cbn [Config.layers]. fold (scan_of input raws) in Hmap.
  rewrite Hmap. auto.
Qed.

Lemma accepted_layers_pointwise_inv input cfg raws :
  Input.layers input = VArr raws ->
  Result.normalized (validateLibraryConfig input) = Some cfg ->
  map Some (Config.layers cfg) = map normalize_raw raws.
Proof.
  intros Hin H. destruct (accepted_scan input cfg H) as (raws' & Hin' & Hclean & ->).
  rewrite Hin in Hin'. injection Hin' as <-.
  destruct (scan_map raws 0 _ Hclean) as (Hmap & _). exact Hmap.
Qed.

(** X9.  In an accepted config each normalized layer is a function of its
    own raw layer alone: it is that layer with its asset reference, its
    defaults, normalizeBehaviors of its behaviors, its kept events and
    its container, whatever the other layers, the stage and its index
    are; and the stage is a function of the raw stage alone. *)
Theorem accepted_layers_pointwise input cfg :
  Result.normalized (validateLibraryConfig input) = Some cfg ->
  exists raws,
    Input.layers input = VArr raws
    /\ map Some (Config.layers cfg) = map normalize_raw raws
    /\ Config.stage cfg = stage_of input.
Proof.
  intros H. destruct (accepted_scan input cfg H) as (raws & Hin & Hclean & ->).
  destruct (scan_map raws 0 _ Hclean) as (Hmap & _).
  exists raws. cbn [Config.layers Config.stage Scan.normalizedLayers map app] in *.
  auto.
Qed.

(** X8 and X9 on the config of one contained layer. *)
Lemma accepted_layer_ids_witness :
  exists cfg,
    Result.normalized (validateLibraryConfig config_contained) = Some cfg
    /\ exists raws,
        Input.layers config_contained = VArr raws
        /\ Forall (fun raw => valid_id raw = true) raws
        /\ map Layer.layerId (Config.layers cfg) = map raw_id raws
        /\ NoDup (map Layer.layerId (Config.layers cfg)).
Proof.
  pose proof config_contained_accepted as H.
  destruct (Result.normalized (validateLibraryConfig config_contained)) as [cfg | ] eqn:E;
    [ | discriminate H ].
  exists cfg. split; [ reflexivity | ].
  exact (accepted_layer_ids config_contained cfg E).
Defined.

Lemma accepted_layers_pointwise_witness :
  exists cfg,
    Result.normalized (validateLibraryConfig config_contained) = Some cfg
    /\ exists raws,
        Input.layers config_contained = VArr raws
        /\ map Some (Config.layers cfg) = map normalize_raw raws
        /\ Config.stage cfg = stage_of config_contained.
Proof.
  pose proof config_contained_accepted as H.
  destruct (Result.normalized (validateLibraryConfig config_contained)) as [cfg | ] eqn:E;
    [ | discriminate H ].
  exists cfg. split; [ reflexivity | ].
  exact (accepted_layers_pointwise config_contained cfg E).
Defined.

(** ** No NaN and no Infinity in a normalized config *)

Lemma isNum_finite v : isNum v = true -> JS.Number_isFinite (as_number v) = true.
Proof. intros H. destruct (isNum_inv v H) as [r ->]. reflexivity. Qed.

Lemma isVec2_finite v : isVec2 v = true -> finite_Vec2 (as_Vec2 v) = true.
Proof.
  unfold isVec2, finite_Vec2, as_Vec2. intros H.
  apply andb_true_iff in H as [H Hy]. apply andb_true_iff in H as [_ Hx].
  cbn [Vec2.x Vec2.y]. now rewrite (isNum_finite _ Hx), (isNum_finite _ Hy).
Qed.

Lemma Vec2_or_default_finite v (d : Vec2) :
  finite_Vec2 d = true -> finite_Vec2 (if isVec2 v then as_Vec2 v else d) = true.
Proof. intros Hd. destruct (isVec2 v) eqn:E; [ now apply isVec2_finite | exact Hd ]. Qed.

Lemma number_or_default_finite v (d : number) :
  JS.Number_isFinite d = true ->
  JS.Number_isFinite (if isNum v then as_number v else d) = true.
Proof. intros Hd. destruct (isNum v) eqn:E; [ now apply isNum_finite | exact Hd ]. Qed.

Lemma normalizeScale_finite v : finite_Vec2 (normalizeScale v) = true.
Proof.
  unfold normalizeScale.
  destruct (typeof_number v && isNum v) eqn:E.
  - apply andb_true_iff in E as [_ E]. unfold finite_Vec2. cbn [Vec2.x Vec2.y].
    now rewrite (isNum_finite _ E).
  - destruct (isVec2 v) eqn:E'; [ | reflexivity ].
    change (Vec2.mk (as_number (get v "x")) (as_number (get v "y"))) with (as_Vec2 v).
    now apply isVec2_finite.
Qed.

Lemma clamped_or_default_unit v :
  unit_range (if isNum v then clamp01 (as_number v) else Num 1) = true.
Proof.
  destruct (isNum v) eqn:E.
  - destruct (isNum_inv v E) as [r ->]. cbn [as_number]. rewrite clamp01_finite.
    unfold unit_range. cbn. unfold Rmax, Rmin.
    destruct (Rle_dec 1 r); destruct (Rle_dec 0 _);
      rewrite !Rleb_true by lra; reflexivity.
  - unfold unit_range. cbn. rewrite !Rleb_true by lra. reflexivity.
Qed.

Lemma normalizeBehaviors_finite b : finite_behaviors (normalizeBehaviors b) = true.
Proof.
  unfold finite_behaviors, normalizeBehaviors, DEFAULT_BEHAVIORS.
  cbn [Behaviors.spin Behaviors.orbit Behaviors.pulse Behaviors.fade
       Spin.rpm Orbit.rpm Orbit.radius Orbit.center Pulse.amplitude Pulse.rpm
       Fade.from Fade.to Fade.rpm].
  rewrite !number_or_default_finite by reflexivity.
  rewrite !clamped_or_default_unit.
  destruct (truthy (get (get b "orbit") "center") && isVec2 (get (get b "orbit") "center"))
    eqn:E; [ | reflexivity ].
  apply andb_true_iff in E as [_ E]. now rewrite (isVec2_finite _ E).
Qed.

Lemma normalized_layer_finite raw ref : finite_transform (normalized_layer raw ref) = true.
Proof.
  unfold finite_transform, normalized_layer, raw_position, raw_tilt, raw_anchor,
    raw_angle, raw_opacity.
  cbn [Layer.position Layer.scale Layer.angle Layer.tilt Layer.anchor Layer.opacity].
  rewrite !Vec2_or_default_finite, normalizeScale_finite, !number_or_default_finite;
    reflexivity.
Qed.

Lemma map_normalize_raw_Forall (P : LayerConfigNormalized -> Prop) raws :
  (forall raw ref, P (normalized_layer raw ref)) ->
  forall norms, map Some norms = map normalize_raw raws -> Forall P norms.
Proof.
  intros HP. induction raws as [ | raw raws IH]; intros [ | norm norms] Hmap; cbn in Hmap;
    try discriminate; constructor.
  - injection Hmap as Hn _. unfold normalize_raw in Hn.
    destruct (toAssetRef raw) as [ref | ]; [ | discriminate ]. injection Hn as ->.
    apply HP.
  - injection Hmap as _ Hmap. apply IH. exact Hmap.
Qed.



(** ** The stage origin and the asset reference *)



Lemma toAssetRef_exclusive layer :
  toAssetRef layer
  = if xorb (hasPath layer) (hasKey layer)
    then Some (if hasPath layer then PathRef (as_string (get layer "imagePath"))
               else RegistryRef (as_string (get layer "registryKey")))
    else None.
Proof.
  unfold toAssetRef. fold (hasPath layer). fold (hasKey layer).
  destruct (hasPath layer), (hasKey layer); reflexivity.
Qed.

Lemma scan_rejects raws :
  forall idx st j rj,
    nth_error raws j = Some rj ->
    valid_id rj = false \/ toAssetRef rj = None ->
    Scan.errors (forEach_from validateLayer idx raws st) <> [].
Proof.
  induction raws as [ | raw raws IH]; intros idx st [ | j] rj Hj Hbad;
    cbn [nth_error forEach_from] in *; try discriminate.
  - injection Hj as ->. intros Hclean.
    assert (Hstep : Scan.errors (validateLayer rj idx st) = []).
    { apply extends_nil. rewrite <- Hclean. apply scan_extends. }
    destruct (validateLayer_step rj idx st) as (_ & _ & H).
    destruct (valid_id rj);
      [ | destruct H as (He & _); rewrite He in Hstep; now apply push_not_nil in Hstep ].
    destruct (Set_has (Scan.seen st) (raw_id rj));
      [ destruct H as (He & _); rewrite He in Hstep; now apply push_not_nil in Hstep | ].
    destruct Hbad as [Hbad | Hbad]; [ discriminate | ]. rewrite Hbad in H.
    destruct H as ((m & He) & _). rewrite He in Hstep. now apply push_not_nil in Hstep.
  - eapply IH; eauto.
Qed.



(** ** What the pipelines emit *)

Lemma container_copy (c : option Container) :
  match c with
  | Some c => Some (Container.mk (Container.width c) (Container.height c)
                                 (Container.fitMode c) (Container.alignment c))
  | None => None
  end = c.
Proof. destruct c as [[w h f a] | ]; reflexivity. Qed.

Lemma produceLayer_carried ctx stage norm idx ld :
  produceLayer ctx stage norm idx = Ok ld ->
  LayerData.zIndex ld = idx /\ carried ld = carried_of norm.
Proof.
  unfold produceLayer. destruct (resolveAsset _ _); [ | discriminate ].
  intros [= <-]. unfold carried, carried_of.
  cbn [LayerData.zIndex LayerData.id LayerData.asset LayerData.container
       LayerData.behaviors LayerData.events].
  now rewrite container_copy.
Qed.

Lemma buildLayerData_carried norm idx ctx opts stage :
  LayerData.zIndex (buildLayerData norm idx ctx opts stage) = idx
  /\ carried (buildLayerData norm idx ctx opts stage) = carried_of norm.
Proof.
  unfold buildLayerData, carried, carried_of.
  cbn [LayerData.zIndex LayerData.id LayerData.asset LayerData.container
       LayerData.behaviors LayerData.events].
  now rewrite container_copy.
Qed.

Lemma map_from_indexed {A B : Type} (f : A -> nat -> result B)
    (z : B -> nat) {C : Type} (g : B -> C) (h : A -> C) :
  (forall x i b, f x i = Ok b -> z b = i /\ g b = h x) ->
  forall xs idx out,
    map_from f idx xs = Ok out ->
    map z out = seq idx (List.length xs) /\ map g out = map h xs.
Proof.
  intros Hf. induction xs as [ | x xs IH]; intros idx out; cbn [map_from].
  - intros [= <-]. split; reflexivity.
  - destruct (f x idx) as [b | m] eqn:E; [ | discriminate ].
    destruct (map_from f (S idx) xs) as [bs | m] eqn:E'; [ | discriminate ].
    intros [= <-]. destruct (Hf _ _ _ E) as [Hz Hg]. destruct (IH _ _ E') as [Hzs Hgs].
    cbn. now rewrite Hz, Hg, Hzs, Hgs.
Qed.

Lemma mapi_from_indexed {A B : Type} (f : A -> nat -> B)
    (z : B -> nat) {C : Type} (g : B -> C) (h : A -> C) :
  (forall x i, z (f x i) = i /\ g (f x i) = h x) ->
  forall xs idx,
    map z (mapi_from f idx xs) = seq idx (List.length xs)
    /\ map g (mapi_from f idx xs) = map h xs.
Proof.
  intros Hf. induction xs as [ | x xs IH]; intros idx; cbn; [ split; reflexivity | ].
  destruct (Hf x idx) as [Hz Hg]. destruct (IH (S idx)) as [Hzs Hgs].
  now rewrite Hz, Hg, Hzs, Hgs.
Qed.

(** X13.  Both pipelines keep the order of the input: on a valid config
    the LayerData they return have the zIndex 0, 1, 2, ... and carry, in
    that order, the id, asset reference, container, behaviours and events
    of the normalized layers unchanged, and the warnings are the
    "path: message" lines of the validation warnings. *)
Theorem pipelines_keep_order input cfg ctx :
  Result.normalized (validateLibraryConfig input) = Some cfg ->
  (forall out, produceLayers input ctx = Ok out ->
               map LayerData.zIndex (Produced.layers out)
               = seq 0%nat (List.length (Config.layers cfg))
               /\ map carried (Produced.layers out) = map carried_of (Config.layers cfg)
               /\ Produced.warnings out
                  = map issue_line (Result.warnings (validateLibraryConfig input)))
  /\ (forall p, partial_pipeline p ->
                exists out,
                  p input ctx = Ok out
                  /\ map LayerData.zIndex (Produced.layers out)
                     = seq 0%nat (List.length (Config.layers cfg))
                  /\ map carried (Produced.layers out) = map carried_of (Config.layers cfg)
                  /\ Produced.warnings out
                     = map issue_line (Result.warnings (validateLibraryConfig input))).
Proof.
  intros H. split.
  - intros out. rewrite (produceLayers_accepted input cfg ctx H).
    destruct (map_from _ 0%nat (Config.layers cfg)) as [lds | m] eqn:E; [ | discriminate ].
    intros [= <-]. cbn [Produced.layers Produced.warnings].
    destruct (map_from_indexed (produceLayer ctx (Config.stage cfg)) LayerData.zIndex
                carried carried_of (produceLayer_carried ctx (Config.stage cfg)) _ _ _ E).
    auto.
  - intros p Hp. destruct (partial_pipeline_run p Hp) as [opts ->].
    rewrite (run_pipeline_accepted opts input cfg ctx H).
    eexists. split; [ reflexivity | ]. cbn [Produced.layers Produced.warnings].
    destruct (mapi_from_indexed
                (fun norm idx => buildLayerData norm idx ctx opts (Config.stage cfg))
                LayerData.zIndex carried carried_of
                (fun norm idx => buildLayerData_carried norm idx ctx opts (Config.stage cfg))
                (Config.layers cfg) 0%nat).
    auto.
Qed.

(** X13 on the config of one contained layer. *)
Lemma pipelines_keep_order_witness :
  exists cfg,
    Result.normalized (validateLibraryConfig config_contained) = Some cfg
    /\ forall p, partial_pipeline p ->
                 exists out,
                   p config_contained empty_context = Ok out
                   /\ map LayerData.zIndex (Produced.layers out)
                      = seq 0%nat (List.length (Config.layers cfg))
                   /\ map carried (Produced.layers out) = map carried_of (Config.layers cfg)
                   /\ Produced.warnings out
                      = map issue_line
                            (Result.warnings (validateLibraryConfig config_contained)).
Proof.
  pose proof config_contained_accepted as H.
  destruct (Result.normalized (validateLibraryConfig config_contained)) as [cfg | ] eqn:E;
    [ | discriminate H ].
  exists cfg. split; [ reflexivity | ].
  exact (proj2 (pipelines_keep_order config_contained cfg empty_context E)).
Defined.

Lemma wrappers_has_In wrappers name : wrappers_has wrappers name = true <-> In name wrappers.
Proof.
  unfold wrappers_has. rewrite existsb_exists. split.
  - intros (x & Hin & Hx). apply String.eqb_eq in Hx. now subst.
  - intros Hin. exists name. split; [ exact Hin | apply String.eqb_refl ].
Qed.

Lemma wrappers_has_ext ws ws' name :
  (In name ws <-> In name ws') -> wrappers_has ws name = wrappers_has ws' name.
Proof.
  intros H. destruct (wrappers_has ws name) eqn:E, (wrappers_has ws' name) eqn:E';
    try reflexivity.
  - apply wrappers_has_In, H, wrappers_has_In in E. congruence.
  - apply wrappers_has_In, H, wrappers_has_In in E'. congruence.
Qed.

(** X14.  compose reads its wrappers as a set: two lists that hold the
    same ones of "spin", "orbit", "pulse" and "fade" build the same
    pipeline, so duplicates, order and any other name do not matter. *)
Theorem compose_set_of_wrappers ws ws' :
  (forall name, In name ["spin"; "orbit"; "pulse"; "fade"] ->
                (In name ws <-> In name ws')) ->
  forall input ctx, compose ws input ctx = compose ws' input ctx.
Proof.
  intros H input ctx. unfold compose.
  rewrite (wrappers_has_ext ws ws' "spin"), (wrappers_has_ext ws ws' "orbit"),
    (wrappers_has_ext ws ws' "pulse"), (wrappers_has_ext ws ws' "fade");
    [ reflexivity | | | | ]; apply H; cbn; auto.
Qed.

(** X14 on a list with a duplicate, another order and an unknown name. *)
Lemma compose_set_of_wrappers_witness :
  compose ["fade"; "spin"; "blur"; "spin"] config_contained empty_context
  = compose ["spin"; "fade"] config_contained empty_context.
Proof.
  apply compose_set_of_wrappers.
  intros name [<- | [<- | [<- | [<- | []]]]]; cbn; split; intros H;
    repeat (destruct H as [H | H]; try discriminate H); auto 6.
Defined.

Lemma produceLayers_Ok_accepted input ctx out :
  produceLayers input ctx = Ok out ->
  exists cfg, Result.normalized (validateLibraryConfig input) = Some cfg.
Proof.
  unfold produceLayers.
  destruct (Result.ok (validateLibraryConfig input)); [ | discriminate ].
  destruct (Result.normalized (validateLibraryConfig input)) as [cfg | ]; [ eauto | discriminate ].
Qed.

Lemma produceLayer_as_built ctx stage norm idx ld :
  produceLayer ctx stage norm idx = Ok ld ->
  with_visible (buildLayerData norm idx ctx (Options.mk true true true true) stage) = ld.
Proof.
  unfold produceLayer. destruct (resolveAsset _ _); [ | discriminate ].
  intros [= <-]. reflexivity.
Qed.

Lemma map_from_mapi_from {A B : Type} (f : A -> nat -> result B) (g : A -> nat -> B)
    (v : B -> B) :
  (forall x i b, f x i = Ok b -> v (g x i) = b) ->
  forall xs idx out, map_from f idx xs = Ok out -> map v (mapi_from g idx xs) = out.
Proof.
  intros Hf. induction xs as [ | x xs IH]; intros idx out; cbn [map_from mapi_from map].
  - now intros [= <-].
  - destruct (f x idx) as [b | m] eqn:E; [ | discriminate ].
    destruct (map_from f (S idx) xs) as [bs | m] eqn:E'; [ | discriminate ].
    intros [= <-]. now rewrite (Hf _ _ _ E), (IH _ _ E').
Qed.

(** X15.  The composer with all four wrappers is the producer up to
    visibility: whenever produceLayers returns, compose of spin, orbit,
    pulse and fade returns the same warnings and the same layers, with
    the same transforms, except for isVisible, which is true in every
    layer of the producer and (opacity > 0), on the final opacity, in
    every layer of the composer. *)
Theorem compose_all_is_produceLayers input ctx out :
  produceLayers input ctx = Ok out ->
  exists out',
    compose ["spin"; "orbit"; "pulse"; "fade"] input ctx = Ok out'
    /\ Produced.warnings out' = Produced.warnings out
    /\ map with_visible (Produced.layers out') = Produced.layers out
    /\ Forall (fun ld => State.isVisible (LayerData.state ld) = true) (Produced.layers out)
    /\ Forall (fun ld => State.isVisible (LayerData.state ld)
                         = (Transform.opacity (LayerData.transform ld) >? 0)%js)
              (Produced.layers out').
Proof.
  intros H. destruct (produceLayers_Ok_accepted input ctx out H) as [cfg Hcfg].
  rewrite (produceLayers_accepted input cfg ctx Hcfg) in H.
  destruct (map_from _ 0%nat (Config.layers cfg)) as [lds | m] eqn:E; [ | discriminate ].
  injection H as <-. unfold compose.
  rewrite (run_pipeline_accepted _ input cfg ctx Hcfg).
  eexists. split; [ reflexivity | ]. cbn [Produced.layers Produced.warnings].
  split; [ reflexivity | ].
  split; [ | split ].
  - eapply map_from_mapi_from; [ | exact E ].
    intros norm i ld. apply produceLayer_as_built.
  - eapply map_from_Forall; [ | exact E ].
    intros norm i ld Hld. apply produceLayer_as_built in Hld. now subst ld.
  - apply mapi_from_Forall. intros norm i. reflexivity.
Qed.

(** X15 on the layer of opacity 0, where the two differ in isVisible. *)
Lemma compose_all_is_produceLayers_witness :
  exists out out',
    produceLayers config_transparent empty_context = Ok out
    /\ compose ["spin"; "orbit"; "pulse"; "fade"] config_transparent empty_context = Ok out'
    /\ Produced.warnings out' = Produced.warnings out
    /\ map with_visible (Produced.layers out') = Produced.layers out
    /\ Forall (fun ld => State.isVisible (LayerData.state ld) = true) (Produced.layers out)
    /\ Forall (fun ld => State.isVisible (LayerData.state ld)
                         = (Transform.opacity (LayerData.transform ld) >? 0)%js)
              (Produced.layers out').
Proof.
  destruct config_transparent_produced as (out & Hout & _).
  exists out.
  destruct (compose_all_is_produceLayers config_transparent empty_context out Hout)
    as (out' & H).
  exists out'. split; [ exact Hout | exact H ].
Defined.

(** X16.  On a config that validation rejects, every pipeline of
    LayerPipeline throws an Error whose message is
    "LayerPipeline: validation failed: " followed by the "path: message"
    pairs of the validation errors joined by "; ". *)
Theorem pipeline_rejected_message p input ctx :
  partial_pipeline p ->
  Result.ok (validateLibraryConfig input) = false ->
  p input ctx
  = Throw ("LayerPipeline: validation failed: "
           ++ join "; " (map issue_line (Result.errors (validateLibraryConfig input)))).
Proof.
  intros Hp Hok. destruct (partial_pipeline_run p Hp) as [opts ->].
  unfold run_pipeline, normalizeInput. rewrite Hok.
  rewrite reason_of_errors; [ reflexivity | ].
  intros E. apply validate_ok_errors in E. congruence.
Qed.

(** X16 on the config without layers and the spin-only pipeline. *)
Lemma pipeline_rejected_message_witness :
  produceBasicSpin config_no_layers empty_context
  = Throw ("LayerPipeline: validation failed: "
           ++ join "; " (map issue_line
                             (Result.errors (validateLibraryConfig config_no_layers)))).
Proof.
  exact (pipeline_rejected_message produceBasicSpin config_no_layers empty_context
           pp_basic_spin (proj1 config_no_layers_rejected)).
Defined.

(** ** Layers that do not move *)

Lemma applySpin_frozen prev cfg t :
  negb (truthy (Spin.enabled cfg)) || negb (JS.Number_isFinite t) = true ->
  applySpin prev cfg t = prev.
Proof.
  unfold applySpin. destruct prev as [a].
  destruct (negb (truthy (Spin.enabled cfg))), (Spin.rpm cfg <=? 0)%js,
    (negb (JS.Number_isFinite t)); cbn; intros H; try discriminate H; reflexivity.
Qed.

Lemma applyOrbit_frozen prev cfg t base :
  negb (truthy (Orbit.enabled cfg)) || negb (JS.Number_isFinite t) = true ->
  applyOrbit prev cfg t base = prev.
Proof.
  unfold applyOrbit. destruct prev as [[px py]].
  destruct (negb (truthy (Orbit.enabled cfg))), (Orbit.rpm cfg <=? 0)%js,
    (Orbit.radius cfg <=? 0)%js, (negb (JS.Number_isFinite t));
    cbn; intros H; try discriminate H; reflexivity.
Qed.

Lemma applyPulse_frozen prev cfg t :
  negb (truthy (Pulse.enabled cfg)) || negb (JS.Number_isFinite t) = true ->
  applyPulse prev cfg t = prev.
Proof.
  unfold applyPulse. destruct prev as [[sx sy]].
  destruct (negb (truthy (Pulse.enabled cfg))), (Pulse.rpm cfg <=? 0)%js,
    (Pulse.amplitude cfg <=? 0)%js, (negb (JS.Number_isFinite t));
    cbn; intros H; try discriminate H; reflexivity.
Qed.

Lemma applyFade_frozen prev cfg t :
  negb (truthy (Fade.enabled cfg)) || negb (JS.Number_isFinite t) = true ->
  applyFade prev cfg t = prev.
Proof.
  unfold applyFade. destruct prev as [o].
  destruct (negb (truthy (Fade.enabled cfg))), (Fade.rpm cfg <=? 0)%js,
    (negb (JS.Number_isFinite t)); cbn; intros H; try discriminate H; reflexivity.
Qed.

Lemma frozen_inv ctx norm :
  frozen ctx norm = true ->
  let b := Layer.behaviors norm in
  let t := Context.time ctx in
  negb (truthy (Spin.enabled (Behaviors.spin b))) || negb (JS.Number_isFinite t) = true
  /\ negb (truthy (Orbit.enabled (Behaviors.orbit b))) || negb (JS.Number_isFinite t) = true
  /\ negb (truthy (Pulse.enabled (Behaviors.pulse b))) || negb (JS.Number_isFinite t) = true
  /\ negb (truthy (Fade.enabled (Behaviors.fade b))) || negb (JS.Number_isFinite t) = true.
Proof.
  unfold frozen, behaviours_off. cbv zeta.
  destruct (negb (JS.Number_isFinite (Context.time ctx))); rewrite ?orb_true_r, ?orb_false_r;
    [ intros _; repeat split | ].
  intros H. apply andb_true_iff in H as [H Hf]. apply andb_true_iff in H as [H Hp].
  apply andb_true_iff in H as [Hs Ho]. repeat split; assumption.
Qed.

Lemma buildLayerData_frozen norm idx ctx opts stage :
  keeps_basic ctx stage norm (buildLayerData norm idx ctx opts stage).
Proof.
  intros H. apply frozen_inv in H. cbv zeta in H. destruct H as (Hs & Ho & Hp & Hf).
  unfold buildLayerData. cbn [LayerData.transform].
  rewrite (applySpin_frozen _ _ _ Hs), (applyOrbit_frozen _ _ _ _ Ho),
    (applyPulse_frozen _ _ _ Hp), (applyFade_frozen _ _ _ Hf).
  destruct opts as [[] [] [] []]; reflexivity.
Qed.

Lemma produceLayer_frozen ctx stage norm idx ld :
  produceLayer ctx stage norm idx = Ok ld -> keeps_basic ctx stage norm ld.
Proof.
  intros E. apply produceLayer_as_built in E. subst ld. intros H.
  apply (buildLayerData_frozen norm idx ctx (Options.mk true true true true) stage H).
Qed.

Lemma map_from_Forall2 {A B : Type} (f : A -> nat -> result B) (P : A -> B -> Prop) :
  (forall x i b, f x i = Ok b -> P x b) ->
  forall xs idx out, map_from f idx xs = Ok out -> Forall2 P xs out.
Proof.
  intros Hf. induction xs as [ | x xs IH]; intros idx out; cbn [map_from].
  - intros [= <-]. constructor.
  - destruct (f x idx) as [b | m] eqn:E; [ | discriminate ].
    destruct (map_from f (S idx) xs) as [bs | m] eqn:E'; [ | discriminate ].
    intros [= <-]. constructor; eauto.
Qed.

Lemma mapi_from_Forall2 {A B : Type} (f : A -> nat -> B) (P : A -> B -> Prop) :
  (forall x i, P x (f x i)) -> forall xs idx, Forall2 P xs (mapi_from f idx xs).
Proof. intros Hf. induction xs; intros idx; cbn; constructor; auto. Qed.

(** X17.  A layer without an enabled behaviour, and every layer when the
    time of the context is NaN or infinite, comes out of every pipeline
    with the basic transform: position, scale, angle, tilt, anchor and
    opacity as the validator normalized them.  This holds for
    produceLayers whenever it returns and for the composer with any
    wrappers and every produceBasic variant. *)
Theorem frozen_layers_keep_basic_transform input cfg ctx :
  Result.normalized (validateLibraryConfig input) = Some cfg ->
  (forall out, produceLayers input ctx = Ok out ->
               Forall2 (keeps_basic ctx (Config.stage cfg))
                       (Config.layers cfg) (Produced.layers out))
  /\ (forall p, partial_pipeline p ->
        exists out, p input ctx = Ok out
                    /\ Forall2 (keeps_basic ctx (Config.stage cfg))
                               (Config.layers cfg) (Produced.layers out)).
Proof.
  intros H. split.
  - intros out. rewrite (produceLayers_accepted input cfg ctx H).
    destruct (map_from _ 0%nat (Config.layers cfg)) as [lds | m] eqn:E; [ | discriminate ].
    intros [= <-]. cbn [Produced.layers].
    eapply map_from_Forall2; [ | exact E ].
    intros norm i ld. apply produceLayer_frozen.
  - intros p Hp. destruct (partial_pipeline_run p Hp) as [opts ->].
    rewrite (run_pipeline_accepted opts input cfg ctx H). eexists. split; [ reflexivity | ].
    cbn [Produced.layers]. apply mapi_from_Forall2.
    intros norm i. apply buildLayerData_frozen.
Qed.

(** X17 on the config of one contained layer, which has no behaviour, in
    the full composer. *)
Lemma frozen_layers_keep_basic_transform_witness :
  exists cfg out,
    Result.normalized (validateLibraryConfig config_contained) = Some cfg
    /\ compose ["spin"; "orbit"; "pulse"; "fade"] config_contained empty_context = Ok out
    /\ Forall2 (keeps_basic empty_context (Config.stage cfg))
               (Config.layers cfg) (Produced.layers out).
Proof.
  pose proof config_contained_accepted as H.
  destruct (Result.normalized (validateLibraryConfig config_contained))
    as [cfg | ] eqn:E; [ | discriminate H ].
  destruct (frozen_layers_keep_basic_transform config_contained cfg empty_context E)
    as (_ & Hp).
  destruct (Hp _ (pp_compose ["spin"; "orbit"; "pulse"; "fade"])) as (out & Hout & Hall).
  exists cfg, out. split; [ reflexivity | split; [ exact Hout | exact Hall ] ].
Defined.

(** ** The direction of an orbit *)

Lemma applyOrbit_default_direction prev cfg t base :
  Orbit.direction cfg = VUndef ->
  applyOrbit prev cfg t base = applyOrbit prev (orbit_toward (VStr "cw") cfg) t base.
Proof.
  intros H. unfold applyOrbit, orbit_toward.
  cbn [Orbit.enabled Orbit.rpm Orbit.radius Orbit.center Orbit.direction].
  rewrite H. reflexivity.
Qed.

(** X18.  The validator copies no direction into a normalized orbit:
    in every accepted config each layer's orbit carries no direction, so
    applyOrbit runs it clockwise, also when the raw config asks for
    "ccw". *)
Theorem accepted_orbits_run_clockwise input cfg :
  Result.normalized (validateLibraryConfig input) = Some cfg ->
  Forall (fun l =>
            Orbit.direction (Behaviors.orbit (Layer.behaviors l)) = VUndef
            /\ forall prev t base,
                applyOrbit prev (Behaviors.orbit (Layer.behaviors l)) t base
                = applyOrbit prev (orbit_toward (VStr "cw")
                                                (Behaviors.orbit (Layer.behaviors l))) t base)
         (Config.layers cfg).
Proof.
  intros H. destruct (accepted_scan input cfg H) as (raws & Hin & Hclean & ->).
  destruct (scan_map raws 0 _ Hclean) as (Hmap & _).
  cbn [Config.layers Scan.normalizedLayers map app] in *.
  eapply map_normalize_raw_Forall; [ | exact Hmap ].
  intros raw ref.
  assert (Hd : Orbit.direction (Behaviors.orbit (Layer.behaviors (normalized_layer raw ref)))
               = VUndef) by reflexivity.
  split; [ exact Hd | ]. intros prev t base. now apply applyOrbit_default_direction.
Qed.

Lemma config_orbit_ccw_accepted :
  option_map (fun cfg => map (fun l => Orbit.rpm (Behaviors.orbit (Layer.behaviors l)))
                             (Config.layers cfg))
             (Result.normalized (validateLibraryConfig config_orbit_ccw))
  = Some [ Num 30 ].
Proof.
  unfold validateLibraryConfig, config_orbit_ccw, raw_config, forEach, num.
  js_eval. reflexivity.
Qed.

(** X18 on a layer whose raw orbit has the direction "ccw". *)
Lemma accepted_orbits_run_clockwise_witness :
  exists cfg,
    Result.normalized (validateLibraryConfig config_orbit_ccw) = Some cfg
    /\ Forall (fun l =>
                 Orbit.direction (Behaviors.orbit (Layer.behaviors l)) = VUndef
                 /\ forall prev t base,
                     applyOrbit prev (Behaviors.orbit (Layer.behaviors l)) t base
                     = applyOrbit prev (orbit_toward (VStr "cw")
                                          (Behaviors.orbit (Layer.behaviors l))) t base)
              (Config.layers cfg).
Proof.
  pose proof config_orbit_ccw_accepted as H.
  destruct (Result.normalized (validateLibraryConfig config_orbit_ccw))
    as [cfg | ] eqn:E; [ | discriminate H ].
  exists cfg. split; [ reflexivity | ].
  exact (accepted_orbits_run_clockwise config_orbit_ccw cfg E).
Defined.

(** ** The geometry of the image mapping *)

(** X20.  An asset referenced by path has no known size: resolveAsset
    gives it the path as src, the width and the height NaN and no anchor,
    whatever the registry, and mapImageIntoContainer then maps it to
    0 by 0 at offset (0, 0) with the layer's anchor, with any container
    and without one. *)
Theorem path_asset_maps_to_nothing path registry container anchor :
  exists asset,
    resolveAsset (PathRef path) registry = Ok asset
    /\ AssetMeta.src asset = path
    /\ AssetMeta.width asset = NaN
    /\ AssetMeta.height asset = NaN
    /\ AssetMeta.anchor asset = None
    /\ mapImageIntoContainer asset container anchor
       = ImageMapping.mk 0 0 (Vec2.mk 0 0) anchor.
Proof.
  eexists. split; [ reflexivity | ]. split; [ reflexivity | ].
  split; [ reflexivity | ]. split; [ reflexivity | ]. split; [ reflexivity | ].
  unfold mapImageIntoContainer.
  cbn [AssetMeta.anchor AssetMeta.width AssetMeta.height JS.Number_isFinite negb orb].
  destruct container as [c | ]; [ | reflexivity ].
  destruct (Container.width c) as [cw | ], (Container.height c) as [ch | ];
    try reflexivity; rewrite ?orb_true_r;
    match goal with |- context [if ?b then _ else _] => destruct b end; reflexivity.
Qed.

(** ** The centre of the stage *)



(** ** The converter *)

Lemma clamp_within lo hi n : within lo hi n = true -> clamp n lo hi = n.
Proof.
  unfold within, clamp, JS.Math_max, JS.Math_min.
  destruct lo as [a | | | ], hi as [b | | | ], n as [r | | | ]; cbn;
    try discriminate; try reflexivity;
    unfold Rleb; repeat (destruct (Rle_dec _ _)); cbn;
    try discriminate; try reflexivity; intros _; f_equal; lra.
Qed.

Lemma clamp_in_range lo hi n :
  (lo <=? hi)%js = true -> is_NaN n = false -> within lo hi (clamp n lo hi) = true.
Proof.
  unfold within, clamp, JS.Math_max, JS.Math_min.
  destruct lo as [a | | | ], hi as [b | | | ], n as [r | | | ]; cbn;
    try discriminate; try reflexivity;
    unfold Rleb; repeat (destruct (Rle_dec _ _)); cbn;
    try discriminate; try reflexivity;
    unfold Rleb; repeat (destruct (Rle_dec _ _)); cbn;
    try discriminate; try reflexivity; intros; lra.
Qed.

Lemma clamp_idempotent lo hi n : clamp (clamp n lo hi) lo hi = clamp n lo hi.
Proof.
  unfold clamp, JS.Math_max, JS.Math_min.
  destruct lo as [a | | | ], hi as [b | | | ], n as [r | | | ]; cbn;
    try reflexivity;
    unfold Rleb; repeat (destruct (Rle_dec _ _)); cbn;
    try reflexivity;
    unfold Rleb; repeat (destruct (Rle_dec _ _)); cbn;
    try reflexivity; try (f_equal; lra); try lra.
Qed.

Lemma clamp_NaN lo hi : clamp NaN lo hi = NaN.
Proof. unfold clamp, JS.Math_max, JS.Math_min. destruct lo, hi; reflexivity. Qed.

(** X22.  The range controls clamp: with a range whose minimum is not
    above its maximum, toUIRpm, fromUIRpm, toUIOpacity, fromUIOpacity and
    both axes of fromUIScaleUniform lie inside the range for every input
    other than NaN, so inside [0, 60], [0, 1] and [0.1, 10] with the
    default options; converting twice is converting once; and NaN is not
    clamped but returned as it is. *)
Theorem converter_clamps_into_range :
  (forall opts n,
      let r := spread DEF_RPM opts in
      ((Range.min r <=? Range.max r)%js = true -> is_NaN n = false ->
       in_range r (toUIRpm n opts) = true /\ in_range r (fromUIRpm n opts) = true)
      /\ fromUIRpm (toUIRpm n opts) opts = toUIRpm n opts
      /\ fromUIRpm NaN opts = NaN)
  /\ (forall opts n,
         let r := spread DEF_OPACITY opts in
         ((Range.min r <=? Range.max r)%js = true -> is_NaN n = false ->
          in_range r (toUIOpacity n opts) = true /\ in_range r (fromUIOpacity n opts) = true)
         /\ fromUIOpacity (toUIOpacity n opts) opts = toUIOpacity n opts
         /\ fromUIOpacity NaN opts = NaN)
  /\ (forall opts n,
         let r := spread DEF_SCALE opts in
         ((Range.min r <=? Range.max r)%js = true -> is_NaN n = false ->
          in_range r (Vec2.x (fromUIScaleUniform n opts)) = true
          /\ in_range r (Vec2.y (fromUIScaleUniform n opts)) = true)
         /\ Vec2.x (fromUIScaleUniform n opts) = Vec2.y (fromUIScaleUniform n opts)
         /\ fromUIScaleUniform NaN opts = Vec2.mk NaN NaN)
  /\ (forall n, is_NaN n = false ->
                within 0 60 (fromUIRpm n no_options) = true
                /\ within 0 1 (fromUIOpacity n no_options) = true
                /\ within 0.1 10 (Vec2.x (fromUIScaleUniform n no_options)) = true).
Proof.
  split; [ | split; [ | split ] ].
  - intros opts n r. unfold toUIRpm, fromUIRpm. fold r. cbv zeta. unfold in_range.
    split; [ | split ].
    + intros Hr Hn. split; apply clamp_in_range; assumption.
    + apply clamp_idempotent.
    + apply clamp_NaN.
  - intros opts n r. unfold toUIOpacity, fromUIOpacity. fold r. cbv zeta. unfold in_range.
    split; [ | split ].
    + intros Hr Hn. split; apply clamp_in_range; assumption.
    + apply clamp_idempotent.
    + apply clamp_NaN.
  - intros opts n r. unfold fromUIScaleUniform. fold r. cbv zeta. unfold in_range.
    cbn [Vec2.x Vec2.y]. split; [ | split ].
    + intros Hr Hn. split; apply clamp_in_range; assumption.
    + reflexivity.
    + now rewrite clamp_NaN.
  - intros n Hn.
    unfold fromUIRpm, fromUIOpacity, fromUIScaleUniform, no_options, spread,
      DEF_RPM, DEF_OPACITY, DEF_SCALE.
    cbn [spread_bound RangeOptions.min RangeOptions.max Range.min Range.max Vec2.x].
    split; [ | split ]; (apply clamp_in_range; [ | exact Hn ]);
      cbn [JS.le]; apply Rleb_true; lra.
Qed.

(** *** Angles *)

Lemma Int_part_unit y : 0 <= y < 1 -> Int_part y = 0%Z.
Proof.
  intros [H0 H1]. destruct (base_Int_part y) as [Hl Hu].
  assert (Ha : IZR (Int_part y) < IZR 1) by lra. apply lt_IZR in Ha.
  assert (Hb : IZR (-1) < IZR (Int_part y)) by lra. apply lt_IZR in Hb.
  lia.
Qed.

Lemma remainder_360 (p : R) :
  exists r : R,
    remainder (Num p) 360 = Num r
    /\ -360 < r < 360 /\ (0 <= p -> 0 <= r) /\ (p <= 0 -> r <= 0).
Proof.
  unfold remainder. rewrite (Rltb_true 0 360) by lra. rewrite orb_true_r.
  exists (p - 360 * IZR (truncate (p / 360))).
  split; [ reflexivity | ].
  unfold truncate. destruct (Rle_dec 0 (p / 360)) as [Hp | Hn].
  - destruct (base_Int_part (p / 360)) as [Hl Hu].
    split; [ lra | ]. split; [ lra | ].
    intros Hneg. assert (E : p / 360 = 0) by lra.
    rewrite E, Int_part_unit by lra. lra.
  - destruct (base_Int_part (- (p / 360))) as [Hl Hu]. rewrite opp_IZR. lra.
Qed.

Lemma wrap360_finite (p : R) :
  exists r : R, wrap360 (Num p) = Num r /\ 0 <= r <= 360 /\ (0 <= p -> r < 360).
Proof.
  destruct (remainder_360 p) as (r & Hr & Hb & Hpos & Hneg). unfold wrap360. rewrite Hr.
  cbn [JS.lt JS.add]. unfold Rltb. destruct (Rlt_dec r 0) as [Hlt | Hge].
  - exists (r + 360). split; [ reflexivity | ]. split; [ lra | ].
    intros H0. specialize (Hpos H0). lra.
  - exists r. split; [ reflexivity | ]. lra.
Qed.

Lemma wrap360_wrapped n : wrapped n = true -> wrap360 n = n.
Proof.
  unfold wrapped. intros H. apply andb_true_iff in H as [H0 H1].
  destruct n as [r | | | ]; try discriminate.
  cbn in H0, H1. apply Rleb_spec in H0. apply Rltb_spec in H1.
  unfold wrap360, remainder. rewrite (Rltb_true 0 360) by lra. rewrite orb_true_r.
  unfold truncate. destruct (Rle_dec 0 (r / 360)) as [Hp | Hn]; [ | lra ].
  rewrite Int_part_unit by lra.
  cbn [JS.lt]. rewrite Rltb_false by lra. f_equal. lra.
Qed.

Lemma wrap360_not_finite n : JS.Number_isFinite n = false -> wrap360 n = NaN.
Proof. destruct n; try discriminate; reflexivity. Qed.

(** X23.  toUIDeg wraps: a finite angle becomes a finite angle of
    [0, 360], below 360 when the angle is not negative (360 itself can
    come out of a negative angle, by the rounding of the sum of its
    remainder and 360); an angle already in [0, 360) is unchanged; NaN and
    the infinities become NaN; and with wrap: false the angle is returned
    as it is. *)
Theorem toUIDeg_wraps :
  (forall deg : R,
      exists r : R,
        toUIDeg (Num deg) None = Num r /\ 0 <= r <= 360 /\ (0 <= deg -> r < 360))
  /\ (forall deg, wrapped deg = true -> toUIDeg deg None = deg)
  /\ (forall deg, JS.Number_isFinite deg = false -> toUIDeg deg None = NaN)
  /\ (forall deg, toUIDeg deg (Some (AngleOptions.mk (Some false))) = deg).
Proof.
  unfold toUIDeg. cbn [AngleOptions.wrap].
  split; [ | split; [ | split ] ].
  - intros deg. apply wrap360_finite.
  - intros deg. apply wrap360_wrapped.
  - intros deg. apply wrap360_not_finite.
  - reflexivity.
Qed.

(** *** Layers and their controls *)

(** X25.  fromUILayerControls never touches the id, the asset
    reference, the position, the anchor, the events and the container of
    its base, nor the centre of its orbit, whatever the update and the
    options; the orbit it returns carries no direction; and the update
    that sets nothing returns the base, without the direction of its
    orbit. *)
Theorem fromUILayerControls_untouched base ui rpmOpts scaleOpts opacityOpts :
  untouched (fromUILayerControls base ui rpmOpts scaleOpts opacityOpts) = untouched base
  /\ Orbit.direction
       (Behaviors.orbit
          (Layer.behaviors (fromUILayerControls base ui rpmOpts scaleOpts opacityOpts)))
     = VUndef
  /\ fromUILayerControls base no_controls rpmOpts scaleOpts opacityOpts
     = without_orbit_direction base.
Proof.
  split; [ reflexivity | ]. split; [ reflexivity | ].
  destruct base as [id ref pos [sx sy] ang [tx ty] anch op
                      [[se sr sd] [oe orpm orad oc od] [pe pa pr] [fe ff ft fr]] ev cont].
  unfold fromUILayerControls, without_orbit_direction, orbit_toward, no_controls,
    defined_or, group_value, group_number.
  cbn [Layer.behaviors Layer.angle Layer.tilt Layer.opacity Layer.scale Vec2.x Vec2.y
       Layer.layerId Layer.assetRef Layer.position Layer.anchor Layer.events Layer.container
       Behaviors.spin Behaviors.orbit Behaviors.pulse Behaviors.fade
       Spin.enabled Spin.rpm Spin.direction
       Orbit.enabled Orbit.rpm Orbit.radius Orbit.center Orbit.direction
       Pulse.enabled Pulse.amplitude Pulse.rpm
       Fade.enabled Fade.from Fade.to Fade.rpm
       UI.angle UI.tiltX UI.tiltY UI.opacity UI.scale UI.spin UI.orbit UI.pulse UI.fade
       nullish].
  reflexivity.
Qed.

(** X26.  The controls read back after an update are the controls
    written, normalized: the angle and the tilts that the update sets come
    back as toUIDeg makes them, its opacity clamped to the opacity range,
    and the rpm of a behaviour group clamped to the rpm range; its scale
    comes back as toUIScaleUniform of the clamped scale on both axes;
    the controls that the update leaves out come back as those of the
    base. *)
Theorem controls_read_back base ui rpmOpts scaleOpts opacityOpts :
  let out :=
    toUILayerControls (fromUILayerControls base ui rpmOpts scaleOpts opacityOpts)
                      rpmOpts scaleOpts opacityOpts in
  let was := toUILayerControls base rpmOpts scaleOpts opacityOpts in
  UI.angle out = match UI.angle ui with
                 | Some a => Some (toUIDeg a None)
                 | None => UI.angle was
                 end
  /\ UI.tiltX out = match UI.tiltX ui with
                    | Some a => Some (toUIDeg a None)
                    | None => UI.tiltX was
                    end
  /\ UI.tiltY out = match UI.tiltY ui with
                    | Some a => Some (toUIDeg a None)
                    | None => UI.tiltY was
                    end
  /\ UI.opacity out = match UI.opacity ui with
                      | Some o => Some (toUIOpacity o opacityOpts)
                      | None => UI.opacity was
                      end
  /\ UI.scale out = match UI.scale ui with
                    | Some s =>
                        let c := fromUIScaleUniform s scaleOpts in
                        Some (toUIScaleUniform (Vec2.x c) (Vec2.y c) scaleOpts)
                    | None => UI.scale was
                    end
  /\ option_map UISpin.rpm (UI.spin out)
     = match group_number (UI.spin ui) UISpin.rpm with
       | Some r => Some (Some (toUIRpm r rpmOpts))
       | None => option_map UISpin.rpm (UI.spin was)
       end
  /\ option_map UIFade.rpm (UI.fade out)
     = match group_number (UI.fade ui) UIFade.rpm with
       | Some r => Some (Some (toUIRpm r rpmOpts))
       | None => option_map UIFade.rpm (UI.fade was)
       end.
Proof.
  cbv zeta.
  unfold fromUILayerControls, toUILayerControls, defined_or, group_value, group_number,
    fromUIDeg, toUIRpm, fromUIRpm, toUIOpacity, fromUIOpacity,
    toUIScaleUniform, fromUIScaleUniform.
  cbn [Layer.behaviors Layer.angle Layer.tilt Layer.opacity Layer.scale Vec2.x Vec2.y
       Behaviors.spin Behaviors.orbit Behaviors.pulse Behaviors.fade
       Spin.rpm Fade.rpm
       UI.angle UI.tiltX UI.tiltY UI.opacity UI.scale UI.spin UI.fade option_map
       UISpin.rpm UIFade.rpm].
  repeat split.
  - destruct (UI.angle ui); reflexivity.
  - destruct (UI.tiltX ui); reflexivity.
  - destruct (UI.tiltY ui); reflexivity.
  - destruct (UI.opacity ui); [ | reflexivity ]. now rewrite clamp_idempotent.
  - destruct (UI.scale ui); reflexivity.
  - destruct (UI.spin ui) as [g | ]; [ | reflexivity ].
    destruct (UISpin.rpm g); [ | reflexivity ]. now rewrite clamp_idempotent.
  - destruct (UI.fade ui) as [g | ]; [ | reflexivity ].
    destruct (UIFade.rpm g); [ | reflexivity ]. now rewrite clamp_idempotent.
Qed.
